(** * Batch renderer [o3d_batch.py]: alpha extraction, resume tracking, compositing

    A shallow embedding of the batch pipeline of [src/o3d_batch.py].

    - NumPy's [float32] / [float64] values are IEEE 754 values of
      [SpecFloat] at precision 24 / 53; [uint8] values are [Z] with the
      wrap-around written out.
    - The Open3D window, the render option and the file system are an explicit
      [World] threaded through a state-and-exception monad [M]; every call
      to an external collaborator is recorded in [trace].
    - What the outside answers (captured buffers, parsed files, failing
      writes) is given by oracles that see the whole history of calls. *)

From Stdlib Require Import ZArith List Bool Lia Ascii String.
From Stdlib Require Import Floats.SpecFloat.
From stdpp Require Import gmap strings list pretty.

Local Open Scope Z_scope.

(* ===================================================================== *)
(** * NumPy numerics *)
(* ===================================================================== *)

Module Np.

(** [x.astype(np.float32)] and [float(x)] / [dtype=np.float64] on an integer:
    exact for every [uint8]. *)
Definition f32_of_Z (z : Z) : spec_float := binary_normalize 24 128 z 0 false.
Definition f64_of_Z (z : Z) : spec_float := binary_normalize 53 1024 z 0 false.

(** A Python float (binary64) used as the scalar operand of a [float32]
    array operation is rounded to binary32 (the result array stays
    [float32]). *)
Definition f32_of_f64 (x : spec_float) : spec_float :=
  match x with
  | S754_finite s m e => binary_round 24 128 s m e
  | _ => x
  end.

(** A [float32] element promoted to [float64] (exact; re-normalises the
    mantissa to 53 bits). *)
Definition f64_of_f32 (x : spec_float) : spec_float :=
  match x with
  | S754_finite s m e => binary_round 53 1024 s m e
  | _ => x
  end.

Definition is_nan (x : spec_float) : bool :=
  match x with S754_nan => true | _ => false end.

(** [np.maximum] / [np.minimum]: a NaN operand wins, otherwise the usual
    comparison (first operand kept on ties). *)
Definition maximum (a b : spec_float) : spec_float :=
  if is_nan a then a else if is_nan b then b
  else if SFltb a b then b else a.

Definition minimum (a b : spec_float) : spec_float :=
  if is_nan a then a else if is_nan b then b
  else if SFltb b a then b else a.

(** [np.clip(x, lo, hi)] = [np.minimum(np.maximum(x, lo), hi)]. *)
Definition clip (x lo hi : spec_float) : spec_float :=
  minimum (maximum x lo) hi.

(** Integer part of a finite value, rounded toward zero. *)
Definition trunc (x : spec_float) : Z :=
  match x with
  | S754_finite s m e => cond_Zopp s (Z.shiftl (Z.pos m) e)
  | _ => 0
  end.

(** [x.astype(np.uint8)] on a float: truncation toward zero, reduced to
    8 bits.  NaN and infinities have no defined conversion in C; the
    x86 result (0) is used. *)
Definition astype_uint8 (x : spec_float) : Z := trunc x mod 256.

(** [uint8] multiplication, wrapping. *)
Definition mul_uint8 (a b : Z) : Z := (a * b) mod 256.

End Np.

(** A pixel / colour / point: three channels. *)
Definition Vec3 : Type := spec_float * spec_float * spec_float.

(** Captured buffers, row-major: [float32] colour (H x W x 3), [float32]
    depth (H x W), [uint8] colour and alpha. *)
Definition FloatImage : Type := list (list Vec3).
Definition DepthImage : Type := list (list spec_float).
Definition Rgb8 : Type := list (list (Z * Z * Z)).
Definition Alpha : Type := list (list Z).
Definition Rgba : Type := list (list (Z * Z * Z * Z)).

Definition f32_0 : spec_float := Np.f32_of_Z 0.
Definition f32_1 : spec_float := Np.f32_of_Z 1.
Definition f32_255 : spec_float := Np.f32_of_Z 255.
Definition f64_1 : spec_float := Np.f64_of_Z 1.

(** Element-wise map over a 2-d array. *)
Definition map2d {A B} (f : A -> B) (a : list (list A)) : list (list B) :=
  map (map f) a.

Definition map3 {A B} (f : A -> B) (p : A * A * A) : B * B * B :=
  let '(r, g, b) := p in (f r, f g, f b).

(** [(np.clip(rgb, 0, 1) * 255.0).astype(np.uint8)]  (line 105) *)
Definition to_rgb8_channel (x : spec_float) : Z :=
  Np.astype_uint8 (SFmul 24 128 (Np.clip x f32_0 f32_1) (Np.f32_of_f64 (Np.f64_of_Z 255))).

Definition to_rgb8 (rgb : FloatImage) : Rgb8 := map2d (map3 to_rgb8_channel) rgb.

(** [np.where(dep > 0, 255, 0).astype(np.uint8)]  (line 106) *)
Definition depth_alpha_px (d : spec_float) : Z :=
  (if SFltb f32_0 d then 255 else 0) mod 256.

Definition depth_alpha (dep : DepthImage) : Alpha := map2d depth_alpha_px dep.

(** ** Chroma key mask (lines 124-127) *)

(** [rgb_key - key[None, None, :]]: the float32 pixel is promoted to
    float64 and the key subtracted channel by channel. *)
Definition np_sub_key (key : Vec3) (rgb_key : FloatImage) : list (list Vec3) :=
  map2d (fun px : Vec3 =>
           let '(r, g, b) := px in
           let '(kr, kg, kb) := key in
           (SFsub 53 1024 (Np.f64_of_f32 r) kr,
            SFsub 53 1024 (Np.f64_of_f32 g) kg,
            SFsub 53 1024 (Np.f64_of_f32 b) kb)) rgb_key.

(** [np.abs(_)] *)
Definition np_abs3 (a : list (list Vec3)) : list (list Vec3) :=
  map2d (map3 SFabs) a.

(** [_.max(axis=2)]: [np.maximum] reduced over the three channels. *)
Definition np_max_axis2 (a : list (list Vec3)) : list (list spec_float) :=
  map2d (fun px : Vec3 => let '(r, g, b) := px in Np.maximum (Np.maximum r g) b) a.

(** [mask = diff > float(CFG["chroma_tol"])] *)
Definition np_gt (tol : spec_float) (diff : list (list spec_float)) : list (list bool) :=
  map2d (fun d => SFltb tol d) diff.

(** [alpha = mask.astype(np.uint8) * 255] *)
Definition mask_to_alpha (mask : list (list bool)) : Alpha :=
  map2d (fun m : bool => Np.mul_uint8 (Z.b2z m) 255) mask.

Definition chroma_mask (key : Vec3) (tol : spec_float) (rgb_key : FloatImage) : Alpha :=
  let diff := np_max_axis2 (np_abs3 (np_sub_key key rgb_key)) in
  let mask := np_gt tol diff in
  mask_to_alpha mask.

(** ** Brightness (lines 270-274) *)

(** [np.clip(c.astype(np.float32) * float(b), 0, 255).astype(np.uint8)] on
    one channel value. *)
Definition brighten_channel (b : spec_float) (c : Z) : Z :=
  Np.astype_uint8
    (Np.clip (SFmul 24 128 (Np.f32_of_Z c) (Np.f32_of_f64 b)) f32_0 f32_255).

(** [if CFG["brightness"] != 1.0: rgb8 = ...] *)
Definition apply_brightness (b : spec_float) (rgb8 : Rgb8) : Rgb8 :=
  if negb (SFeqb b f64_1) then map2d (map3 (brighten_channel b)) rgb8 else rgb8.

(** [alpha.max()]: the largest element; NumPy raises [ValueError] on an
    array with no element. *)
Definition np_max (a : Alpha) : option Z :=
  match concat a with
  | [] => None
  | x :: xs => Some (fold_left Z.max xs x)
  end.

(** [np.dstack([rgb8, alpha])], element-wise; the two arrays have the
    canvas shape. *)
Definition np_dstack (rgb8 : Rgb8) (alpha : Alpha) : Rgba :=
  zip_with (zip_with (fun (c : Z * Z * Z) (a : Z) => let '(r, g, b) := c in (r, g, b, a)))
           rgb8 alpha.

(* ===================================================================== *)
(** * Data model *)
(* ===================================================================== *)

(** The global [CFG] dictionary (lines 8-36). *)
Record CFG := {
  in_dir : string;
  out_dir : string;
  glob : string;
  view_json : string;
  width : Z;
  height : Z;
  point_size : spec_float;
  brightness : spec_float;
  voxel_size : spec_float;
  max_files : Z;
  use_resume : bool;
  resume_file : string;
  gc_every : Z;
  translate_to_ref_center : bool;
  chroma_key_fallback : bool;
  chroma_key_rgb : Vec3;
  chroma_tol : spec_float
}.

(** [CFG["width"], CFG["height"] = int(view_w), int(view_h)]  (line 140) *)
Definition set_canvas (w h : Z) (c : CFG) : CFG :=
  {| in_dir := in_dir c; out_dir := out_dir c; glob := glob c;
     view_json := view_json c; width := w; height := h;
     point_size := point_size c; brightness := brightness c;
     voxel_size := voxel_size c; max_files := max_files c;
     use_resume := use_resume c; resume_file := resume_file c;
     gc_every := gc_every c;
     translate_to_ref_center := translate_to_ref_center c;
     chroma_key_fallback := chroma_key_fallback c;
     chroma_key_rgb := chroma_key_rgb c; chroma_tol := chroma_tol c |}.

(** [o3d.geometry.PointCloud]: points and per-point colours. *)
Record PointCloud := { points : list Vec3; colors : list Vec3 }.

Definition is_empty (p : PointCloud) : bool :=
  match points p with [] => true | _ => false end.

Definition has_colors (p : PointCloud) : bool :=
  negb (is_empty p) && Nat.eqb (length (colors p)) (length (points p)).

(** [_ensure_colors]  (lines 79-84) *)
Definition _ensure_colors (pcd : PointCloud) : PointCloud :=
  if negb (has_colors pcd)
  then {| points := points pcd;
          colors := repeat (f64_1, f64_1, f64_1) (length (points pcd)) |}
  else pcd.

(** [pcd.translate(t, relative=True)] *)
Definition translate (t : Vec3) (p : PointCloud) : PointCloud :=
  let '(tx, ty, tz) := t in
  {| points := map (fun q : Vec3 => let '(x, y, z) := q in
                      (SFadd 53 1024 x tx, SFadd 53 1024 y ty, SFadd 53 1024 z tz))
                   (points p);
     colors := colors p |}.

(** [ref_center - new_center] *)
Definition vec_sub (a b : Vec3) : Vec3 :=
  let '(ax, ay, az) := a in
  let '(bx, by_, bz) := b in
  (SFsub 53 1024 ax bx, SFsub 53 1024 ay by_, SFsub 53 1024 az bz).

(** [o3d.camera.PinholeCameraParameters]: width, height, fx, fy, cx, cy
    and the extrinsic matrix. *)
Record PinholeCameraParameters := {
  intr_width : Z; intr_height : Z;
  fx : spec_float; fy : spec_float; cx : spec_float; cy : spec_float;
  extrinsic : list (list spec_float)
}.

(** The parsed camera descriptor. *)
Record ViewJson := {
  vj_intrinsic_matrix : list (list spec_float);
  vj_width : Z;
  vj_height : Z;
  vj_extrinsic : list (list spec_float);
  vj_ref_center : option Vec3
}.

(** Python exceptions: [SystemExit] is not an [Exception] and passes through
    [except Exception]. *)
Inductive Exn :=
| SystemExit (msg : string)
| PyException (name : string).

Inductive Res (A : Type) :=
| Ok (a : A)
| Raise (e : Exn).
Arguments Ok {A} a.
Arguments Raise {A} e.

(** Calls made to the render backend and the file system. A write records
    whether it went through. *)
Inductive Event :=
| CreateWindow (w h : Z)
| AddGeometry (p : PointCloud)
| UpdateGeometry (p : PointCloud)
| ConvertFromPinhole (params : PinholeCameraParameters)
| CtrCall (name : string)
| PollEvents
| UpdateRenderer
| CaptureScreen
| CaptureDepth
| SetBackground (c : Vec3)
| WriteResume (next_index : Z) (ok : bool)
| AppendLog (msg : string) (ok : bool)
| SavePng (name : string) (ok : bool)
| GcCollect
| DestroyWindow.

(** The resume file on disk. *)
Inductive FileState :=
| Absent
| Unreadable
| Content (text : string).

(** Mutable state outside the program: the history of calls, the render
    option, and the three places the pipeline writes to (the resume file,
    the PNG files of the output directory by name, the lines of
    [_empty_frames.txt]). *)
Record World := {
  trace : list Event;
  opt_point_size : spec_float;
  background_color : Vec3;
  light_on : bool;
  resume_text : FileState;
  out_files : gmap string Rgba;
  empty_log : list string
}.

(** What the outside answers, as functions of the history so far. *)
Record Env := {
  glob_names : list string;
  path_leb : string -> string -> bool;
  py_int : string -> option Z;
  view : option ViewJson;
  read_point_cloud : string -> PointCloud;
  voxel_down_sample : spec_float -> PointCloud -> PointCloud;
  get_center : PointCloud -> Vec3;
  ctr_has : string -> bool;
  screen_buffer : list Event -> Res FloatImage;
  depth_buffer : list Event -> Res DepthImage;
  io_fails : list Event -> bool
}.

Definition add_events (evs : list Event) (w : World) : World :=
  {| trace := trace w ++ evs; opt_point_size := opt_point_size w;
     background_color := background_color w; light_on := light_on w;
     resume_text := resume_text w; out_files := out_files w;
     empty_log := empty_log w |}.

Definition set_render_option (ps : spec_float) (bg : Vec3) (l : bool) (w : World) : World :=
  {| trace := trace w; opt_point_size := ps;
     background_color := bg; light_on := l;
     resume_text := resume_text w; out_files := out_files w;
     empty_log := empty_log w |}.

Definition set_resume_text (f : FileState) (w : World) : World :=
  {| trace := trace w; opt_point_size := opt_point_size w;
     background_color := background_color w; light_on := light_on w;
     resume_text := f; out_files := out_files w;
     empty_log := empty_log w |}.

Definition set_out_files (o : gmap string Rgba) (w : World) : World :=
  {| trace := trace w; opt_point_size := opt_point_size w;
     background_color := background_color w; light_on := light_on w;
     resume_text := resume_text w; out_files := o;
     empty_log := empty_log w |}.

Definition set_empty_log (l : list string) (w : World) : World :=
  {| trace := trace w; opt_point_size := opt_point_size w;
     background_color := background_color w; light_on := light_on w;
     resume_text := resume_text w; out_files := out_files w;
     empty_log := l |}.

(* ===================================================================== *)
(** * The state-and-exception monad *)
(* ===================================================================== *)

Definition M (A : Type) : Type := World -> Res A * World.

Definition ret {A} (a : A) : M A := fun w => (Ok a, w).

Definition raise {A} (e : Exn) : M A := fun w => (Raise e, w).

Definition bind {A B} (m : M A) (k : A -> M B) : M B :=
  fun w => match m w with
           | (Ok a, w') => k a w'
           | (Raise e, w') => (Raise e, w')
           end.

(** [try: body  except Exception: handler] *)
Definition try_except {A} (body handler : M A) : M A :=
  fun w => match body w with
           | (Raise (PyException _), w') => handler w'
           | r => r
           end.

Declare Scope py_scope.
Delimit Scope py_scope with py.
Notation "'let*' x := c1 'in' c2" := (bind c1 (fun x => c2))
  (at level 10, x name, c1 at level 100, c2 at level 200) : py_scope.
Notation "'let*' ' p := c1 'in' c2" :=
  (bind c1 (fun x => match x with p => c2 end))
  (at level 10, p strict pattern, c1 at level 100, c2 at level 200) : py_scope.
Notation "c1 >> c2" := (bind c1 (fun _ => c2))
  (at level 90, right associativity) : py_scope.
Local Open Scope py_scope.

(** Append one call to the history. *)
Definition emit (e : Event) : M unit := fun w => (Ok tt, add_events [e] w).

(** Lift an oracle's answer. *)
Definition of_res {A} (r : Res A) : M A := fun w => (r, w).

(* ===================================================================== *)
(** * The program *)
(* ===================================================================== *)

(** [Path.stem]: the name without its last suffix; a dot in first or last
    position starts no suffix. *)
Fixpoint rfind_dot (s : string) (i : nat) (found : option nat) : option nat :=
  match s with
  | EmptyString => found
  | String c rest =>
      rfind_dot rest (S i) (if Ascii.eqb c "."%char then Some i else found)
  end.

Definition stem (name : string) : string :=
  match rfind_dot name 0%nat None with
  | Some i =>
      if (Nat.ltb 0 i && Nat.ltb i (String.length name - 1))%bool
      then String.substring 0 i name
      else name
  | None => name
  end.

(** [sorted(...)]: stable, by the path order of the platform. *)
Fixpoint insert_sorted (leb : string -> string -> bool) (x : string) (l : list string)
  : list string :=
  match l with
  | [] => [x]
  | y :: l' => if leb y x then y :: insert_sorted leb x l' else x :: y :: l'
  end.

Definition sorted (leb : string -> string -> bool) (l : list string) : list string :=
  fold_right (insert_sorted leb) [] l.

(** [str(n)] of an integer. *)
Definition py_str (n : Z) : string := pretty n.

Definition newline : string := String (Ascii.ascii_of_nat 10) EmptyString.

(** [f"EMPTY_FRAME idx={idx} file={ply.name}\n"]  (line 260) *)
Definition empty_frame_msg (idx : Z) (name : string) : string :=
  "EMPTY_FRAME idx=" +:+ py_str idx +:+ " file=" +:+ name +:+ newline.

(** [out_dir / f"{ply.stem}.png"], as a name inside the output directory. *)
Definition out_name (ply : string) : string := stem ply +:+ ".png".

Section Program.

Context (env : Env).

(** ** File system *)

(** [p.exists()] on the resume file. *)
Definition resume_exists : M bool :=
  fun w => (Ok (match resume_text w with Absent => false | _ => true end), w).

(** [p.read_text(encoding="utf-8")] *)
Definition resume_read_text : M string :=
  fun w => match resume_text w with
           | Content s => (Ok s, w)
           | _ => (Raise (PyException "OSError"), w)
           end.

(** [int(text.strip())] *)
Definition int_of_text (s : string) : M Z :=
  match py_int env s with
  | Some n => ret n
  | None => raise (PyException "ValueError")
  end.

(** [_read_resume]  (lines 38-45) *)
Definition _read_resume : M (option Z) :=
  let* e := resume_exists in
  if negb e then ret None
  else
    try_except
      (let* s := resume_read_text in
       let* n := int_of_text s in
       ret (Some n))
      (ret None).

(** [Path(CFG["resume_file"]).write_text(str(next_index))]: a failing
    write raises and leaves the file as it was. *)
Definition resume_write_text (next_index : Z) : M unit :=
  fun w =>
    if io_fails env (trace w)
    then (Raise (PyException "OSError"), add_events [WriteResume next_index false] w)
    else (Ok tt, add_events [WriteResume next_index true]
                   (set_resume_text (Content (py_str next_index)) w)).

(** [_write_resume]  (lines 47-51) *)
Definition _write_resume (next_index : Z) : M unit :=
  try_except (resume_write_text next_index) (ret tt).

(** [with empty_log.open("a") as f: f.write(msg)] *)
Definition log_append (msg : string) : M unit :=
  fun w =>
    if io_fails env (trace w)
    then (Raise (PyException "OSError"), add_events [AppendLog msg false] w)
    else (Ok tt, add_events [AppendLog msg true]
                   (set_empty_log (empty_log w ++ [msg]) w)).

(** [out_path.exists()] *)
Definition out_exists (name : string) : M bool :=
  fun w => (Ok (bool_decide (is_Some (out_files w !! name))), w).

(** [Image.fromarray(rgba, mode="RGBA").save(out_path)]: a failing write
    raises. *)
Definition save_png (name : string) (rgba : Rgba) : M unit :=
  fun w =>
    if io_fails env (trace w)
    then (Raise (PyException "OSError"), add_events [SavePng name false] w)
    else (Ok tt, add_events [SavePng name true]
                   (set_out_files (<[name := rgba]> (out_files w)) w)).

(** ** Camera descriptor *)

(** [K[i, j]] *)
Definition mat_get (K : list (list spec_float)) (i j : nat) : M spec_float :=
  match K !! i with
  | Some row => match row !! j with
                | Some x => ret x
                | None => raise (PyException "IndexError")
                end
  | None => raise (PyException "IndexError")
  end.

(** [_load_view]  (lines 53-77) *)
Definition _load_view : M (PinholeCameraParameters * (Z * Z) * option Vec3) :=
  match view env with
  | None => raise (SystemExit "View JSON not found")
  | Some data =>
      let K := vj_intrinsic_matrix data in
      let width := vj_width data in
      let height := vj_height data in
      let extr := vj_extrinsic data in
      let* k00 := mat_get K 0 0 in
      let* k11 := mat_get K 1 1 in
      let* k02 := mat_get K 0 2 in
      let* k12 := mat_get K 1 2 in
      let params := {| intr_width := width; intr_height := height;
                       fx := k00; fy := k11; cx := k02; cy := k12;
                       extrinsic := extr |} in
      ret (params, (width, height), vj_ref_center data)
  end.

(** ** Render backend *)

(** [_set_constant_clipping_if_available]  (lines 86-94): each setter is
    called when the view control has it; what it raises is dropped. *)
Definition _set_constant_clipping_if_available : M unit :=
  (if ctr_has env "set_constant_z_near" then emit (CtrCall "set_constant_z_near") else ret tt) >>
  (if ctr_has env "set_constant_z_far" then emit (CtrCall "set_constant_z_far") else ret tt).

(** [_pump]  (lines 96-99) *)
Fixpoint _pump (n : nat) : M unit :=
  match n with
  | O => ret tt
  | S n' => emit PollEvents >> emit UpdateRenderer >> _pump n'
  end.

(** [vis.capture_screen_float_buffer(do_render=True)] *)
Definition capture_screen_float_buffer : M FloatImage :=
  fun w => (screen_buffer env (trace w), add_events [CaptureScreen] w).

(** [vis.capture_depth_float_buffer(do_render=True)] *)
Definition capture_depth_float_buffer : M DepthImage :=
  fun w => (depth_buffer env (trace w), add_events [CaptureDepth] w).

(** [_capture_rgb_depth]  (lines 101-107) *)
Definition _capture_rgb_depth (settle_frames : nat) : M (FloatImage * Rgb8 * Alpha) :=
  _pump settle_frames >>
  let* rgb := capture_screen_float_buffer in
  let* dep := capture_depth_float_buffer in
  let rgb8 := to_rgb8 rgb in
  let alpha := depth_alpha dep in
  ret (rgb, rgb8, alpha).

(** [opt.background_color] *)
Definition get_background : M Vec3 := fun w => (Ok (background_color w), w).

(** [opt.background_color = c] *)
Definition set_background (c : Vec3) : M unit :=
  fun w => (Ok tt, add_events [SetBackground c]
                     (set_render_option (opt_point_size w) c (light_on w) w)).

(** [_chroma_key_alpha]  (lines 109-128) *)
Definition _chroma_key_alpha (cfg : CFG) (settle_frames : nat) : M Alpha :=
  let key := chroma_key_rgb cfg in
  let* bg_orig := get_background in
  set_background key >>
  _pump settle_frames >>
  let* rgb_key := capture_screen_float_buffer in
  set_background bg_orig >>
  _pump 2 >>
  ret (chroma_mask key (chroma_tol cfg) rgb_key).

(** [alpha.max()] *)
Definition alpha_max (alpha : Alpha) : M Z :=
  match np_max alpha with
  | Some m => ret m
  | None => raise (PyException "ValueError")
  end.

(** ** [main]  (lines 130-286) *)

(** Lines 142-146: the index to start from. *)
Definition resume_start (cfg : CFG) : M Z :=
  if use_resume cfg then
    let* r := _read_resume in
    match r with
    | Some r => if 0 <=? r then ret r else ret 0
    | None => ret 0
    end
  else ret 0.

(** Lines 148-150: [files[start:]], then [files[:max_files]] when a
    positive cap is set. *)
Definition select_files (cfg : CFG) (start : Z) (files : list string) : list string :=
  let files := drop (Z.to_nat start) files in
  if 0 <? max_files cfg then take (Z.to_nat (max_files cfg)) files else files.

(** [if CFG["voxel_size"] and float(CFG["voxel_size"]) > 0: ...] *)
Definition maybe_voxel (cfg : CFG) (pcd : PointCloud) : PointCloud :=
  if SFltb (S754_zero false) (voxel_size cfg)
  then voxel_down_sample env (voxel_size cfg) pcd
  else pcd.

(** Lines 176-187: the first non-empty cloud seeds the geometry. *)
Fixpoint find_seed (cfg : CFG) (files : list string) : option (string * PointCloud) :=
  match files with
  | [] => None
  | sp :: rest =>
      let seed := read_point_cloud env sp in
      if is_empty seed then find_seed cfg rest
      else Some (sp, _ensure_colors (maybe_voxel cfg seed))
  end.

(** Lines 165-168. *)
Definition init_render_option (cfg : CFG) : M unit :=
  let black : Vec3 := (S754_zero false, S754_zero false, S754_zero false) in
  fun w => (Ok tt, add_events [SetBackground black]
                     (set_render_option (point_size cfg) black true w)).

(** Lines 231-233. *)
Definition maybe_translate (cfg : CFG) (ref_center : option Vec3) (pcd : PointCloud)
  : PointCloud :=
  match ref_center with
  | Some rc =>
      if translate_to_ref_center cfg
      then translate (vec_sub rc (get_center env pcd)) pcd
      else pcd
  | None => pcd
  end.

(** Lines 245-256: depth capture, retry, chroma-key fallback. *)
Definition extract_alpha (cfg : CFG) : M (Rgb8 * Alpha) :=
  let* '(rgb_float, rgb8, alpha) := _capture_rgb_depth 6 in
  let* m := alpha_max alpha in
  let* '(rgb_float, rgb8, alpha) :=
    (if m =? 0 then _capture_rgb_depth 20 else ret (rgb_float, rgb8, alpha)) in
  let* m := alpha_max alpha in
  let* alpha :=
    (if (m =? 0) && chroma_key_fallback cfg
     then try_except (_chroma_key_alpha cfg 10) (ret alpha)
     else ret alpha) in
  ret (rgb8, alpha).

(** Lines 258-283: skip and log an empty frame, or composite and save. *)
Definition finish_frame (cfg : CFG) (idx : Z) (k : nat) (ply : string)
           (rgb8 : Rgb8) (alpha : Alpha) : M unit :=
  let* m := alpha_max alpha in
  if m =? 0 then
    let msg := empty_frame_msg idx ply in
    try_except (log_append msg) (ret tt) >>
    _write_resume (idx + 1)
  else
    let rgb8 := apply_brightness (brightness cfg) rgb8 in
    let rgba := np_dstack rgb8 alpha in
    save_png (out_name ply) rgba >>
    _write_resume (idx + 1) >>
    if negb (gc_every cfg =? 0) && ((Z.of_nat k + 1) mod gc_every cfg =? 0)
    then emit GcCollect
    else ret tt.

(** Lines 215-283: the body of the per-frame loop. *)
Definition frame_body (cfg : CFG) (base_params : PinholeCameraParameters)
           (ref_center : option Vec3) (start : Z) (k : nat) (ply : string) : M unit :=
  let idx := start + Z.of_nat k in
  let* e := out_exists (out_name ply) in
  if e then _write_resume (idx + 1)
  else
    let pcd := read_point_cloud env ply in
    if is_empty pcd then _write_resume (idx + 1)
    else
      let pcd := maybe_voxel cfg pcd in
      let pcd := _ensure_colors pcd in
      let pcd := maybe_translate cfg ref_center pcd in
      emit (UpdateGeometry pcd) >>
      emit (ConvertFromPinhole base_params) >>
      _set_constant_clipping_if_available >>
      let* '(rgb8, alpha) := extract_alpha cfg in
      finish_frame cfg idx k ply rgb8 alpha.

(** Line 214: [for k, ply in enumerate(files, start=0)]. *)
Fixpoint main_loop (cfg : CFG) (base_params : PinholeCameraParameters)
         (ref_center : option Vec3) (start : Z) (k : nat) (files : list string) : M unit :=
  match files with
  | [] => ret tt
  | ply :: rest =>
      frame_body cfg base_params ref_center start k ply >>
      main_loop cfg base_params ref_center start (S k) rest
  end.

Definition main (cfg : CFG) : M unit :=
  let files := sorted (path_leb env) (glob_names env) in
  match files with
  | [] => raise (SystemExit "No PLY files found")
  | _ :: _ =>
      let* '(base_params, (view_w, view_h), ref_center) := _load_view in
      let cfg := set_canvas view_w view_h cfg in
      let* start := resume_start cfg in
      let files := select_files cfg start files in
      emit (CreateWindow (width cfg) (height cfg)) >>
      init_render_option cfg >>
      match find_seed cfg files with
      | None => raise (SystemExit "All PLY files were empty; nothing to render.")
      | Some (_, pcd_draw) =>
          emit (AddGeometry pcd_draw) >>
          _pump 20 >>
          emit (ConvertFromPinhole base_params) >>
          _set_constant_clipping_if_available >>
          _pump 10 >>
          main_loop cfg base_params ref_center start 0 files >>
          emit DestroyWindow
      end
  end.

End Program.

(* ===================================================================== *)
(** * The view-capture tool  (o3d_capture_view.py) *)
Module CaptureView.

(** The global [CFG] dictionary (lines 6-12). *)
Record CFG := {
  ply_path : string;
  width : Z;
  height : Z;
  point_size : spec_float;
  out_view_json : string
}.

(** [params.intrinsic.intrinsic_matrix]: Open3D keeps the focal lengths on
    the diagonal and the principal point in the last column. *)
Definition intrinsic_matrix (p : PinholeCameraParameters) : list (list spec_float) :=
  [[fx p; S754_zero false; cx p];
   [S754_zero false; fy p; cy p];
   [S754_zero false; S754_zero false; f64_1]].

(** [_to_list]  (lines 14-15): [np.asarray(mat).tolist()]. *)
Definition _to_list (mat : list (list spec_float)) : list (list spec_float) := mat.

(** The descriptor [save_view] writes (lines 51-60); the [capture_ply] entry
    is informative and is not read back. *)
Definition view_data (ref_center : Vec3) (params : PinholeCameraParameters) : ViewJson :=
  {| vj_intrinsic_matrix := _to_list (intrinsic_matrix params);
     vj_width := intr_width params;
     vj_height := intr_height params;
     vj_extrinsic := _to_list (extrinsic params);
     vj_ref_center := Some ref_center |}.

(** The keys with a registered callback, and all the others. *)
Inductive Key := KeyS | KeyQ | KeyOther.

(** One key press of the session: the key, the camera the view control
    holds at that moment, and whether writing the descriptor fails. *)
Record Press := {
  key : Key;
  camera : PinholeCameraParameters;
  write_fails : bool
}.

(** [vis.run()] with the two callbacks (lines 48-72): [S] writes the
    descriptor of the current camera and keeps running, [Q] closes the
    window, the end of the presses is the user closing it.  The state is
    the content of [CFG["out_view_json"]]. *)
Fixpoint run (ref_center : Vec3) (presses : list Press) (file : option ViewJson)
  : Res unit * option ViewJson :=
  match presses with
  | [] => (Ok tt, file)
  | p :: rest =>
      match key p with
      | KeyS =>
          if write_fails p then (Raise (PyException "OSError"), file)
          else run ref_center rest (Some (view_data ref_center (camera p)))
      | KeyQ => (Ok tt, file)
      | KeyOther => run ref_center rest file
      end
  end.

(** [main]  (lines 17-79); the colour default of lines 26-29 is the
    computation of [_ensure_colors]. *)
Definition main (env : Env) (cfg : CFG) (ply_exists : bool) (presses : list Press)
           (file : option ViewJson) : Res unit * option ViewJson :=
  if negb ply_exists then (Raise (SystemExit ("PLY not found: " +:+ ply_path cfg)), file)
  else
    let pcd := read_point_cloud env (ply_path cfg) in
    if is_empty pcd then (Raise (SystemExit "Point cloud is empty."), file)
    else
      let pcd := _ensure_colors pcd in
      let ref_center := get_center env pcd in
      run ref_center presses file.

(** A press that neither saves nor quits. *)
Definition idle (p : Press) : Prop := key p = KeyOther.

(** A press that does not quit and does not fail. *)
Definition harmless (p : Press) : Prop :=
  key p = KeyOther \/ key p = KeyS /\ write_fails p = false.

End CaptureView.


(* ===================================================================== *)
(** * Vocabulary of the statements *)
(* ===================================================================== *)

(** The backend calls of [_pump n]. *)
Fixpoint pump_events (n : nat) : list Event :=
  match n with
  | O => []
  | S n' => PollEvents :: UpdateRenderer :: pump_events n'
  end.

(** The stages of alpha extraction, with their settle frames. *)
Inductive Stage := DepthAttempt | DepthRetry | ChromaFallback.

Definition settle_frames (s : Stage) : nat :=
  match s with
  | DepthAttempt => 6
  | DepthRetry => 20
  | ChromaFallback => 10
  end.

(** The backend calls of one completed stage: the depth stages pump and
    capture colour and depth; the chroma stage sets the key background,
    pumps, captures colour, puts [bg] back and pumps twice. *)
Definition stage_calls (key bg : Vec3) (s : Stage) : list Event :=
  match s with
  | DepthAttempt | DepthRetry =>
      pump_events (settle_frames s) ++ [CaptureScreen; CaptureDepth]
  | ChromaFallback =>
      [SetBackground key] ++ pump_events (settle_frames s)
        ++ [CaptureScreen; SetBackground bg] ++ pump_events 2
  end.

(** The world after [_write_resume n]: the file holds [str(n)] when the write
    went through and is untouched otherwise. *)
Definition resumed (env : Env) (n : Z) (w : World) : World :=
  if io_fails env (trace w)
  then add_events [WriteResume n false] w
  else add_events [WriteResume n true] (set_resume_text (Content (py_str n)) w).

(** The world after the guarded append to the empty-frame log. *)
Definition logged (env : Env) (msg : string) (w : World) : World :=
  if io_fails env (trace w)
  then add_events [AppendLog msg false] w
  else add_events [AppendLog msg true] (set_empty_log (empty_log w ++ [msg]) w).

(** The resume updates in a stretch of history: value and outcome. *)
Definition resume_writes (evs : list Event) : list (Z * bool) :=
  omap (fun e => match e with WriteResume n ok => Some (n, ok) | _ => None end) evs.

(** The calls a computation added to the history of [w]. *)
Definition new_events (w w' : World) : list Event :=
  drop (length (trace w)) (trace w').

(** Calls that only touch the render backend. *)
Definition is_backend_call (e : Event) : Prop :=
  match e with
  | WriteResume _ _ | AppendLog _ _ | SavePng _ _ => False
  | _ => True
  end.

(** What one frame at index [idx] may write: its own resume value, its own
    log line, its own output. *)
Definition frame_event_ok (idx : Z) (ply : string) (e : Event) : Prop :=
  match e with
  | WriteResume n _ => n = idx + 1
  | AppendLog msg _ => msg = empty_frame_msg idx ply
  | SavePng name _ => name = out_name ply
  | _ => True
  end.

(** The geometry and camera calls that precede extraction (lines 235-242). *)
Definition prep_events (env : Env) (cfg : CFG) (base_params : PinholeCameraParameters)
           (ref_center : option Vec3) (ply : string) : list Event :=
  [UpdateGeometry (maybe_translate env cfg ref_center
                     (_ensure_colors (maybe_voxel env cfg (read_point_cloud env ply))));
   ConvertFromPinhole base_params]
  ++ (if ctr_has env "set_constant_z_near" then [CtrCall "set_constant_z_near"] else [])
  ++ (if ctr_has env "set_constant_z_far" then [CtrCall "set_constant_z_far"] else []).

(** A computation that only talks to the render backend: it extends the
    history with backend calls and leaves the three files alone. *)
Definition backend_only {A} (m : M A) : Prop :=
  forall w r w', m w = (r, w') ->
    exists evs, trace w' = trace w ++ evs /\ Forall is_backend_call evs /\
                resume_text w' = resume_text w /\ out_files w' = out_files w /\
                empty_log w' = empty_log w.

(** The world in which the extraction of a frame begins: the geometry has
    been replaced and the camera reapplied. *)
Definition extraction_start (env : Env) (cfg : CFG) (base_params : PinholeCameraParameters)
           (ref_center : option Vec3) (ply : string) (w : World) : World :=
  add_events (prep_events env cfg base_params ref_center ply) w.

(** What the backend hands to the two depth stages of an extraction that
    begins in [w]. *)
Definition depth_captures (env : Env) (cfg : CFG) (w : World)
           (rgb1 : FloatImage) (dep1 : DepthImage)
           (rgb2 : FloatImage) (dep2 : DepthImage) : Prop :=
  let s1 := stage_calls (chroma_key_rgb cfg) (background_color w) DepthAttempt in
  screen_buffer env (trace w ++ pump_events 6) = Ok rgb1 /\
  depth_buffer env (trace w ++ pump_events 6 ++ [CaptureScreen]) = Ok dep1 /\
  screen_buffer env (trace w ++ s1 ++ pump_events 20) = Ok rgb2 /\
  depth_buffer env (trace w ++ s1 ++ pump_events 20 ++ [CaptureScreen]) = Ok dep2.

(** What the keyed colour capture of the chroma stage answers, after both
    depth stages. *)
Definition keyed_capture (env : Env) (cfg : CFG) (w : World) : Res FloatImage :=
  let key := chroma_key_rgb cfg in
  let s1 := stage_calls key (background_color w) DepthAttempt in
  let s2 := stage_calls key (background_color w) DepthRetry in
  screen_buffer env (trace w ++ s1 ++ s2 ++ [SetBackground key] ++ pump_events 10).

(** The stage order: the depth attempt always runs; the retry runs exactly
    when the attempt's mask is empty; the chroma fallback runs exactly when
    the retry's mask is empty too; each stage makes its own calls with its
    own settle frames, and the mask handed on is that of the last stage
    run. *)
Definition stage_order_holds (env : Env) (cfg : CFG) (w : World) : Prop :=
  let key := chroma_key_rgb cfg in
  let s1 := stage_calls key (background_color w) DepthAttempt in
  let s2 := stage_calls key (background_color w) DepthRetry in
  let s3 := stage_calls key (background_color w) ChromaFallback in
  forall rgb1 dep1 rgb2 dep2 rgbk m1 m2,
    depth_captures env cfg w rgb1 dep1 rgb2 dep2 ->
    keyed_capture env cfg w = Ok rgbk ->
    np_max (depth_alpha dep1) = Some m1 ->
    np_max (depth_alpha dep2) = Some m2 ->
    extract_alpha env cfg w =
    if negb (m1 =? 0)
    then (Ok (to_rgb8 rgb1, depth_alpha dep1), add_events s1 w)
    else if negb (m2 =? 0)
    then (Ok (to_rgb8 rgb2, depth_alpha dep2), add_events (s1 ++ s2) w)
    else (Ok (to_rgb8 rgb2, chroma_mask key (chroma_tol cfg) rgbk),
          add_events (s1 ++ s2 ++ s3) w).

(** The resume checkpoint as the specification words it: once a frame is
    done the resume file holds its index plus one. *)
Definition resume_checkpoint_holds (env : Env) (cfg : CFG)
           (base_params : PinholeCameraParameters) (ref_center : option Vec3)
           (start : Z) (k : nat) (ply : string) (w : World) : Prop :=
  forall w', frame_body env cfg base_params ref_center start k ply w = (Ok tt, w') ->
             resume_text w' = Content (py_str (start + Z.of_nat k + 1)).

(** The resume file after a series of updates: the last one that went
    through, if any. *)
Definition persisted (f0 : FileState) (ws : list (Z * bool)) : FileState :=
  fold_left (fun (f : FileState) (nw : Z * bool) =>
               if snd nw then Content (py_str (fst nw)) else f) ws f0.

(** An index names a frame of the sorted listing. *)
Definition names_frame (listing : list string) (idx : Z) (ply : string) : Prop :=
  0 <= idx /\ listing !! Z.to_nat idx = Some ply.

(** Every resume update and every log line of a run carries the position of
    a frame in the sorted listing. *)
Definition event_indexed (listing : list string) (e : Event) : Prop :=
  match e with
  | WriteResume n _ => exists idx ply, names_frame listing idx ply /\ n = idx + 1
  | AppendLog msg _ =>
      exists idx ply, names_frame listing idx ply /\ msg = empty_frame_msg idx ply
  | _ => True
  end.

(** What the loop body for the frame at [idx] leaves behind: its calls are
    the frame's own, the resume file is what its updates made of it, and a
    frame that completes has updated the resume pointer exactly once, to
    [idx + 1]; a frame that raises has not. *)
Definition frame_footprint (idx : Z) (ply : string) (w : World) (r : Res unit) (w' : World)
  : Prop :=
  exists evs,
    trace w' = trace w ++ evs /\
    Forall (frame_event_ok idx ply) evs /\
    resume_text w' = persisted (resume_text w) (resume_writes evs) /\
    match r with
    | Ok _ => exists ok, resume_writes evs = [(idx + 1, ok)]
    | Raise _ => resume_writes evs = []
    end.

(** The values [n0], [n0 + 1], ..., [n0 + n - 1]. *)
Definition consecutive (n0 : Z) (n : nat) : list Z :=
  map (fun i : nat => n0 + Z.of_nat i) (seq 0 n).

(** What the loop over [files], entered at position [k], leaves behind: the
    frames it completed (all of them unless it raised) each updated the
    resume pointer once, with consecutive values from [start + k + 1] on;
    the resume file is what these updates made of it; every call belongs to
    one of the frames. *)
Definition loop_footprint (start : Z) (k : nat) (files : list string)
           (w : World) (r : Res unit) (w' : World) : Prop :=
  exists evs n,
    trace w' = trace w ++ evs /\
    (n <= length files)%nat /\
    (r = Ok tt -> n = length files) /\
    map fst (resume_writes evs) = consecutive (start + Z.of_nat k + 1) n /\
    resume_text w' = persisted (resume_text w) (resume_writes evs) /\
    Forall (fun e => exists (j : nat) (ply : string),
                files !! j = Some ply /\
                frame_event_ok (start + Z.of_nat (k + j)) ply e) evs.

(** A computation all of whose calls satisfy [P]. *)
Definition emits (P : Event -> Prop) {A} (m : M A) : Prop :=
  forall w r w', m w = (r, w') ->
    exists evs, trace w' = trace w ++ evs /\ Forall P evs.

(** The distance of a captured pixel from the key colour: the maximum over
    the three channels of the absolute difference, in float64. *)
Definition max_abs_diff (key : Vec3) (px : Vec3) : spec_float :=
  let '(r, g, b) := px in
  let '(kr, kg, kb) := key in
  Np.maximum
    (Np.maximum (SFabs (SFsub 53 1024 (Np.f64_of_f32 r) kr))
                (SFabs (SFsub 53 1024 (Np.f64_of_f32 g) kg)))
    (SFabs (SFsub 53 1024 (Np.f64_of_f32 b) kb)).

(** The three channel distances of a pixel from the key colour. *)
Definition channel_diffs (key : Vec3) (px : Vec3) : list spec_float :=
  let '(r, g, b) := px in
  let '(kr, kg, kb) := key in
  [SFabs (SFsub 53 1024 (Np.f64_of_f32 r) kr);
   SFabs (SFsub 53 1024 (Np.f64_of_f32 g) kg);
   SFabs (SFsub 53 1024 (Np.f64_of_f32 b) kb)].

(** The place of a value that is not NaN on the number line: sign class,
    then exponent, then mantissa (both mirrored for negative values). *)
Definition SFrank (x : spec_float) : Z * Z * Z :=
  match x with
  | S754_zero _ => (0, 0, 0)
  | S754_infinity false => (2, 0, 0)
  | S754_infinity true => (-2, 0, 0)
  | S754_nan => (0, 0, 0)
  | S754_finite false m e => (1, e, Z.pos m)
  | S754_finite true m e => (-1, - e, Z.neg m)
  end.

(** Lexicographic comparison of ranks. *)
Definition lex3 (p q : Z * Z * Z) : comparison :=
  let '(a1, b1, c1) := p in
  let '(a2, b2, c2) := q in
  match a1 ?= a2 with
  | Eq => match b1 ?= b2 with Eq => c1 ?= c2 | r => r end
  | r => r
  end.

(** Element [(i, j)] of a 2-d array. *)
Definition at2 {A} (a : list (list A)) (i j : nat) : option A :=
  match a !! i with
  | Some row => row !! j
  | None => None
  end.

(** ** Vocabulary of the wider properties *)

(** Two 2-d arrays with rows of the same lengths. *)
Definition same_shape {A B} (a : list (list A)) (b : list (list B)) : Prop :=
  map length a = map length b.

(** A string without a dot. *)
Fixpoint dot_free (s : string) : bool :=
  match s with
  | EmptyString => true
  | String c rest => negb (Ascii.eqb c "."%char) && dot_free rest
  end.

(** A float that is neither NaN nor infinite. *)
Definition is_number (x : spec_float) : bool :=
  match x with
  | S754_zero _ | S754_finite _ _ _ => true
  | _ => false
  end.

(** A pixel of the keyed capture that has exactly the key colour, channel
    by channel, the key being an ordinary number. *)
Definition matches_key (key px : Vec3) : Prop :=
  let '(r, g, b) := px in
  let '(kr, kg, kb) := key in
  (Np.f64_of_f32 r = kr /\ is_number kr = true) /\
  (Np.f64_of_f32 g = kg /\ is_number kg = true) /\
  (Np.f64_of_f32 b = kb /\ is_number kb = true).

(** The colour and the alpha channel of an RGBA pixel. *)
Definition rgb_of (p : Z * Z * Z * Z) : Z * Z * Z := let '(r, g, b, _) := p in (r, g, b).
Definition alpha_of (p : Z * Z * Z * Z) : Z := let '(_, _, _, a) := p in a.

(** The background [main] gives the render option (line 167). *)
Definition black_bg : Vec3 := (S754_zero false, S754_zero false, S754_zero false).

(** The calls of [_set_constant_clipping_if_available]. *)
Definition clip_events (env : Env) : list Event :=
  (if ctr_has env "set_constant_z_near" then [CtrCall "set_constant_z_near"] else [])
  ++ (if ctr_has env "set_constant_z_far" then [CtrCall "set_constant_z_far"] else []).

(** The world once the window is open and the render option set (lines
    157-168). *)
Definition startup_world (cfg : CFG) (view_w view_h : Z) (w : World) : World :=
  add_events [CreateWindow view_w view_h; SetBackground black_bg]
             (set_render_option (point_size cfg) black_bg true w).

(** The calls that seed the geometry and lock the camera (lines 195-205). *)
Definition seed_events (env : Env) (base_params : PinholeCameraParameters)
           (pcd_draw : PointCloud) : list Event :=
  [AddGeometry pcd_draw] ++ pump_events 20
    ++ [ConvertFromPinhole base_params] ++ clip_events env ++ pump_events 10.

(** Calls made while extracting alpha. *)
Definition is_capture_call (e : Event) : Prop :=
  match e with
  | PollEvents | UpdateRenderer | CaptureScreen | CaptureDepth | SetBackground _ => True
  | _ => False
  end.

(** Calls made while finishing a frame. *)
Definition is_finish_call (e : Event) : Prop :=
  match e with
  | WriteResume _ _ | AppendLog _ _ | SavePng _ _ | GcCollect => True
  | _ => False
  end.

(** Calls the per-frame loop may make under camera parameters
    [base_params]: it never opens or closes a window, never adds a
    geometry, and applies no other camera. *)
Definition loop_call (base_params : PinholeCameraParameters) (e : Event) : Prop :=
  match e with
  | CreateWindow _ _ | AddGeometry _ | DestroyWindow => False
  | ConvertFromPinhole p => p = base_params
  | _ => True
  end.

Definition is_window_call (e : Event) : Prop :=
  match e with CreateWindow _ _ | DestroyWindow => True | _ => False end.

Definition is_add_geometry (e : Event) : Prop :=
  match e with AddGeometry _ => True | _ => False end.

Definition is_resume_write (e : Event) : Prop :=
  match e with WriteResume _ _ => True | _ => False end.

(** A camera application, if [e] is one, applies [base_params]. *)
Definition camera_is (base_params : PinholeCameraParameters) (e : Event) : Prop :=
  match e with ConvertFromPinhole p => p = base_params | _ => True end.

(** The collector runs after the frame at loop position [k] (line 282). *)
Definition gc_due (cfg : CFG) (k : nat) : bool :=
  negb (gc_every cfg =? 0) && ((Z.of_nat k + 1) mod gc_every cfg =? 0).

(** What one frame may do to the output directory and to the log: add the
    frame's image under a name that was free, add the frame's line. *)
Definition frame_stores (idx : Z) (ply : string) (w w' : World) : Prop :=
  (out_files w' = out_files w \/
   out_files w !! out_name ply = None /\
   exists img, out_files w' = <[out_name ply := img]> (out_files w)) /\
  (empty_log w' = empty_log w \/
   empty_log w' = empty_log w ++ [empty_frame_msg idx ply]).

(** The geometry a frame hands to the renderer (lines 226-237). *)
Definition frame_geometry (env : Env) (cfg : CFG) (ref_center : option Vec3) (ply : string)
  : PointCloud :=
  maybe_translate env cfg ref_center
    (_ensure_colors (maybe_voxel env cfg (read_point_cloud env ply))).

(** A geometry update, if [e] is one, shows the cloud of one of [files];
    [e] is not the addition of a geometry. *)
Definition geometry_of (env : Env) (cfg : CFG) (ref_center : option Vec3)
           (files : list string) (e : Event) : Prop :=
  match e with
  | UpdateGeometry g =>
      exists ply, ply ∈ files /\ is_empty (read_point_cloud env ply) = false /\
                  g = frame_geometry env cfg ref_center ply
  | AddGeometry _ => False
  | _ => True
  end.

(* ===================================================================== *)
(** * A headless double of the outside world *)
(* ===================================================================== *)

Module Double.

(** A decimal parser standing for [int(text.strip())] on ASCII input. *)
Definition is_space (c : ascii) : bool :=
  let n := nat_of_ascii c in
  (Nat.eqb n 32 || (Nat.leb 9 n && Nat.leb n 13))%bool.

Fixpoint lstrip (s : string) : string :=
  match s with
  | String c rest => if is_space c then lstrip rest else s
  | EmptyString => s
  end.

Fixpoint parse_digits (s : string) (acc : Z) : option Z :=
  match s with
  | EmptyString => Some acc
  | String c rest =>
      let n := nat_of_ascii c in
      if (Nat.leb 48 n && Nat.leb n 57)%bool
      then parse_digits rest (10 * acc + Z.of_nat (n - 48))
      else None
  end.

Definition parse_unsigned (s : string) : option Z :=
  match s with
  | EmptyString => None
  | _ => parse_digits s 0
  end.

Definition ascii_int (s : string) : option Z :=
  let s := String.rev (lstrip (String.rev (lstrip s))) in
  match s with
  | String "-" rest => Z.opp <$> parse_unsigned rest
  | String "+" rest => parse_unsigned rest
  | _ => parse_unsigned s
  end.

(** Replays canned buffers: the n-th capture returns the n-th buffer. *)
Definition count_calls (is_call : Event -> bool) (t : list Event) : nat :=
  length (filter (fun e => is_call e = true) t).

Definition is_capture_screen (e : Event) : bool :=
  match e with CaptureScreen => true | _ => false end.

Definition is_capture_depth (e : Event) : bool :=
  match e with CaptureDepth => true | _ => false end.

Definition replay {A} (is_call : Event -> bool) (feed : list (Res A)) (dflt : Res A)
  : list Event -> Res A :=
  fun t => nth (count_calls is_call t) feed dflt.

Definition one_point : PointCloud :=
  {| points := [(f64_1, f64_1, f64_1)]; colors := [] |}.

Definition no_points : PointCloud := {| points := []; colors := [] |}.

Definition black : Vec3 := (S754_zero false, S754_zero false, S754_zero false).
Definition magenta : Vec3 := (f64_1, S754_zero false, f64_1).
Definition magenta32 : Vec3 := (f32_1, f32_0, f32_1).
Definition white32 : Vec3 := (f32_1, f32_1, f32_1).
Definition black32 : Vec3 := (f32_0, f32_0, f32_0).

Definition identity_view : ViewJson :=
  {| vj_intrinsic_matrix := [[f64_1; S754_zero false; f64_1];
                             [S754_zero false; f64_1; f64_1];
                             [S754_zero false; S754_zero false; f64_1]];
     vj_width := 2; vj_height := 1;
     vj_extrinsic := [];
     vj_ref_center := None |}.

(** The configuration of the source file. *)
Definition cfg0 : CFG :=
  {| in_dir := "in"; out_dir := "out"; glob := "*.ply"; view_json := "view.json";
     width := 1920; height := 1080;
     point_size := f64_1; brightness := f64_1;
     voxel_size := S754_zero false; max_files := 0;
     use_resume := false; resume_file := "resume.txt";
     gc_every := 10;
     translate_to_ref_center := true;
     chroma_key_fallback := true;
     chroma_key_rgb := magenta;
     chroma_tol := S754_zero false |}.

Definition with_resume (c : CFG) : CFG :=
  {| in_dir := in_dir c; out_dir := out_dir c; glob := glob c;
     view_json := view_json c; width := width c; height := height c;
     point_size := point_size c; brightness := brightness c;
     voxel_size := voxel_size c; max_files := max_files c;
     use_resume := true; resume_file := resume_file c;
     gc_every := gc_every c;
     translate_to_ref_center := translate_to_ref_center c;
     chroma_key_fallback := chroma_key_fallback c;
     chroma_key_rgb := chroma_key_rgb c; chroma_tol := chroma_tol c |}.

Definition without_fallback (c : CFG) : CFG :=
  {| in_dir := in_dir c; out_dir := out_dir c; glob := glob c;
     view_json := view_json c; width := width c; height := height c;
     point_size := point_size c; brightness := brightness c;
     voxel_size := voxel_size c; max_files := max_files c;
     use_resume := use_resume c; resume_file := resume_file c;
     gc_every := gc_every c;
     translate_to_ref_center := translate_to_ref_center c;
     chroma_key_fallback := false;
     chroma_key_rgb := chroma_key_rgb c; chroma_tol := chroma_tol c |}.

(** An environment over the given file names, with canned colour and depth
    buffers and a fault oracle for file writes. *)
Definition env_of (names : list string) (clouds : string -> PointCloud)
           (screens : list (Res FloatImage)) (depths : list (Res DepthImage))
           (fails : list Event -> bool) : Env :=
  {| glob_names := names;
     path_leb := String.leb;
     py_int := ascii_int;
     view := Some identity_view;
     read_point_cloud := clouds;
     voxel_down_sample := fun _ p => p;
     get_center := fun _ => black;
     ctr_has := fun _ => true;
     screen_buffer := replay is_capture_screen screens (Ok [[black32; black32]]);
     depth_buffer := replay is_capture_depth depths (Ok [[f32_0; f32_0]]);
     io_fails := fails |}.

(** A fresh desktop: no resume file, empty output directory. *)
Definition w0 : World :=
  {| trace := []; opt_point_size := f64_1; background_color := black;
     light_on := false; resume_text := Absent; out_files := ∅;
     empty_log := [] |}.

Definition frames3 : list string := ["b.ply"; "a.ply"; "c.ply"].
Definition frames5 : list string := ["f3.ply"; "f1.ply"; "f5.ply"; "f2.ply"; "f4.ply"].

Definition never : list Event -> bool := fun _ => false.
Definition always : list Event -> bool := fun _ => true.

Definition lit : Res DepthImage := Ok [[f32_1; f32_0]].
Definition dark : Res DepthImage := Ok [[f32_0; f32_0]].

(** Every frame renders with a non-empty depth buffer. *)
Definition env_lit (names : list string) : Env :=
  env_of names (fun _ => one_point) [] (repeat lit 64) never.

(** The depth buffer is always empty; the colour buffer is [px] everywhere. *)
Definition env_dark (px : Vec3) (fails : list Event -> bool) : Env :=
  env_of ["a.ply"] (fun _ => one_point) (repeat (Ok [[px; px]]) 8) [] fails.

(** The depth buffer is always empty and the third colour capture (the
    keyed one) raises. *)
Definition env_chroma_raises : Env :=
  env_of ["a.ply"] (fun _ => one_point)
         [Ok [[black32; black32]]; Ok [[black32; black32]];
          Raise (PyException "RuntimeError")] [] never.

(** The output of ["a.ply"] is already there. *)
Definition w_done : World := set_out_files (<["a.png" := []]> ∅) w0.

(** A resume file left by an earlier run. *)
Definition w_resume (text : string) : World := set_resume_text (Content text) w0.

Definition magenta_image : FloatImage := [[magenta32; magenta32]].
Definition white_image : FloatImage := [[white32; white32]].
Definition black_image : FloatImage := [[black32; black32]].
Definition dark_depth : DepthImage := [[f32_0; f32_0]].

Definition params0 : PinholeCameraParameters :=
  {| intr_width := 2; intr_height := 1;
     fx := f64_1; fy := f64_1; cx := f64_1; cy := f64_1; extrinsic := [] |}.

(** The first colour capture of a frame raises. *)
Definition env_capture_raises : Env :=
  env_of ["a.ply"] (fun _ => one_point) [Raise (PyException "RuntimeError")] [] never.

(** Every cloud of the directory is empty. *)
Definition env_empty (names : list string) : Env :=
  env_of names (fun _ => no_points) [] [] never.

(** Every frame renders, and no file can be written. *)
Definition env_lit_readonly (names : list string) : Env :=
  env_of names (fun _ => one_point) [] (repeat lit 64) always.

(** A cap on the number of files. *)
Definition capped (n : Z) (c : CFG) : CFG :=
  {| in_dir := in_dir c; out_dir := out_dir c; glob := glob c;
     view_json := view_json c; width := width c; height := height c;
     point_size := point_size c; brightness := brightness c;
     voxel_size := voxel_size c; max_files := n;
     use_resume := use_resume c; resume_file := resume_file c;
     gc_every := gc_every c;
     translate_to_ref_center := translate_to_ref_center c;
     chroma_key_fallback := chroma_key_fallback c;
     chroma_key_rgb := chroma_key_rgb c; chroma_tol := chroma_tol c |}.

(** The same environment with another camera descriptor on disk. *)
Definition with_view (v : ViewJson) (e : Env) : Env :=
  {| glob_names := glob_names e; path_leb := path_leb e; py_int := py_int e;
     view := Some v;
     read_point_cloud := read_point_cloud e;
     voxel_down_sample := voxel_down_sample e;
     get_center := get_center e; ctr_has := ctr_has e;
     screen_buffer := screen_buffer e; depth_buffer := depth_buffer e;
     io_fails := io_fails e |}.

(** A capture session: look around, save, look around, save again, quit. *)
Definition session : list CaptureView.Press :=
  [ {| CaptureView.key := CaptureView.KeyOther; CaptureView.camera := params0;
       CaptureView.write_fails := false |};
    {| CaptureView.key := CaptureView.KeyS; CaptureView.camera := params0;
       CaptureView.write_fails := false |} ].

End Double.

(* ===================================================================== *)
(** * Running the primitives *)
(* ===================================================================== *)

Local Open Scope py_scope.

Lemma add_events_nil (w : World) : add_events [] w = w.
Proof. destruct w; unfold add_events; simpl. by rewrite app_nil_r. Qed.

Lemma add_events_app (evs1 evs2 : list Event) (w : World) :
  add_events evs2 (add_events evs1 w) = add_events (evs1 ++ evs2) w.
Proof. destruct w; unfold add_events; simpl. by rewrite app_assoc. Qed.

Lemma new_events_app (w w' : World) (evs : list Event) :
  trace w' = trace w ++ evs -> new_events w w' = evs.
Proof. intros H. unfold new_events. rewrite H. apply drop_app_length. Qed.

Lemma resume_writes_app (a b : list Event) :
  resume_writes (a ++ b) = resume_writes a ++ resume_writes b.
Proof. unfold resume_writes. apply omap_app. Qed.

Lemma resume_writes_backend (evs : list Event) :
  Forall is_backend_call evs -> resume_writes evs = [].
Proof.
  unfold resume_writes.
  induction 1 as [|e evs He _ IH]; [done|].
  destruct e; simpl in *; try done.
Qed.

Lemma pump_events_backend (n : nat) : Forall is_backend_call (pump_events n).
Proof. induction n; simpl; repeat constructor; auto. Qed.

(** The numeric kernels are never unfolded by simplification. *)
Arguments to_rgb8 : simpl never.
Arguments depth_alpha : simpl never.
Arguments chroma_mask : simpl never.
Arguments apply_brightness : simpl never.
Arguments brighten_channel : simpl never.
Arguments np_max : simpl never.
Arguments np_dstack : simpl never.
Arguments py_str : simpl never.
Arguments empty_frame_msg : simpl never.
Arguments out_name : simpl never.

(** Closes goals that compare two worlds built from the same one. *)
Ltac world_eq :=
  repeat match goal with w : World |- _ => destruct w end;
  unfold add_events, set_render_option, set_resume_text, set_out_files, set_empty_log;
  cbn [trace opt_point_size background_color light_on resume_text out_files empty_log];
  rewrite ?app_nil_r; rewrite <- ?app_assoc; cbn [app]; try reflexivity.

Section Primitives.

Context (env : Env).

Lemma _pump_run (n : nat) (w : World) :
  _pump n w = (Ok tt, add_events (pump_events n) w).
Proof.
  revert w. induction n as [|n IH]; intros w; simpl.
  - unfold ret. by rewrite add_events_nil.
  - unfold bind, emit. rewrite IH. f_equal. world_eq.
Qed.

Lemma _write_resume_run (n : Z) (w : World) :
  _write_resume env n w = (Ok tt, resumed env n w).
Proof.
  unfold _write_resume, try_except, resume_write_text, resumed, ret.
  by destruct (io_fails env (trace w)).
Qed.

Lemma guarded_log_run (msg : string) (w : World) :
  try_except (log_append env msg) (ret tt) w = (Ok tt, logged env msg w).
Proof.
  unfold try_except, log_append, logged, ret.
  by destruct (io_fails env (trace w)).
Qed.

Lemma clipping_run (w : World) :
  _set_constant_clipping_if_available env w =
  (Ok tt, add_events
            ((if ctr_has env "set_constant_z_near"
              then [CtrCall "set_constant_z_near"] else [])
             ++ (if ctr_has env "set_constant_z_far"
                 then [CtrCall "set_constant_z_far"] else [])) w).
Proof.
  unfold _set_constant_clipping_if_available, bind, emit, ret.
  destruct (ctr_has env "set_constant_z_near"), (ctr_has env "set_constant_z_far");
    f_equal; world_eq.
Qed.

(** A depth stage whose two captures succeed. *)
Lemma _capture_rgb_depth_ok (n : nat) (w : World) (rgb : FloatImage) (dep : DepthImage) :
  screen_buffer env (trace w ++ pump_events n) = Ok rgb ->
  depth_buffer env (trace w ++ pump_events n ++ [CaptureScreen]) = Ok dep ->
  _capture_rgb_depth env n w =
  (Ok (rgb, to_rgb8 rgb, depth_alpha dep),
   add_events (pump_events n ++ [CaptureScreen; CaptureDepth]) w).
Proof.
  intros Hs Hd.
  unfold _capture_rgb_depth, bind. rewrite _pump_run.
  unfold capture_screen_float_buffer, capture_depth_float_buffer.
  cbn [trace add_events]. rewrite Hs. cbn [trace add_events].
  rewrite <- app_assoc, Hd. unfold ret. f_equal. world_eq.
Qed.

(** The chroma stage when the keyed capture succeeds. *)
Lemma _chroma_key_alpha_ok (cfg : CFG) (n : nat) (w : World) (rgb_key : FloatImage) :
  screen_buffer env (trace w ++ [SetBackground (chroma_key_rgb cfg)] ++ pump_events n)
    = Ok rgb_key ->
  _chroma_key_alpha env cfg n w =
  (Ok (chroma_mask (chroma_key_rgb cfg) (chroma_tol cfg) rgb_key),
   add_events ([SetBackground (chroma_key_rgb cfg)] ++ pump_events n
                 ++ [CaptureScreen; SetBackground (background_color w)]
                 ++ pump_events 2) w).
Proof.
  intros Hs.
  unfold _chroma_key_alpha, bind, get_background, set_background.
  rewrite _pump_run. unfold capture_screen_float_buffer.
  cbn [trace add_events set_render_option].
  rewrite <- app_assoc. cbn [app] in Hs |- *. rewrite Hs.
  rewrite _pump_run. unfold ret. f_equal. world_eq.
Qed.

(** The chroma stage when the keyed capture raises: the stage stops
    there. *)
Lemma _chroma_key_alpha_raise (cfg : CFG) (n : nat) (w : World) (e : Exn) :
  screen_buffer env (trace w ++ [SetBackground (chroma_key_rgb cfg)] ++ pump_events n)
    = Raise e ->
  _chroma_key_alpha env cfg n w =
  (Raise e,
   add_events ([SetBackground (chroma_key_rgb cfg)] ++ pump_events n ++ [CaptureScreen])
     (set_render_option (opt_point_size w) (chroma_key_rgb cfg) (light_on w) w)).
Proof.
  intros Hs.
  unfold _chroma_key_alpha, bind, get_background, set_background.
  rewrite _pump_run. unfold capture_screen_float_buffer.
  cbn [trace add_events set_render_option].
  rewrite <- app_assoc. cbn [app] in Hs |- *. rewrite Hs. f_equal. world_eq.
Qed.

End Primitives.

(* ===================================================================== *)
(** * Footprints *)
(* ===================================================================== *)

Lemma backend_only_ret {A} (a : A) : backend_only (ret a).
Proof.
  intros w r w' [= <- <-]. exists []. rewrite app_nil_r. by repeat split.
Qed.

Lemma backend_only_raise {A} (e : Exn) : backend_only (@raise A e).
Proof.
  intros w r w' [= <- <-]. exists []. rewrite app_nil_r. by repeat split.
Qed.

Lemma backend_only_bind {A B} (m : M A) (k : A -> M B) :
  backend_only m -> (forall a, backend_only (k a)) -> backend_only (bind m k).
Proof.
  intros Hm Hk w r w' Hrun. unfold bind in Hrun.
  destruct (m w) as [[a|e] w1] eqn:Em.
  - destruct (Hm _ _ _ Em) as (evs1 & Ht1 & Hf1 & Hr1 & Ho1 & Hl1).
    destruct (Hk a _ _ _ Hrun) as (evs2 & Ht2 & Hf2 & Hr2 & Ho2 & Hl2).
    exists (evs1 ++ evs2). rewrite Ht2, Ht1, app_assoc.
    repeat split; try congruence. by apply Forall_app.
  - injection Hrun as <- <-. exact (Hm _ _ _ Em).
Qed.

Lemma backend_only_try {A} (body handler : M A) :
  backend_only body -> backend_only handler -> backend_only (try_except body handler).
Proof.
  intros Hb Hh w r w' Hrun. unfold try_except in Hrun.
  destruct (body w) as [[a|[msg|name]] w1] eqn:Eb.
  - injection Hrun as <- <-. exact (Hb _ _ _ Eb).
  - injection Hrun as <- <-. exact (Hb _ _ _ Eb).
  - destruct (Hb _ _ _ Eb) as (evs1 & Ht1 & Hf1 & Hr1 & Ho1 & Hl1).
    destruct (Hh _ _ _ Hrun) as (evs2 & Ht2 & Hf2 & Hr2 & Ho2 & Hl2).
    exists (evs1 ++ evs2). rewrite Ht2, Ht1, app_assoc.
    repeat split; try congruence. by apply Forall_app.
Qed.

Lemma backend_only_emit (e : Event) : is_backend_call e -> backend_only (emit e).
Proof.
  intros He w r w' [= <- <-]. exists [e]. repeat split; auto.
Qed.

Lemma backend_only_if {A} (b : bool) (m1 m2 : M A) :
  backend_only m1 -> backend_only m2 -> backend_only (if b then m1 else m2).
Proof. by destruct b. Qed.

Lemma backend_only_pump (n : nat) : backend_only (_pump n).
Proof.
  intros w r w' Hrun. rewrite _pump_run in Hrun. injection Hrun as <- <-.
  exists (pump_events n). repeat split; auto using pump_events_backend.
Qed.

Lemma backend_only_get_background : backend_only get_background.
Proof.
  intros w r w' [= <- <-]. exists []. rewrite app_nil_r. by repeat split.
Qed.

Lemma backend_only_set_background (c : Vec3) : backend_only (set_background c).
Proof.
  intros w r w' [= <- <-]. exists [SetBackground c]. repeat split; auto.
  by repeat constructor.
Qed.

Lemma backend_only_alpha_max (a : Alpha) : backend_only (alpha_max a).
Proof.
  unfold alpha_max. destruct (np_max a);
    [apply backend_only_ret | apply backend_only_raise].
Qed.

Create HintDb footprint.
#[local] Hint Resolve backend_only_ret backend_only_raise backend_only_pump
  backend_only_get_background backend_only_set_background backend_only_alpha_max
  : footprint.

Section Footprints.

Context (env : Env).

Lemma backend_only_capture_screen : backend_only (capture_screen_float_buffer env).
Proof.
  intros w r w' [= <- <-]. exists [CaptureScreen]. repeat split; auto.
  by repeat constructor.
Qed.

Lemma backend_only_capture_depth : backend_only (capture_depth_float_buffer env).
Proof.
  intros w r w' [= <- <-]. exists [CaptureDepth]. repeat split; auto.
  by repeat constructor.
Qed.

Lemma backend_only_clipping : backend_only (_set_constant_clipping_if_available env).
Proof.
  intros w r w' Hrun. rewrite clipping_run in Hrun. injection Hrun as <- <-.
  eexists. repeat split; auto.
  destruct (ctr_has env "set_constant_z_near"), (ctr_has env "set_constant_z_far");
    by repeat constructor.
Qed.

Lemma backend_only_capture_rgb_depth (n : nat) : backend_only (_capture_rgb_depth env n).
Proof.
  unfold _capture_rgb_depth.
  repeat (apply backend_only_bind; [|intros ?]);
    auto using backend_only_capture_screen, backend_only_capture_depth with footprint.
Qed.

Lemma backend_only_chroma (cfg : CFG) (n : nat) : backend_only (_chroma_key_alpha env cfg n).
Proof.
  unfold _chroma_key_alpha.
  repeat (apply backend_only_bind; [|intros ?]);
    auto using backend_only_capture_screen with footprint;
    apply backend_only_emit; exact I.
Qed.

Lemma backend_only_extract (cfg : CFG) : backend_only (extract_alpha env cfg).
Proof.
  unfold extract_alpha.
  apply backend_only_bind; [apply backend_only_capture_rgb_depth|intros [[rf r8] a]].
  apply backend_only_bind; [auto with footprint|intros m].
  apply backend_only_bind;
    [apply backend_only_if; auto using backend_only_capture_rgb_depth with footprint
    |intros [[rf' r8'] a']].
  apply backend_only_bind; [auto with footprint|intros m'].
  apply backend_only_bind; [|intros ?; auto with footprint].
  apply backend_only_if; [|auto with footprint].
  apply backend_only_try; auto using backend_only_chroma with footprint.
Qed.

End Footprints.

(* ===================================================================== *)
(** * Alpha extraction *)
(* ===================================================================== *)

Section Extraction.

Context (env : Env).

(** A depth stage that starts after the calls [evs]. *)
Lemma depth_stage_run (n : nat) (evs : list Event) (w : World)
      (rgb : FloatImage) (dep : DepthImage) :
  screen_buffer env (trace w ++ evs ++ pump_events n) = Ok rgb ->
  depth_buffer env (trace w ++ evs ++ pump_events n ++ [CaptureScreen]) = Ok dep ->
  _capture_rgb_depth env n (add_events evs w) =
  (Ok (rgb, to_rgb8 rgb, depth_alpha dep),
   add_events (evs ++ pump_events n ++ [CaptureScreen; CaptureDepth]) w).
Proof.
  intros Hs Hd.
  rewrite (_capture_rgb_depth_ok env n (add_events evs w) rgb dep).
  - by rewrite add_events_app.
  - cbn [trace add_events]. by rewrite <- app_assoc.
  - cbn [trace add_events]. by rewrite <- app_assoc.
Qed.

(** The chroma stage after the calls [evs], keyed capture succeeding. *)
Lemma chroma_stage_run (cfg : CFG) (n : nat) (evs : list Event) (w : World)
      (rgb_key : FloatImage) :
  screen_buffer env (trace w ++ evs ++ [SetBackground (chroma_key_rgb cfg)]
                       ++ pump_events n) = Ok rgb_key ->
  _chroma_key_alpha env cfg n (add_events evs w) =
  (Ok (chroma_mask (chroma_key_rgb cfg) (chroma_tol cfg) rgb_key),
   add_events (evs ++ [SetBackground (chroma_key_rgb cfg)] ++ pump_events n
                 ++ [CaptureScreen; SetBackground (background_color w)]
                 ++ pump_events 2) w).
Proof.
  intros Hs.
  rewrite (_chroma_key_alpha_ok env cfg n (add_events evs w) rgb_key).
  - by rewrite add_events_app.
  - cbn [trace add_events]. by rewrite <- app_assoc.
Qed.

(** The chroma stage after the calls [evs], keyed capture raising: the
    background is left on the key colour. *)
Lemma chroma_stage_raise (cfg : CFG) (n : nat) (evs : list Event) (w : World) (e : Exn) :
  screen_buffer env (trace w ++ evs ++ [SetBackground (chroma_key_rgb cfg)]
                       ++ pump_events n) = Raise e ->
  _chroma_key_alpha env cfg n (add_events evs w) =
  (Raise e,
   add_events (evs ++ [SetBackground (chroma_key_rgb cfg)] ++ pump_events n
                 ++ [CaptureScreen])
     (set_render_option (opt_point_size w) (chroma_key_rgb cfg) (light_on w) w)).
Proof.
  intros Hs.
  rewrite (_chroma_key_alpha_raise env cfg n (add_events evs w) e).
  - f_equal. world_eq.
  - cbn [trace add_events]. by rewrite <- app_assoc.
Qed.

(** With the fallback enabled, extraction follows the stage order. *)
Lemma extract_alpha_stages (cfg : CFG) (w : World) :
  chroma_key_fallback cfg = true -> stage_order_holds env cfg w.
Proof.
  intros Hfb rgb1 dep1 rgb2 dep2 rgbk m1 m2 (Hs1 & Hd1 & Hs2 & Hd2) Hk Hm1 Hm2.
  unfold keyed_capture in Hk.
  unfold extract_alpha, bind.
  rewrite (_capture_rgb_depth_ok env 6 w rgb1 dep1 Hs1 Hd1).
  unfold alpha_max at 1. rewrite Hm1. unfold ret at 1.
  destruct (m1 =? 0) eqn:E1; cbn [negb].
  - cbn [stage_calls settle_frames] in Hs2, Hd2, Hk |- *.
    rewrite (depth_stage_run 20 _ w rgb2 dep2 Hs2 Hd2).
    unfold alpha_max. rewrite Hm2. unfold ret at 1.
    destruct (m2 =? 0) eqn:E2; cbn [negb andb].
    + rewrite Hfb. unfold try_except.
      rewrite (chroma_stage_run cfg 10 _ w rgbk).
      * unfold ret. rewrite <- ?app_assoc. reflexivity.
      * rewrite <- Hk. rewrite <- ?app_assoc. reflexivity.
    + reflexivity.
  - unfold ret. cbv beta iota. unfold alpha_max. rewrite Hm1.
    unfold ret. rewrite E1. cbn [andb]. reflexivity.
Qed.

End Extraction.

(* ===================================================================== *)
(** * One frame *)
(* ===================================================================== *)

Section Frames.

Context (env : Env).

Lemma resumed_trace (n : Z) (w : World) :
  trace (resumed env n w) = trace w ++ [WriteResume n (negb (io_fails env (trace w)))].
Proof. unfold resumed. by destruct (io_fails env (trace w)). Qed.

Lemma resumed_text (n : Z) (w : World) :
  resume_text (resumed env n w) =
  if io_fails env (trace w) then resume_text w else Content (py_str n).
Proof. unfold resumed. by destruct (io_fails env (trace w)). Qed.

Lemma resumed_others (n : Z) (w : World) :
  out_files (resumed env n w) = out_files w /\
  empty_log (resumed env n w) = empty_log w /\
  background_color (resumed env n w) = background_color w.
Proof. unfold resumed. by destruct (io_fails env (trace w)). Qed.

Lemma logged_trace (msg : string) (w : World) :
  trace (logged env msg w) = trace w ++ [AppendLog msg (negb (io_fails env (trace w)))].
Proof. unfold logged. by destruct (io_fails env (trace w)). Qed.

Lemma logged_others (msg : string) (w : World) :
  resume_text (logged env msg w) = resume_text w /\
  out_files (logged env msg w) = out_files w /\
  background_color (logged env msg w) = background_color w.
Proof. unfold logged. by destruct (io_fails env (trace w)). Qed.

Lemma persisted_resumed (n : Z) (w : World) :
  resume_text (resumed env n w) =
  persisted (resume_text w) [(n, negb (io_fails env (trace w)))].
Proof. rewrite resumed_text. by destruct (io_fails env (trace w)). Qed.

Lemma backend_call_frame_ok (idx : Z) (ply : string) (evs : list Event) :
  Forall is_backend_call evs -> Forall (frame_event_ok idx ply) evs.
Proof. intros H. eapply Forall_impl; [exact H|]. by intros []. Qed.

Variables (cfg : CFG) (base_params : PinholeCameraParameters)
          (ref_center : option Vec3) (start : Z) (k : nat) (ply : string).

Let idx : Z := start + Z.of_nat k.

(** A frame whose output exists only updates the resume pointer. *)
Lemma frame_body_exists (w : World) :
  is_Some (out_files w !! out_name ply) ->
  frame_body env cfg base_params ref_center start k ply w
  = (Ok tt, resumed env (idx + 1) w).
Proof.
  intros He. unfold frame_body, bind, out_exists.
  rewrite bool_decide_eq_true_2 by done. apply _write_resume_run.
Qed.

(** So does a frame whose point cloud is empty. *)
Lemma frame_body_empty_cloud (w : World) :
  out_files w !! out_name ply = None ->
  is_empty (read_point_cloud env ply) = true ->
  frame_body env cfg base_params ref_center start k ply w
  = (Ok tt, resumed env (idx + 1) w).
Proof.
  intros Hn He. unfold frame_body, bind, out_exists.
  rewrite bool_decide_eq_false_2 by (rewrite Hn; by intros [? ?]).
  rewrite He. apply _write_resume_run.
Qed.

(** Any other frame is extracted and finished. *)
Lemma frame_body_render (w : World) :
  out_files w !! out_name ply = None ->
  is_empty (read_point_cloud env ply) = false ->
  frame_body env cfg base_params ref_center start k ply w
  = bind (extract_alpha env cfg)
         (fun ra => finish_frame env cfg idx k ply (fst ra) (snd ra))
         (extraction_start env cfg base_params ref_center ply w).
Proof.
  intros Hn He. unfold frame_body, bind at 1, out_exists.
  rewrite bool_decide_eq_false_2 by (rewrite Hn; by intros [? ?]).
  rewrite He. unfold bind at 1 2 3, emit. rewrite clipping_run.
  unfold extraction_start, prep_events.
  rewrite !add_events_app. cbn [app].
  unfold bind. destruct (extract_alpha env cfg _) as [[[rgb8 alpha]|e] w1]; reflexivity.
Qed.

(** The terminal Empty state: log, update the resume pointer, skip. *)
Lemma finish_frame_empty (rgb8 : Rgb8) (alpha : Alpha) (w : World) :
  np_max alpha = Some 0 ->
  finish_frame env cfg idx k ply rgb8 alpha w
  = (Ok tt, resumed env (idx + 1) (logged env (empty_frame_msg idx ply) w)).
Proof.
  intros Hm. unfold finish_frame, bind, alpha_max. rewrite Hm. unfold ret at 1.
  cbn [Z.eqb]. rewrite guarded_log_run. apply _write_resume_run.
Qed.

(** A frame with a non-empty mask is never logged as empty. *)
Lemma finish_frame_nonempty (rgb8 : Rgb8) (alpha : Alpha) (m : Z)
      (w : World) (r : Res unit) (w' : World) :
  np_max alpha = Some m -> m <> 0 ->
  finish_frame env cfg idx k ply rgb8 alpha w = (r, w') ->
  empty_log w' = empty_log w /\
  exists ok, SavePng (out_name ply) ok ∈ new_events w w'.
Proof.
  intros Hm Hne. unfold finish_frame, bind, alpha_max. rewrite Hm. unfold ret at 1.
  replace (m =? 0) with false by lia.
  unfold save_png. destruct (io_fails env (trace w)) eqn:Ef.
  - intros [= <- <-]. split; [done|]. exists false.
    rewrite (new_events_app w _ [SavePng (out_name ply) false]) by done. set_solver.
  - rewrite _write_resume_run.
    set (w1 := add_events [SavePng (out_name ply) true] _).
    destruct (resumed_others (idx + 1) w1) as (_ & Hl & _).
    assert (Ht : trace (resumed env (idx + 1) w1)
                 = trace w ++ [SavePng (out_name ply) true;
                               WriteResume (idx + 1) (negb (io_fails env (trace w1)))])
      by (rewrite resumed_trace; subst w1; cbn [trace add_events set_out_files];
          by rewrite <- app_assoc).
    destruct (negb (gc_every cfg =? 0) && ((Z.of_nat k + 1) mod gc_every cfg =? 0));
      intros [= <- <-].
    + cbn [emit add_events empty_log trace]. split; [by rewrite Hl|]. exists true.
      rewrite (new_events_app w _ ([SavePng (out_name ply) true;
                 WriteResume (idx + 1) (negb (io_fails env (trace w1)))] ++ [GcCollect])).
      * set_solver.
      * cbn [trace add_events]. by rewrite Ht, <- app_assoc.
    + unfold ret. split; [by rewrite Hl|]. exists true.
      rewrite (new_events_app _ _ _ Ht). set_solver.
Qed.

Lemma finish_frame_run (rgb8 : Rgb8) (alpha : Alpha) (w : World) (r : Res unit) (w' : World) :
  finish_frame env cfg idx k ply rgb8 alpha w = (r, w') ->
  frame_footprint idx ply w r w'.
Proof.
  unfold finish_frame, bind, alpha_max.
  destruct (np_max alpha) as [m|].
  - unfold ret at 1. destruct (m =? 0).
    + rewrite guarded_log_run, _write_resume_run. intros [= <- <-].
      eexists. rewrite resumed_trace, logged_trace, <- app_assoc.
      split; [reflexivity|]. split; [by repeat constructor|].
      split; [|by eexists].
      rewrite persisted_resumed, logged_trace.
      by destruct (logged_others (empty_frame_msg idx ply) w) as (-> & _).
    + unfold save_png. destruct (io_fails env (trace w)) eqn:Ef.
      * intros [= <- <-]. exists [SavePng (out_name ply) false].
        split; [reflexivity|]. split; [by repeat constructor|]. by split.
      * rewrite _write_resume_run.
        set (w1 := add_events [SavePng (out_name ply) true] _).
        assert (Ht1 : trace w1 = trace w ++ [SavePng (out_name ply) true]) by reflexivity.
        assert (Hr1 : resume_text w1 = resume_text w) by reflexivity.
        destruct (negb (gc_every cfg =? 0) && ((Z.of_nat k + 1) mod gc_every cfg =? 0));
          intros [= <- <-].
        -- exists [SavePng (out_name ply) true;
                   WriteResume (idx + 1) (negb (io_fails env (trace w1))); GcCollect].
           cbn [emit add_events trace resume_text]. rewrite resumed_trace, Ht1, <- !app_assoc.
           split; [reflexivity|]. split; [by repeat constructor|].
           split; [|by eexists]. by rewrite persisted_resumed, Hr1.
        -- exists [SavePng (out_name ply) true;
                   WriteResume (idx + 1) (negb (io_fails env (trace w1)))].
           unfold ret. rewrite resumed_trace, Ht1, <- app_assoc.
           split; [reflexivity|]. split; [by repeat constructor|].
           split; [|by eexists]. by rewrite persisted_resumed, Hr1.
  - intros [= <- <-]. exists []. rewrite app_nil_r. by repeat split.
Qed.

(** Every run of the loop body has the footprint of its frame. *)
Lemma frame_body_run (w : World) (r : Res unit) (w' : World) :
  frame_body env cfg base_params ref_center start k ply w = (r, w') ->
  frame_footprint idx ply w r w'.
Proof.
  assert (Hskip : forall w, frame_footprint idx ply w (Ok tt) (resumed env (idx + 1) w)).
  { intros w0. eexists. rewrite resumed_trace. split; [reflexivity|].
    split; [by repeat constructor|]. split; [|by eexists].
    apply persisted_resumed. }
  destruct (out_files w !! out_name ply) as [img|] eqn:Eo.
  { rewrite frame_body_exists by (rewrite Eo; by eexists). intros [= <- <-]. apply Hskip. }
  destruct (is_empty (read_point_cloud env ply)) eqn:Ee.
  { rewrite frame_body_empty_cloud by done. intros [= <- <-]. apply Hskip. }
  rewrite frame_body_render by done. unfold bind.
  destruct (extract_alpha env cfg _) as [[ra|e] w1] eqn:Ex.
  - destruct (backend_only_extract env cfg _ _ _ Ex) as (evs1 & Ht1 & Hb1 & Hr1 & _).
    intros Hf. destruct (finish_frame_run _ _ _ _ _ Hf) as (evs2 & Ht2 & Hf2 & Hr2 & Hm2).
    unfold extraction_start in Ht1, Hr1. cbn [trace add_events resume_text] in Ht1, Hr1.
    exists (prep_events env cfg base_params ref_center ply ++ evs1 ++ evs2).
    assert (Hb0 : Forall is_backend_call (prep_events env cfg base_params ref_center ply)).
    { unfold prep_events.
      destruct (ctr_has env "set_constant_z_near"), (ctr_has env "set_constant_z_far");
        by repeat constructor. }
    assert (Hw : resume_writes
                   (prep_events env cfg base_params ref_center ply ++ evs1 ++ evs2)
                 = resume_writes evs2).
    { by rewrite !resume_writes_app, (resume_writes_backend _ Hb0),
           (resume_writes_backend _ Hb1). }
    split; [by rewrite Ht2, Ht1, <- !app_assoc|].
    split; [apply Forall_app; split; [|apply Forall_app; split];
            auto using backend_call_frame_ok|].
    rewrite Hw. split; [congruence|done].
  - destruct (backend_only_extract env cfg _ _ _ Ex) as (evs1 & Ht1 & Hb1 & Hr1 & _).
    intros [= <- <-].
    unfold extraction_start in Ht1, Hr1. cbn [trace add_events resume_text] in Ht1, Hr1.
    exists (prep_events env cfg base_params ref_center ply ++ evs1).
    assert (Hb0 : Forall is_backend_call (prep_events env cfg base_params ref_center ply)).
    { unfold prep_events.
      destruct (ctr_has env "set_constant_z_near"), (ctr_has env "set_constant_z_far");
        by repeat constructor. }
    assert (Hw : resume_writes (prep_events env cfg base_params ref_center ply ++ evs1) = []).
    { by rewrite !resume_writes_app, (resume_writes_backend _ Hb0),
           (resume_writes_backend _ Hb1). }
    split; [by rewrite Ht1, <- !app_assoc|].
    split; [apply Forall_app; split; auto using backend_call_frame_ok|].
    rewrite Hw. by split.
Qed.

End Frames.

(* ===================================================================== *)
(** * The loop *)
(* ===================================================================== *)

Lemma persisted_app (f : FileState) (a b : list (Z * bool)) :
  persisted (persisted f a) b = persisted f (a ++ b).
Proof. unfold persisted. by rewrite fold_left_app. Qed.

Lemma consecutive_S (n0 : Z) (n : nat) :
  consecutive n0 (S n) = n0 :: consecutive (n0 + 1) n.
Proof.
  unfold consecutive. cbn [seq map]. f_equal; [lia|].
  rewrite <- seq_shift, map_map. apply map_ext. intros i. lia.
Qed.

Lemma consecutive_lookup (n0 : Z) (n i : nat) (v : Z) :
  consecutive n0 n !! i = Some v -> v = n0 + Z.of_nat i /\ (i < n)%nat.
Proof.
  revert n0 i. induction n as [|n IH]; intros n0 i; [done|].
  rewrite consecutive_S. destruct i as [|i]; cbn [lookup list_lookup].
  - intros [= <-]. split; lia.
  - intros H. apply IH in H as [-> ?]. split; lia.
Qed.

(** Consecutive values are strictly increasing. *)
Lemma consecutive_increasing (n0 : Z) (n i j : nat) (a b : Z) :
  consecutive n0 n !! i = Some a -> consecutive n0 n !! j = Some b ->
  (i < j)%nat -> a < b.
Proof.
  intros Ha Hb Hij.
  apply consecutive_lookup in Ha as [-> _]. apply consecutive_lookup in Hb as [-> _]. lia.
Qed.

Section Loop.

Context (env : Env).
Variables (cfg : CFG) (base_params : PinholeCameraParameters)
          (ref_center : option Vec3) (start : Z).

Lemma main_loop_run (files : list string) (k : nat) (w : World) (r : Res unit) (w' : World) :
  main_loop env cfg base_params ref_center start k files w = (r, w') ->
  loop_footprint start k files w r w'.
Proof.
  revert k w. induction files as [|ply rest IH]; intros k w; cbn [main_loop].
  - intros [= <- <-]. exists [], 0%nat. rewrite app_nil_r. by repeat split.
  - unfold bind.
    destruct (frame_body env cfg base_params ref_center start k ply w)
      as [[[]|e] w1] eqn:Ef.
    + destruct (frame_body_run env _ _ _ _ _ _ _ _ _ Ef) as (evs1 & Ht1 & Hf1 & Hr1 & ok & Hw1).
      intros Hl. destruct (IH _ _ Hl) as (evs2 & n & Ht2 & Hn & Hall & Hv & Hr2 & Hf2).
      exists (evs1 ++ evs2), (S n).
      split; [by rewrite Ht2, Ht1, app_assoc|].
      split; [cbn [length]; lia|].
      split; [intros Hr; cbn [length]; f_equal; auto|].
      split.
      { rewrite resume_writes_app, map_app, Hw1, Hv, consecutive_S. cbn [map fst app].
        do 2 f_equal. lia. }
      split; [by rewrite Hr2, Hr1, persisted_app, resume_writes_app|].
      apply Forall_app; split.
      * eapply Forall_impl; [exact Hf1|]. intros ev Hev. exists 0%nat, ply.
        split; [done|]. by rewrite Nat.add_0_r.
      * eapply Forall_impl; [exact Hf2|]. intros ev (j & p & Hj & Hev).
        exists (S j), p. split; [done|]. by replace (k + S j)%nat with (S k + j)%nat by lia.
    + intros [= <- <-].
      destruct (frame_body_run env _ _ _ _ _ _ _ _ _ Ef) as (evs1 & Ht1 & Hf1 & Hr1 & Hw1).
      exists evs1, 0%nat.
      split; [done|]. split; [cbn [length]; lia|]. split; [done|].
      split; [by rewrite Hw1|]. split; [done|].
      eapply Forall_impl; [exact Hf1|]. intros ev Hev. exists 0%nat, ply.
      split; [done|]. by rewrite Nat.add_0_r.
Qed.

End Loop.

(* ===================================================================== *)
(** * Masks *)
(* ===================================================================== *)

Lemma fold_max_ge (l : list Z) (a : Z) :
  a <= fold_left Z.max l a /\ (forall x, x ∈ l -> x <= fold_left Z.max l a).
Proof.
  revert a. induction l as [|y l IH]; intros a; cbn [fold_left].
  - split; [lia|]. intros x Hx. by apply elem_of_nil in Hx.
  - destruct (IH (Z.max a y)) as [H1 H2]. split; [lia|].
    intros x Hx. apply elem_of_cons in Hx as [->|Hx]; [lia|auto].
Qed.

(** The maximum bounds every element of the array. *)
Lemma np_max_bound (a : Alpha) (m : Z) :
  np_max a = Some m -> forall row x, row ∈ a -> x ∈ row -> x <= m.
Proof.
  unfold np_max. intros Hm row x Hrow Hx.
  assert (Hin : x ∈ concat a).
  { apply list_elem_of_In, in_concat. exists row. by rewrite <- !list_elem_of_In. }
  destruct (concat a) as [|y ys]; [done|]. injection Hm as <-.
  destruct (fold_max_ge ys y) as [H1 H2].
  apply elem_of_cons in Hin as [->|Hin]; auto.
Qed.

Lemma depth_alpha_px_range (d : spec_float) : depth_alpha_px d = 0 \/ depth_alpha_px d = 255.
Proof. unfold depth_alpha_px. destruct (SFltb f32_0 d); auto. Qed.

(** A depth mask whose maximum is zero is zero everywhere. *)
Lemma depth_alpha_all_zero (dep : DepthImage) :
  np_max (depth_alpha dep) = Some 0 ->
  forall row x, row ∈ depth_alpha dep -> x ∈ row -> x = 0.
Proof.
  intros Hm row x Hrow Hx.
  pose proof (np_max_bound _ _ Hm row x Hrow Hx) as Hle.
  unfold depth_alpha, map2d in Hrow.
  apply list_elem_of_In, in_map_iff in Hrow as (drow & <- & _).
  apply list_elem_of_In, in_map_iff in Hx as (d & <- & _).
  destruct (depth_alpha_px_range d) as [H|H]; rewrite H in *; lia.
Qed.

(* ===================================================================== *)
(** * The fallback chain *)
(* ===================================================================== *)

Section Fallback.

Context (env : Env).

(** Extraction when both depth masks are empty and the keyed capture
    raises an [Exception]: the exception is caught, the mask of the retry
    is kept, and the render option still holds the key colour. *)
Lemma extract_alpha_chroma_raise (cfg : CFG) (w : World)
      (rgb1 : FloatImage) (dep1 : DepthImage) (rgb2 : FloatImage) (dep2 : DepthImage)
      (name : string) :
  let key := chroma_key_rgb cfg in
  chroma_key_fallback cfg = true ->
  depth_captures env cfg w rgb1 dep1 rgb2 dep2 ->
  np_max (depth_alpha dep1) = Some 0 ->
  np_max (depth_alpha dep2) = Some 0 ->
  keyed_capture env cfg w = Raise (PyException name) ->
  extract_alpha env cfg w =
  (Ok (to_rgb8 rgb2, depth_alpha dep2),
   add_events (stage_calls key (background_color w) DepthAttempt
                 ++ stage_calls key (background_color w) DepthRetry
                 ++ [SetBackground key] ++ pump_events 10 ++ [CaptureScreen])
     (set_render_option (opt_point_size w) key (light_on w) w)).
Proof.
  intros key Hfb (Hs1 & Hd1 & Hs2 & Hd2) Hm1 Hm2 Hk.
  unfold keyed_capture in Hk.
  unfold extract_alpha, bind.
  rewrite (_capture_rgb_depth_ok env 6 w rgb1 dep1 Hs1 Hd1).
  unfold alpha_max at 1. rewrite Hm1. unfold ret at 1. cbn [Z.eqb].
  cbn [stage_calls settle_frames] in Hs2, Hd2, Hk |- *.
  rewrite (depth_stage_run env 20 _ w rgb2 dep2 Hs2 Hd2).
  unfold alpha_max. rewrite Hm2. unfold ret at 1. cbn [Z.eqb andb].
  rewrite Hfb. unfold try_except.
  rewrite (chroma_stage_raise env cfg 10 _ w (PyException name)).
  - unfold ret. subst key. rewrite <- ?app_assoc. reflexivity.
  - rewrite <- Hk. rewrite <- ?app_assoc. reflexivity.
Qed.

Variables (cfg : CFG) (base_params : PinholeCameraParameters)
          (ref_center : option Vec3) (start : Z) (k : nat) (ply : string).

Let idx : Z := start + Z.of_nat k.


(** C9: when the keyed capture of the chroma stage raises an exception,
    nothing propagates out of the loop body: extraction returns with the
    all-zero mask of the retry, and the frame ends like any Empty frame,
    with its line appended to the empty-frame log, the resume pointer
    updated to its index plus one, and no image written. *)
Theorem chroma_exception_is_empty (w : World)
        (rgb1 : FloatImage) (dep1 : DepthImage) (rgb2 : FloatImage) (dep2 : DepthImage)
        (name : string) :
  let w0 := extraction_start env cfg base_params ref_center ply w in
  chroma_key_fallback cfg = true ->
  out_files w !! out_name ply = None ->
  is_empty (read_point_cloud env ply) = false ->
  depth_captures env cfg w0 rgb1 dep1 rgb2 dep2 ->
  np_max (depth_alpha dep1) = Some 0 ->
  np_max (depth_alpha dep2) = Some 0 ->
  keyed_capture env cfg w0 = Raise (PyException name) ->
  exists w1,
    extract_alpha env cfg w0 = (Ok (to_rgb8 rgb2, depth_alpha dep2), w1) /\
    (forall row x, row ∈ depth_alpha dep2 -> x ∈ row -> x = 0) /\
    let w2 := logged env (empty_frame_msg idx ply) w1 in
    let w3 := resumed env (idx + 1) w2 in
    frame_body env cfg base_params ref_center start k ply w = (Ok tt, w3) /\
    finish_frame env cfg idx k ply (to_rgb8 rgb2) (depth_alpha dep2) w1 = (Ok tt, w3) /\
    new_events w1 w3 =
      [AppendLog (empty_frame_msg idx ply) (negb (io_fails env (trace w1)));
       WriteResume (idx + 1) (negb (io_fails env (trace w2)))] /\
    out_files w3 = out_files w /\
    (io_fails env (trace w1) = false ->
     empty_log w2 = empty_log w ++ [empty_frame_msg idx ply]) /\
    (io_fails env (trace w2) = false ->
     resume_text w3 = Content (py_str (idx + 1))).
Proof.
  intros w0 Hfb Hn He Hcap Hm1 Hm2 Hk.
  eexists.
  split; [exact (extract_alpha_chroma_raise cfg w0 _ _ _ _ _ Hfb Hcap Hm1 Hm2 Hk)|].
  split; [by apply depth_alpha_all_zero|].
  set (w1 := add_events _ _).
  intros w2 w3.
  assert (Hfin : finish_frame env cfg idx k ply (to_rgb8 rgb2) (depth_alpha dep2) w1
                 = (Ok tt, w3)) by (by apply finish_frame_empty).
  split.
  { rewrite frame_body_render by done. fold w0. unfold bind.
    rewrite (extract_alpha_chroma_raise cfg w0 _ _ _ _ _ Hfb Hcap Hm1 Hm2 Hk).
    exact Hfin. }
  split; [exact Hfin|].
  split.
  { apply new_events_app. subst w3 w2.
    by rewrite resumed_trace, logged_trace, <- app_assoc. }
  split.
  { subst w3 w2. destruct (resumed_others env (idx + 1) (logged env (empty_frame_msg idx ply) w1))
      as (-> & _). by destruct (logged_others env (empty_frame_msg idx ply) w1) as (_ & -> & _). }
  split.
  { intros Hok. subst w2. unfold logged. by rewrite Hok. }
  intros Hok. subst w3. by rewrite resumed_text, Hok.
Qed.

End Fallback.

(* ===================================================================== *)
(** * The resume pointer *)
(* ===================================================================== *)

Section Resume.

Context (env : Env).
Variables (cfg : CFG) (base_params : PinholeCameraParameters)
          (ref_center : option Vec3) (start : Z).


(** C7: a frame whose output file already exists does nothing but update
    the resume pointer to its index plus one: no backend call is made (no
    re-render), no image is saved and the files of the output directory
    are untouched; the resume file holds the index plus one as soon as the
    write goes through. *)
Theorem existing_output_skipped (k : nat) (ply : string) (w : World) :
  is_Some (out_files w !! out_name ply) ->
  let idx := start + Z.of_nat k in
  let w' := resumed env (idx + 1) w in
  frame_body env cfg base_params ref_center start k ply w = _write_resume env (idx + 1) w /\
  frame_body env cfg base_params ref_center start k ply w = (Ok tt, w') /\
  new_events w w' = [WriteResume (idx + 1) (negb (io_fails env (trace w)))] /\
  out_files w' = out_files w /\
  empty_log w' = empty_log w /\
  (io_fails env (trace w) = false -> resume_text w' = Content (py_str (idx + 1))).
Proof.
  intros He idx w'.
  split; [by rewrite frame_body_exists, _write_resume_run|].
  split; [by apply frame_body_exists|].
  split; [apply new_events_app, resumed_trace|].
  destruct (resumed_others env (idx + 1) w) as (Ho & Hl & _).
  repeat split; auto. intros Hok. subst w'. by rewrite resumed_text, Hok.
Qed.


End Resume.

(* ===================================================================== *)
(** * Start-up: resume offset and file selection *)
(* ===================================================================== *)

Lemma emits_ret (P : Event -> Prop) {A} (a : A) : emits P (ret a).
Proof. intros w r w' [= <- <-]. exists []. by rewrite app_nil_r. Qed.

Lemma emits_raise (P : Event -> Prop) {A} (e : Exn) : emits P (@raise A e).
Proof. intros w r w' [= <- <-]. exists []. by rewrite app_nil_r. Qed.

Lemma emits_emit (P : Event -> Prop) (e : Event) : P e -> emits P (emit e).
Proof. intros He w r w' [= <- <-]. exists [e]. split; [done|by repeat constructor]. Qed.

Lemma emits_bind (P : Event -> Prop) {A B} (m : M A) (k : A -> M B) :
  emits P m -> (forall a, emits P (k a)) -> emits P (bind m k).
Proof.
  intros Hm Hk w r w' Hrun. unfold bind in Hrun.
  destruct (m w) as [[a|e] w1] eqn:Em.
  - destruct (Hm _ _ _ Em) as (evs1 & Ht1 & Hf1).
    destruct (Hk a _ _ _ Hrun) as (evs2 & Ht2 & Hf2).
    exists (evs1 ++ evs2). rewrite Ht2, Ht1, app_assoc. split; [done|by apply Forall_app].
  - injection Hrun as <- <-. exact (Hm _ _ _ Em).
Qed.

(** Binding a computation that leaves the world as it is and whose result
    satisfies [Q]. *)
Lemma emits_bind_pure (P : Event -> Prop) {A B} (Q : A -> Prop) (m : M A) (k : A -> M B) :
  (forall w r w', m w = (r, w') -> w' = w /\ forall a, r = Ok a -> Q a) ->
  (forall a, Q a -> emits P (k a)) -> emits P (bind m k).
Proof.
  intros Hm Hk w r w' Hrun. unfold bind in Hrun.
  destruct (m w) as [[a|e] w1] eqn:Em; destruct (Hm _ _ _ Em) as [-> HQ].
  - exact (Hk a (HQ a eq_refl) _ _ _ Hrun).
  - injection Hrun as <- <-. exists []. by rewrite app_nil_r.
Qed.

Lemma emits_backend_only (P : Event -> Prop) {A} (m : M A) :
  (forall e, is_backend_call e -> P e) -> backend_only m -> emits P m.
Proof.
  intros HP Hm w r w' Hrun. destruct (Hm _ _ _ Hrun) as (evs & Ht & Hb & _).
  exists evs. split; [done|]. eapply Forall_impl; [exact Hb|auto].
Qed.

Section Startup.

Context (env : Env).

(** [_read_resume] never raises and never writes. *)
Lemma _read_resume_run (w : World) :
  _read_resume env w =
  (Ok match resume_text w with
      | Content s => py_int env s
      | _ => None
      end, w).
Proof.
  unfold _read_resume, bind, resume_exists, try_except, resume_read_text, int_of_text.
  destruct (resume_text w) as [| |s] eqn:E; cbn [negb]; cbv beta iota; rewrite ?E;
    try reflexivity.
  destruct (py_int env s); reflexivity.
Qed.

Lemma resume_start_run (cfg : CFG) (w : World) :
  exists start, resume_start env cfg w = (Ok start, w) /\ 0 <= start.
Proof.
  unfold resume_start. destruct (use_resume cfg); [|by exists 0].
  unfold bind. rewrite _read_resume_run.
  destruct (resume_text w) as [| |s]; try by exists 0.
  destruct (py_int env s) as [r|]; [|by exists 0].
  destruct (0 <=? r) eqn:E; [|by exists 0].
  exists r. split; [done|lia].
Qed.

Lemma mat_get_pure (K : list (list spec_float)) (i j : nat) (w : World)
      (r : Res spec_float) (w' : World) :
  mat_get K i j w = (r, w') -> w' = w.
Proof.
  unfold mat_get. destruct (K !! i) as [row|]; [destruct (row !! j)|];
    by intros [= <- <-].
Qed.

Lemma _load_view_pure (w : World)
      (r : Res (PinholeCameraParameters * (Z * Z) * option Vec3)) (w' : World) :
  _load_view env w = (r, w') -> w' = w.
Proof.
  unfold _load_view. destruct (view env) as [data|]; [|by intros [= <- <-]].
  unfold bind.
  repeat (let E := fresh "E" in
          destruct (mat_get _ _ _ _) as [[?|?] ?] eqn:E;
          apply mat_get_pure in E; subst; [|by intros [= <- <-]]).
  by intros [= <- <-].
Qed.

(** The k-th selected file is the file at position [start + k] of the
    listing: neither the offset nor the cap renumbers anything. *)
Lemma select_files_lookup (cfg : CFG) (start : Z) (files : list string)
      (k : nat) (ply : string) :
  select_files cfg start files !! k = Some ply ->
  files !! (Z.to_nat start + k)%nat = Some ply.
Proof.
  unfold select_files. destruct (0 <? max_files cfg).
  - intros H. apply lookup_take_Some in H as [H _]. by rewrite lookup_drop in H.
  - by rewrite lookup_drop.
Qed.

(** The selected files sit right behind the [start] leading entries. *)
Lemma select_files_split (cfg : CFG) (start : Z) (files : list string) :
  exists tail,
    files = take (Z.to_nat start) files ++ select_files cfg start files ++ tail /\
    (max_files cfg <= 0 -> tail = []).
Proof.
  unfold select_files. destruct (0 <? max_files cfg) eqn:E.
  - exists (drop (Z.to_nat (max_files cfg)) (drop (Z.to_nat start) files)).
    rewrite take_drop, take_drop. split; [done|]. intros Hle. apply Z.ltb_lt in E. lia.
  - exists []. by rewrite app_nil_r, take_drop.
Qed.

(** C8: with resume enabled, a resume file that is missing, unreadable,
    unparsable or negative makes the run start from index 0 without
    raising; a parsed value [r >= 0] is the start index, and the files
    selected are the listing without exactly its [r] leading entries
    (cut to [max_files] when a cap is set). *)
Theorem resume_file_start (cfg : CFG) (w : World) :
  use_resume cfg = true ->
  (resume_text w = Absent \/ resume_text w = Unreadable \/
   (exists s, resume_text w = Content s /\
              (py_int env s = None \/ exists r, py_int env s = Some r /\ r < 0)) ->
   resume_start env cfg w = (Ok 0, w) /\
   forall files, select_files cfg 0 files
                 = if 0 <? max_files cfg then take (Z.to_nat (max_files cfg)) files
                   else files) /\
  (forall s r, resume_text w = Content s -> py_int env s = Some r -> 0 <= r ->
     resume_start env cfg w = (Ok r, w) /\
     forall files,
       (forall (k : nat) ply, select_files cfg r files !! k = Some ply ->
                              files !! (Z.to_nat r + k)%nat = Some ply) /\
       exists tail,
         files = take (Z.to_nat r) files ++ select_files cfg r files ++ tail /\
         (max_files cfg <= 0 -> tail = [])).
Proof.
  intros Hres. split.
  - intros Hbad. split; [|done].
    unfold resume_start, bind. rewrite Hres, _read_resume_run.
    destruct Hbad as [->| [->| (s & -> & [->| (r & -> & Hr)])]]; try done.
    by replace (0 <=? r) with false by lia.
  - intros s r Hs Hp Hr. split.
    + unfold resume_start, bind. rewrite Hres, _read_resume_run, Hs, Hp.
      by replace (0 <=? r) with true by lia.
    + intros files. split; [intros k ply; apply select_files_lookup|].
      apply select_files_split.
Qed.

End Startup.

(* ===================================================================== *)
(** * Frame indices *)
(* ===================================================================== *)

Section Indices.

Context (env : Env).

Let listing : list string := sorted (path_leb env) (glob_names env).

Lemma backend_call_indexed (l : list string) (e : Event) :
  is_backend_call e -> event_indexed l e.
Proof. by destruct e. Qed.

(** The loop over the selected files only writes indices that name the
    frame being processed in the full listing. *)
Lemma main_loop_indexed (cfg : CFG) (base_params : PinholeCameraParameters)
      (ref_center : option Vec3) (start : Z) (files : list string) :
  0 <= start ->
  emits (event_indexed files)
        (main_loop env cfg base_params ref_center start 0 (select_files cfg start files)).
Proof.
  intros Hs w r w' Hrun.
  destruct (main_loop_run env _ _ _ _ _ _ _ _ _ Hrun) as (evs & n & Ht & _ & _ & _ & _ & Hf).
  exists evs. split; [done|].
  eapply Forall_impl; [exact Hf|]. intros e (j & ply & Hj & He).
  apply select_files_lookup in Hj.
  assert (Hname : names_frame files (start + Z.of_nat (0 + j)) ply).
  { split; [lia|]. by replace (Z.to_nat (start + Z.of_nat (0 + j)))
                       with (Z.to_nat start + j)%nat by lia. }
  destruct e; try exact I; cbn [frame_event_ok event_indexed] in He |- *;
    exists (start + Z.of_nat (0 + j)), ply; by split.
Qed.


End Indices.

(* ===================================================================== *)
(** * Chroma threshold *)
(* ===================================================================== *)

Lemma at2_map2d {A B} (f : A -> B) (a : list (list A)) (i j : nat) :
  at2 (map2d f a) i j = f <$> at2 a i j.
Proof.
  unfold at2, map2d.
  change (map (map f) a) with ((map f) <$> a). rewrite list_lookup_fmap.
  destruct (a !! i) as [row|]; [|done]. cbn [fmap option_fmap option_map].
  change (map f row) with (f <$> row). by rewrite list_lookup_fmap.
Qed.

(** Swapping the operands of a comparison flips its result. *)
Lemma SFcompare_swap (x y : spec_float) :
  SFcompare y x = CompOpp <$> SFcompare x y.
Proof.
  destruct x as [sx|sx| |sx mx ex], y as [sy|sy| |sy my ey];
    try destruct sx; try destruct sy; try reflexivity;
    cbn [SFcompare fmap option_fmap option_map];
    rewrite (Z.compare_antisym ex ey);
    destruct (ex ?= ey); cbn [CompOpp]; try reflexivity;
    change (Pos.compare_cont Eq my mx) with (Pos.compare_cont (CompOpp Eq) my mx);
    by rewrite <- Pos.compare_cont_antisym.
Qed.

(** Equal values are not in strict order. *)
Lemma SFeqb_not_ltb (x y : spec_float) : SFeqb x y = true -> SFltb y x = false.
Proof.
  unfold SFeqb, SFltb. rewrite (SFcompare_swap x y).
  by destruct (SFcompare x y) as [[]|].
Qed.

(** A strict order excludes the converse one. *)
Lemma SFcompare_swap_ltb_false (x y : spec_float) : SFltb x y = true -> SFltb y x = false.
Proof.
  unfold SFltb. rewrite (SFcompare_swap x y).
  by destruct (SFcompare x y) as [[]|].
Qed.

(** Comparison of values that are not NaN is the order of their ranks. *)
Lemma SFcompare_rank (x y : spec_float) :
  Np.is_nan x = false -> Np.is_nan y = false ->
  SFcompare x y = Some (lex3 (SFrank x) (SFrank y)).
Proof.
  destruct x as [sx|sx| |sx mx ex], y as [sy|sy| |sy my ey];
    try destruct sx; try destruct sy; try discriminate; intros _ _; try reflexivity;
    cbn [SFcompare SFrank lex3]; f_equal.
  change (-1 ?= -1) with Eq. cbv iota. rewrite Z.compare_opp, (Z.compare_antisym ex ey).
  destruct (ex ?= ey); reflexivity.
Qed.

Lemma lex3_lt (p q : Z * Z * Z) :
  lex3 p q = Lt <->
  let '(a1, b1, c1) := p in
  let '(a2, b2, c2) := q in
  a1 < a2 \/ (a1 = a2 /\ (b1 < b2 \/ (b1 = b2 /\ c1 < c2))).
Proof.
  destruct p as [[a1 b1] c1], q as [[a2 b2] c2]. unfold lex3.
  destruct (Z.compare_spec a1 a2), (Z.compare_spec b1 b2), (Z.compare_spec c1 c2);
    split; intros; try discriminate; try reflexivity; lia.
Qed.

Lemma SFltb_rank (x y : spec_float) :
  Np.is_nan x = false -> Np.is_nan y = false ->
  SFltb x y = true <-> lex3 (SFrank x) (SFrank y) = Lt.
Proof.
  intros Hx Hy. unfold SFltb. rewrite (SFcompare_rank x y Hx Hy).
  destruct (lex3 _ _); split; congruence.
Qed.

(** [np.maximum] of two values that are not NaN exceeds a threshold exactly
    when one of them does. *)
Lemma maximum_gt (t a b : spec_float) :
  Np.is_nan a = false -> Np.is_nan b = false ->
  Np.is_nan (Np.maximum a b) = false /\
  SFltb t (Np.maximum a b) = SFltb t a || SFltb t b.
Proof.
  intros Ha Hb. unfold Np.maximum. rewrite Ha, Hb.
  split; [by destruct (SFltb a b)|].
  destruct (Np.is_nan t) eqn:Ht.
  { destruct t; try discriminate. by destruct (SFltb a b). }
  pose proof (SFltb_rank a b Ha Hb) as Hab.
  pose proof (SFltb_rank t a Ht Ha) as Hta.
  pose proof (SFltb_rank t b Ht Hb) as Htb.
  rewrite lex3_lt in Hab, Hta, Htb.
  destruct (SFrank a) as [[a1 a2] a3], (SFrank b) as [[b1 b2] b3], (SFrank t) as [[t1 t2] t3].
  destruct (SFltb a b), (SFltb t a), (SFltb t b); cbn [orb]; try reflexivity; exfalso.
  all: repeat match goal with
         | H : true = true <-> _ |- _ => apply proj1 in H; specialize (H eq_refl)
         | H : false = true <-> _ |- _ =>
             apply proj2 in H;
             assert (~ _) by (let K := fresh in intros K; specialize (H K); discriminate);
             clear H
         end; lia.
Qed.

(** The distance of a pixel exceeds the tolerance exactly when the distance
    of one of its channels does, as long as no channel distance is NaN. *)
Lemma max_abs_diff_gt (key px : Vec3) (tol : spec_float) :
  Forall (fun d => Np.is_nan d = false) (channel_diffs key px) ->
  SFltb tol (max_abs_diff key px) = true <->
  exists d, d ∈ channel_diffs key px /\ SFltb tol d = true.
Proof.
  destruct px as [[r g] b], key as [[kr kg] kb]. cbn [channel_diffs max_abs_diff].
  set (dr := SFabs _). set (dg := SFabs _). set (db := SFabs _).
  intros Hn. apply Forall_cons in Hn as [Hr Hn]. apply Forall_cons in Hn as [Hg Hn].
  apply Forall_cons in Hn as [Hb _].
  destruct (maximum_gt tol dr dg Hr Hg) as [Hrg Hgt1].
  destruct (maximum_gt tol (Np.maximum dr dg) db Hrg Hb) as [_ Hgt2].
  rewrite Hgt2, Hgt1. split.
  - intros H. apply orb_true_iff in H as [H|H]; [apply orb_true_iff in H as [H|H]|].
    + exists dr. split; [set_solver|done].
    + exists dg. split; [set_solver|done].
    + exists db. split; [set_solver|done].
  - intros (d & Hd & Ht).
    apply elem_of_cons in Hd as [->|Hd]; [by rewrite Ht|].
    apply elem_of_cons in Hd as [->|Hd]; [by rewrite Ht, orb_true_r|].
    apply elem_of_cons in Hd as [->|Hd]; [by rewrite Ht, orb_true_r|].
    by apply elem_of_nil in Hd.
Qed.

(** One pixel of the chroma mask. *)
Lemma chroma_mask_at (key : Vec3) (tol : spec_float) (rgb_key : FloatImage)
      (i j : nat) (px : Vec3) :
  at2 rgb_key i j = Some px ->
  at2 (chroma_mask key tol rgb_key) i j
  = Some (if SFltb tol (max_abs_diff key px) then 255 else 0).
Proof.
  intros Hpx. unfold chroma_mask, mask_to_alpha, np_gt, np_max_axis2, np_abs3, np_sub_key.
  rewrite !at2_map2d, Hpx. cbn [fmap option_fmap option_map]. f_equal.
  destruct px as [[r g] b], key as [[kr kg] kb]. cbn [map3 max_abs_diff].
  by destruct (SFltb tol _).
Qed.

Section Chroma.

Context (env : Env).

(** C3: the chroma stage classifies the pixel at [(i, j)] of the keyed
    capture as foreground (alpha 255) exactly when the maximum over its
    channels of the absolute difference from the key colour is strictly
    greater than the tolerance, and as background (alpha 0) otherwise; a
    pixel whose distance equals the tolerance is background.  When no
    channel distance is NaN, the pixel is foreground exactly when one of
    its channels is farther from the key than the tolerance. *)
Theorem chroma_threshold (cfg : CFG) (n : nat) (w : World) (alpha : Alpha) (w' : World) :
  _chroma_key_alpha env cfg n w = (Ok alpha, w') ->
  let key := chroma_key_rgb cfg in
  let tol := chroma_tol cfg in
  exists rgb_key,
    screen_buffer env (trace w ++ [SetBackground key] ++ pump_events n) = Ok rgb_key /\
    alpha = chroma_mask key tol rgb_key /\
    forall (i j : nat) (px : Vec3),
      at2 rgb_key i j = Some px ->
      exists a,
        at2 alpha i j = Some a /\
        (a = 255 <-> SFltb tol (max_abs_diff key px) = true) /\
        (a = 0 <-> SFltb tol (max_abs_diff key px) = false) /\
        (SFeqb (max_abs_diff key px) tol = true -> a = 0) /\
        (Forall (fun d => Np.is_nan d = false) (channel_diffs key px) ->
         a = 255 <-> exists d, d ∈ channel_diffs key px /\ SFltb tol d = true).
Proof.
  intros Hrun key tol.
  destruct (screen_buffer env (trace w ++ [SetBackground key] ++ pump_events n))
    as [rgb_key|e] eqn:Hs.
  - rewrite (_chroma_key_alpha_ok env cfg n w rgb_key Hs) in Hrun.
    injection Hrun as <- <-. exists rgb_key. split; [done|]. split; [done|].
    intros i j px Hpx. eexists. split; [by apply chroma_mask_at|].
    fold key tol.
    assert (Hch : Forall (fun d => Np.is_nan d = false) (channel_diffs key px) ->
                  SFltb tol (max_abs_diff key px) = true <->
                  exists d, d ∈ channel_diffs key px /\ SFltb tol d = true)
      by apply max_abs_diff_gt.
    destruct (SFltb tol (max_abs_diff key px)) eqn:E.
    + split; [done|]. split; [done|].
      split; [intros Heq; apply SFeqb_not_ltb in Heq; congruence|].
      intros Hn. by rewrite <- (Hch Hn).
    + split; [done|]. split; [done|]. split; [done|].
      intros Hn. rewrite <- (Hch Hn). split; [done|]. discriminate.
  - rewrite (_chroma_key_alpha_raise env cfg n w e Hs) in Hrun. discriminate.
Qed.

(** When the keyed capture succeeds the background is put back. *)
Lemma chroma_background_restored (cfg : CFG) (n : nat) (w : World) (alpha : Alpha) (w' : World) :
  _chroma_key_alpha env cfg n w = (Ok alpha, w') ->
  background_color w' = background_color w.
Proof.
  intros Hrun.
  destruct (screen_buffer env (trace w ++ [SetBackground (chroma_key_rgb cfg)]
                                 ++ pump_events n)) as [rgb_key|e] eqn:Hs.
  - rewrite (_chroma_key_alpha_ok env cfg n w rgb_key Hs) in Hrun. by injection Hrun as <- <-.
  - rewrite (_chroma_key_alpha_raise env cfg n w e Hs) in Hrun. discriminate.
Qed.

(** When it raises the background stays on the key colour. *)
Lemma chroma_background_left_on_key (cfg : CFG) (n : nat) (w : World) (e : Exn) (w' : World) :
  _chroma_key_alpha env cfg n w = (Raise e, w') ->
  background_color w' = chroma_key_rgb cfg.
Proof.
  intros Hrun.
  destruct (screen_buffer env (trace w ++ [SetBackground (chroma_key_rgb cfg)]
                                 ++ pump_events n)) as [rgb_key|e'] eqn:Hs.
  - rewrite (_chroma_key_alpha_ok env cfg n w rgb_key Hs) in Hrun. discriminate.
  - rewrite (_chroma_key_alpha_raise env cfg n w e' Hs) in Hrun. by injection Hrun as <- <-.
Qed.

End Chroma.

(* ===================================================================== *)
(** * Brightness *)
(* ===================================================================== *)

Lemma f32_0_eq : f32_0 = S754_zero false.
Proof. reflexivity. Qed.

Lemma f32_255_eq : f32_255 = S754_finite false 16711680 (-16).
Proof. reflexivity. Qed.

(** A product at or above 255 is clamped to 255. *)
Lemma clip_high (p : spec_float) :
  SFleb f32_255 p = true -> Np.astype_uint8 (Np.clip p f32_0 f32_255) = 255.
Proof.
  rewrite f32_0_eq, f32_255_eq.
  destruct p as [s|s| |s m e]; try destruct s; try discriminate; try reflexivity.
  unfold SFleb, Np.clip, Np.maximum, Np.minimum, SFltb.
  cbn [Np.is_nan SFcompare].
  destruct (-16 ?= e) eqn:Ee; try discriminate; try reflexivity.
  apply Z.compare_eq in Ee. subst e.
  destruct (Pos.compare_cont Eq 16711680 m) eqn:Em; try discriminate; try reflexivity.
  apply Pos.compare_eq in Em. by subst m.
Qed.

(** A product at or below zero is clamped to 0. *)
Lemma clip_low (p : spec_float) :
  SFleb p f32_0 = true -> Np.astype_uint8 (Np.clip p f32_0 f32_255) = 0.
Proof.
  rewrite f32_0_eq, f32_255_eq.
  by destruct p as [s|s| |s m e]; try destruct s.
Qed.

(** A product strictly inside the range is only truncated. *)
Lemma clip_inside (p : spec_float) :
  SFltb f32_0 p = true -> SFltb p f32_255 = true -> Np.clip p f32_0 f32_255 = p.
Proof.
  rewrite f32_0_eq, f32_255_eq. intros H0 H255.
  unfold Np.clip, Np.maximum, Np.minimum.
  destruct p as [s|s| |s m e]; try destruct s; try discriminate.
  cbn [Np.is_nan]. rewrite (SFcompare_swap_ltb_false _ _ H0).
  cbn [Np.is_nan]. by rewrite (SFcompare_swap_ltb_false _ _ H255).
Qed.

Lemma brighten_identity_table :
  forallb (fun c : nat => brighten_channel f64_1 (Z.of_nat c) =? Z.of_nat c) (seq 0 256) = true.
Proof. vm_compute. reflexivity. Qed.

Lemma brighten_double_table :
  forallb (fun c : nat => brighten_channel (Np.f64_of_Z 2) (Z.of_nat c)
                          =? Z.min 255 (2 * Z.of_nat c)) (seq 0 256) = true.
Proof. vm_compute. reflexivity. Qed.

Lemma byte_table (f : nat -> bool) (c : Z) :
  forallb f (seq 0 256) = true -> 0 <= c <= 255 -> f (Z.to_nat c) = true.
Proof.
  intros Hall Hc. rewrite forallb_forall in Hall. apply Hall, in_seq. lia.
Qed.


(* ===================================================================== *)
(** * Concrete runs *)
(* ===================================================================== *)

Module Runs.

Import Double.

(** Scenario 1: three frames, nothing there yet, resume disabled: three
    images, resume file at 3. *)
Example three_frames :
  let '(r, w) := main (env_lit frames3) cfg0 w0 in
  r = Ok tt /\ resume_text w = Content "3" /\
  dom (out_files w) = {["a.png"; "b.png"; "c.png"]} /\ empty_log w = [].
Proof. vm_compute. repeat split. Qed.

(** Scenario 2: the output of the frame at index 1 is already there: it is
    not rendered again, and the resume file still ends at 3. *)
Example second_frame_done :
  let w_b := set_out_files (<["b.png" := []]> ∅) w0 in
  let '(r, w) := main (env_lit frames3) cfg0 w_b in
  r = Ok tt /\ resume_text w = Content "3" /\
  resume_writes (trace w) = [(1, true); (2, true); (3, true)] /\
  out_files w !! "b.png" = Some [] /\
  omap (fun e => match e with SavePng name _ => Some name | _ => None end) (trace w)
  = ["a.png"; "c.png"].
Proof. vm_compute. repeat split. Qed.

(** Scenario 3: empty depth, keyed render nowhere near the key: the mask is
    full and nothing is logged. *)
Example chroma_full_foreground :
  let '(r, w) := main (env_dark white32 never) cfg0 w0 in
  r = Ok tt /\ empty_log w = [] /\
  (fun img => map (map snd) img) <$> out_files w !! "a.png" = Some [[255; 255]].
Proof. vm_compute. repeat split. Qed.

(** Scenario 4: tolerance 0, keyed render equal to the key everywhere: one
    log entry, no image, resume pointer advanced. *)
Example chroma_all_key :
  let '(r, w) := main (env_dark magenta32 never) cfg0 w0 in
  r = Ok tt /\ empty_log w = [empty_frame_msg 0 "a.ply"] /\
  out_files w = ∅ /\ resume_text w = Content "1".
Proof. vm_compute. repeat split. Qed.

(** Scenario 5: resume file holding 2, five frames: the run starts at the
    third file. *)
Example resume_from_two :
  let '(r, w) := main (env_lit frames5) (with_resume cfg0) (w_resume "2") in
  r = Ok tt /\ resume_writes (trace w) = [(3, true); (4, true); (5, true)] /\
  dom (out_files w) = {["f3.png"; "f4.png"; "f5.png"]}.
Proof. vm_compute. repeat split. Qed.

(** The boundary of the chroma threshold: with key magenta and tolerance
    1/2, the pixel (1/2, 0, 1) is at distance exactly 1/2 and is
    background; (0, 0, 1) is at distance 1 and is foreground. *)
Example chroma_boundary :
  let half := SFdiv 53 1024 f64_1 (Np.f64_of_Z 2) in
  let half32 := Np.f32_of_f64 half in
  max_abs_diff magenta (half32, f32_0, f32_1) = half /\
  chroma_mask magenta half [[(half32, f32_0, f32_1); (f32_0, f32_0, f32_1)]] = [[0; 255]].
Proof. vm_compute. repeat split. Qed.

(** Narrowing without the clamp would wrap: 400 becomes 144. *)
Example narrowing_wraps : Np.astype_uint8 (Np.f32_of_Z 400) = 144.
Proof. reflexivity. Qed.





(** C4, at the failing input: one frame whose depth buffer stays empty
    and whose keyed capture raises.  The exception is swallowed and the
    run completes, but the render option, black before the chroma stage,
    is left on the key colour: after the stage, and still at the end of
    the run. *)
Theorem chroma_exception_leaves_key_background :
  let stage := extract_alpha env_chroma_raises cfg0
                 (extraction_start env_chroma_raises cfg0 params0 None "a.ply" w0) in
  let run := main env_chroma_raises cfg0 w0 in
  background_color (extraction_start env_chroma_raises cfg0 params0 None "a.ply" w0) = black /\
  fst stage = Ok (to_rgb8 black_image, depth_alpha dark_depth) /\
  background_color (snd stage) = magenta /\
  fst run = Ok tt /\
  background_color (snd run) = magenta /\
  magenta <> black.
Proof. vm_compute. repeat split. discriminate. Qed.

Lemma chroma_threshold_witness :
  _chroma_key_alpha (env_dark white32 never) cfg0 10 w0
    = (Ok [[255; 255]],
       add_events (stage_calls magenta black ChromaFallback) w0) /\
  exists rgb_key,
    screen_buffer (env_dark white32 never)
                  (trace w0 ++ [SetBackground magenta] ++ pump_events 10) = Ok rgb_key /\
    [[255; 255]] = chroma_mask magenta (S754_zero false) rgb_key /\
    forall (i j : nat) (px : Vec3),
      at2 rgb_key i j = Some px ->
      exists a,
        at2 [[255; 255]] i j = Some a /\
        (a = 255 <-> SFltb (S754_zero false) (max_abs_diff magenta px) = true) /\
        (a = 0 <-> SFltb (S754_zero false) (max_abs_diff magenta px) = false) /\
        (SFeqb (max_abs_diff magenta px) (S754_zero false) = true -> a = 0) /\
        (Forall (fun d => Np.is_nan d = false) (channel_diffs magenta px) ->
         a = 255 <->
         exists d, d ∈ channel_diffs magenta px /\ SFltb (S754_zero false) d = true).
Proof.
  assert (Hrun : _chroma_key_alpha (env_dark white32 never) cfg0 10 w0
                 = (Ok [[255; 255]],
                    add_events (stage_calls magenta black ChromaFallback) w0))
    by (vm_compute; reflexivity).
  split; [exact Hrun|].
  exact (chroma_threshold (env_dark white32 never) cfg0 10 w0 _ _ Hrun).
Defined.



Lemma existing_output_skipped_witness :
  is_Some (out_files w_done !! out_name "a.ply") /\
  frame_body (env_lit frames3) cfg0 params0 None 0 0 "a.ply" w_done
    = (Ok tt, resumed (env_lit frames3) 1 w_done) /\
  new_events w_done (resumed (env_lit frames3) 1 w_done) = [WriteResume 1 true] /\
  out_files (resumed (env_lit frames3) 1 w_done) = out_files w_done.
Proof.
  assert (He : is_Some (out_files w_done !! out_name "a.ply"))
    by (eexists; vm_compute; reflexivity).
  split; [exact He|].
  destruct (existing_output_skipped (env_lit frames3) cfg0 params0 None 0 0 "a.ply"
              w_done He) as (_ & H1 & H2 & H3 & _).
  repeat split; assumption.
Defined.

Lemma resume_file_start_witness :
  use_resume (with_resume cfg0) = true /\
  resume_start (env_lit frames5) (with_resume cfg0) w0 = (Ok 0, w0) /\
  resume_start (env_lit frames5) (with_resume cfg0) (w_resume "junk") = (Ok 0, w_resume "junk") /\
  resume_start (env_lit frames5) (with_resume cfg0) (w_resume "2") = (Ok 2, w_resume "2") /\
  select_files (with_resume cfg0) 2 (sorted String.leb frames5)
    = ["f3.ply"; "f4.ply"; "f5.ply"].
Proof.
  split; [reflexivity|].
  split.
  { apply (resume_file_start (env_lit frames5) (with_resume cfg0) w0 eq_refl).
    by left. }
  split.
  { apply (resume_file_start (env_lit frames5) (with_resume cfg0) (w_resume "junk") eq_refl).
    right; right. exists "junk". split; [reflexivity|]. left. vm_compute. reflexivity. }
  split.
  { apply (proj2 (resume_file_start (env_lit frames5) (with_resume cfg0) (w_resume "2")
                    eq_refl) "2" 2); [reflexivity|vm_compute; reflexivity|lia]. }
  vm_compute. reflexivity.
Defined.

Lemma chroma_exception_is_empty_witness :
  chroma_key_fallback cfg0 = true /\
  keyed_capture env_chroma_raises cfg0
                (extraction_start env_chroma_raises cfg0 params0 None "a.ply" w0)
    = Raise (PyException "RuntimeError") /\
  exists w1 w3,
    extract_alpha env_chroma_raises cfg0
                  (extraction_start env_chroma_raises cfg0 params0 None "a.ply" w0)
      = (Ok (to_rgb8 black_image, depth_alpha dark_depth), w1) /\
    frame_body env_chroma_raises cfg0 params0 None 0 0 "a.ply" w0 = (Ok tt, w3) /\
    new_events w1 w3 = [AppendLog (empty_frame_msg 0 "a.ply") true; WriteResume 1 true] /\
    out_files w3 = out_files w0.
Proof.
  split; [reflexivity|].
  assert (Hk : keyed_capture env_chroma_raises cfg0
                 (extraction_start env_chroma_raises cfg0 params0 None "a.ply" w0)
               = Raise (PyException "RuntimeError")) by (vm_compute; reflexivity).
  split; [exact Hk|].
  destruct (chroma_exception_is_empty env_chroma_raises cfg0 params0 None 0 0 "a.ply" w0
              black_image dark_depth black_image dark_depth "RuntimeError")
    as (w1 & Hx & _ & Hf & _ & Hn & Ho & _);
    try (vm_compute; repeat split; reflexivity).
  exists w1. eexists. split; [exact Hx|]. split; [exact Hf|].
  split; [exact Hn|exact Ho].
Defined.


End Runs.

(* ===================================================================== *)
(** * Clouds and file names *)
(* ===================================================================== *)

(** * Point clouds *)

Lemma is_empty_length (p : PointCloud) : is_empty p = true <-> length (points p) = 0%nat.
Proof. unfold is_empty. destruct (points p); split; intros; done. Qed.

Lemma _ensure_colors_lengths (pcd : PointCloud) :
  points (_ensure_colors pcd) = points pcd /\
  length (colors (_ensure_colors pcd)) = length (points pcd).
Proof.
  unfold _ensure_colors. destruct (has_colors pcd) eqn:E; cbn [negb colors points].
  - split; [done|]. unfold has_colors in E. apply andb_true_iff in E as [_ E].
    by apply Nat.eqb_eq in E.
  - split; [done|]. apply repeat_length.
Qed.

(** X1: [_ensure_colors] keeps the points and returns a cloud with exactly
    one colour per point: a cloud that has its colours comes back
    unchanged, any other gets white on every point (colours of the wrong
    number are replaced, not padded); a non-empty result has colours, and
    applying the function twice is applying it once. *)
Theorem ensure_colors_complete (pcd : PointCloud) :
  points (_ensure_colors pcd) = points pcd /\
  length (colors (_ensure_colors pcd)) = length (points pcd) /\
  (is_empty pcd = false -> has_colors (_ensure_colors pcd) = true) /\
  (has_colors pcd = true -> _ensure_colors pcd = pcd) /\
  (has_colors pcd = false ->
   colors (_ensure_colors pcd) = repeat (f64_1, f64_1, f64_1) (length (points pcd))) /\
  _ensure_colors (_ensure_colors pcd) = _ensure_colors pcd.
Proof.
  assert (Hlen : length (colors (_ensure_colors pcd)) = length (points pcd)).
  { unfold _ensure_colors. destruct (has_colors pcd) eqn:E; cbn [negb colors points].
    - unfold has_colors in E. apply andb_true_iff in E as [_ E]. by apply Nat.eqb_eq in E.
    - apply repeat_length. }
  assert (Hpts : points (_ensure_colors pcd) = points pcd).
  { unfold _ensure_colors. by destruct (has_colors pcd). }
  assert (Hhas : is_empty pcd = false -> has_colors (_ensure_colors pcd) = true).
  { intros He. unfold has_colors at 1. unfold is_empty in *. rewrite Hpts, Hlen.
    destruct (points pcd); [done|]. cbn [negb andb]. apply Nat.eqb_refl. }
  split; [done|]. split; [done|]. split; [done|].
  split; [intros H; unfold _ensure_colors; by rewrite H|].
  split; [intros H; unfold _ensure_colors; by rewrite H|].
  destruct (is_empty pcd) eqn:He.
  - unfold _ensure_colors at 1.
    destruct (has_colors (_ensure_colors pcd)) eqn:E; [done|]. cbn [negb].
    rewrite Hpts. unfold _ensure_colors.
    destruct (has_colors pcd) eqn:E'; [|done].
    unfold has_colors in E'. by rewrite He in E'.
  - unfold _ensure_colors at 1. by rewrite (Hhas eq_refl).
Qed.

(** * File names *)

Lemma append_cons (c : ascii) (a b : string) : String c a +:+ b = String c (a +:+ b).
Proof. reflexivity. Qed.

Lemma append_nil_l (b : string) : "" +:+ b = b.
Proof. reflexivity. Qed.

Lemma rfind_dot_app (a b : string) (i : nat) (found : option nat) :
  rfind_dot (a +:+ b) i found = rfind_dot b (i + String.length a) (rfind_dot a i found).
Proof.
  revert i found. induction a as [|c a IH]; intros i found.
  - rewrite append_nil_l. cbn [rfind_dot String.length]. by rewrite Nat.add_0_r.
  - rewrite append_cons. cbn [rfind_dot String.length]. rewrite IH. f_equal. lia.
Qed.

Lemma rfind_dot_free (s : string) (i : nat) (found : option nat) :
  dot_free s = true -> rfind_dot s i found = found.
Proof.
  revert i found. induction s as [|c s IH]; intros i found;
    cbn [rfind_dot dot_free]; [done|].
  intros H. apply andb_true_iff in H as [Hc Hs]. rewrite IH by done.
  by destruct (Ascii.eqb c "."%char).
Qed.

Lemma substring_prefix (a b : string) : String.substring 0 (String.length a) (a +:+ b) = a.
Proof.
  induction a as [|c a IH].
  - rewrite append_nil_l. by destruct b.
  - rewrite append_cons. cbn [String.substring String.length]. by rewrite IH.
Qed.

Lemma length_append (a b : string) :
  String.length (a +:+ b) = (String.length a + String.length b)%nat.
Proof.
  induction a as [|c a IH]; [done|].
  rewrite append_cons. cbn [String.length]. by rewrite IH.
Qed.

(** X2: a file named [base.ext], with a non-empty [base] and a non-empty
    suffix [ext] that holds no dot, is written to [base.png]: only the last
    suffix is dropped, dots inside [base] stay. *)
Theorem stem_of_suffixed (base ext : string) :
  base <> EmptyString -> ext <> EmptyString -> dot_free ext = true ->
  stem (base +:+ "." +:+ ext) = base /\
  out_name (base +:+ "." +:+ ext) = base +:+ ".png".
Proof.
  intros Hb He Hd.
  assert (Hstem : stem (base +:+ "." +:+ ext) = base).
  { unfold stem. rewrite rfind_dot_app, append_cons, append_nil_l.
    cbn [rfind_dot]. change (Ascii.eqb "." ".") with true. cbv iota.
    rewrite rfind_dot_free by done.
    rewrite length_append. cbn [String.length Nat.add].
    destruct base as [|c base]; [done|]. destruct ext as [|d ext]; [done|].
    cbn [String.length].
    replace (Nat.ltb 0 (S (String.length base))) with true
      by (symmetry; apply Nat.ltb_lt; lia).
    replace (Nat.ltb _ _) with true by (symmetry; apply Nat.ltb_lt; lia).
    cbn [andb].
    apply (substring_prefix (String c base) (String "." (String d ext))). }
  split; [done|]. unfold out_name. by rewrite Hstem.
Qed.

(** X3: a name without a dot, or whose only dot comes first, has no
    suffix to drop: its stem is the whole name. *)
Theorem stem_without_suffix (name : string) :
  dot_free name = true ->
  stem name = name /\ stem ("." +:+ name) = "." +:+ name.
Proof.
  intros Hd. unfold stem. split.
  - by rewrite rfind_dot_free.
  - rewrite append_cons, append_nil_l. cbn [rfind_dot].
    change (Ascii.eqb "." ".") with true. cbv iota.
    by rewrite rfind_dot_free.
Qed.


(* ===================================================================== *)
(** * Masks and colour conversion *)
(* ===================================================================== *)

Lemma same_shape_map2d {A B} (f : A -> B) (a : list (list A)) : same_shape (map2d f a) a.
Proof.
  unfold same_shape, map2d. rewrite map_map. apply map_ext. intros row. apply length_map.
Qed.

Lemma concat_map2d {A B} (f : A -> B) (a : list (list A)) :
  concat (map2d f a) = map f (concat a).
Proof. unfold map2d. symmetry. apply concat_map. Qed.

Lemma fold_max_in (l : list Z) (a : Z) : fold_left Z.max l a ∈ a :: l.
Proof.
  revert a. induction l as [|y l IH]; intros a; cbn [fold_left]; [set_solver|].
  specialize (IH (Z.max a y)). apply elem_of_cons in IH as [IH|IH]; [|set_solver].
  rewrite IH. destruct (Z.max_spec a y) as [[_ ->]|[_ ->]]; set_solver.
Qed.

Lemma np_max_in (a : Alpha) (m : Z) : np_max a = Some m -> m ∈ concat a.
Proof.
  unfold np_max. destruct (concat a) as [|x xs]; [done|]. intros [= <-]. apply fold_max_in.
Qed.

Lemma np_max_ge (a : Alpha) (m x : Z) : np_max a = Some m -> x ∈ concat a -> x <= m.
Proof.
  unfold np_max. destruct (concat a) as [|y ys]; [done|]. intros [= <-] Hx.
  destruct (fold_max_ge ys y) as [H1 H2].
  apply elem_of_cons in Hx as [->|Hx]; auto.
Qed.

Lemma np_max_none (a : Alpha) : np_max a = None <-> concat a = [].
Proof. unfold np_max. by destruct (concat a). Qed.

Lemma depth_alpha_px_255 (d : spec_float) : depth_alpha_px d = 255 <-> SFltb f32_0 d = true.
Proof. unfold depth_alpha_px. by destruct (SFltb f32_0 d). Qed.

Lemma depth_alpha_px_0 (d : spec_float) : depth_alpha_px d = 0 <-> SFltb f32_0 d = false.
Proof. unfold depth_alpha_px. by destruct (SFltb f32_0 d). Qed.

(** X4: the depth mask is 255 where the depth is above zero and 0
    elsewhere, so its maximum, which decides whether a frame counts as
    empty, is 255 exactly when some pixel has positive depth, 0 exactly
    when the buffer has pixels and none has, and undefined (NumPy raises)
    exactly when the buffer has no pixel; no other value occurs. *)
Theorem depth_mask_emptiness (dep : DepthImage) :
  (np_max (depth_alpha dep) = None <-> concat dep = []) /\
  (np_max (depth_alpha dep) = Some 0 <->
   concat dep <> [] /\ Forall (fun d => SFltb f32_0 d = false) (concat dep)) /\
  (np_max (depth_alpha dep) = Some 255 <->
   Exists (fun d => SFltb f32_0 d = true) (concat dep)) /\
  (forall m, np_max (depth_alpha dep) = Some m -> m = 0 \/ m = 255).
Proof.
  assert (Hc : concat (depth_alpha dep) = map depth_alpha_px (concat dep))
    by apply concat_map2d.
  assert (Hrange : forall m, np_max (depth_alpha dep) = Some m -> m = 0 \/ m = 255).
  { intros m Hm. apply np_max_in in Hm. rewrite Hc in Hm.
    apply list_elem_of_In, in_map_iff in Hm as (d & <- & _). apply depth_alpha_px_range. }
  split; [|split; [|split; [|exact Hrange]]].
  - rewrite np_max_none, Hc. split; [apply map_eq_nil|by intros ->].
  - split.
    + intros Hm. split.
      * intros Hnil. apply np_max_in in Hm. rewrite Hc, Hnil in Hm. by apply elem_of_nil in Hm.
      * apply Forall_forall. intros d Hd. apply depth_alpha_px_0.
        assert (Hle : depth_alpha_px d <= 0).
        { apply (np_max_ge _ _ _ Hm). rewrite Hc.
          apply list_elem_of_In, in_map, list_elem_of_In, Hd. }
        destruct (depth_alpha_px_range d) as [H|H]; lia.
    + intros [Hne Hall].
      destruct (np_max (depth_alpha dep)) as [m|] eqn:Hm.
      * f_equal. apply np_max_in in Hm. rewrite Hc in Hm.
        apply list_elem_of_In, in_map_iff in Hm as (d & <- & Hd).
        apply depth_alpha_px_0. rewrite Forall_forall in Hall.
        apply Hall, list_elem_of_In, Hd.
      * apply np_max_none in Hm. rewrite Hc in Hm. by apply map_eq_nil in Hm.
  - split.
    + intros Hm. apply np_max_in in Hm. rewrite Hc in Hm.
      apply list_elem_of_In, in_map_iff in Hm as (d & Hd255 & Hd).
      apply Exists_exists. exists d. split; [by apply list_elem_of_In|].
      by apply depth_alpha_px_255.
    + intros Hex. apply Exists_exists in Hex as (d & Hd & Hpos).
      assert (Hin : 255 ∈ concat (depth_alpha dep)).
      { rewrite Hc. apply depth_alpha_px_255 in Hpos. rewrite <- Hpos.
        apply list_elem_of_In, in_map, list_elem_of_In, Hd. }
      destruct (np_max (depth_alpha dep)) as [m|] eqn:Hm.
      * pose proof (np_max_ge _ _ _ Hm Hin). destruct (Hrange m eq_refl); [lia|by subst].
      * apply np_max_none in Hm. rewrite Hm in Hin. by apply elem_of_nil in Hin.
Qed.

(** Depth that is zero, negative or NaN never counts as foreground. *)
Lemma depth_alpha_px_background :
  depth_alpha_px (S754_zero false) = 0 /\ depth_alpha_px (S754_zero true) = 0 /\
  depth_alpha_px S754_nan = 0 /\ depth_alpha_px (S754_infinity true) = 0 /\
  forall m e, depth_alpha_px (S754_finite true m e) = 0.
Proof. repeat split. Qed.


Lemma f32_1_eq : f32_1 = S754_finite false 8388608 (-23).
Proof. reflexivity. Qed.



(* ===================================================================== *)
(** * The chroma mask, pixel by pixel *)
(* ===================================================================== *)

(** The mask as one map over the pixels. *)
Lemma chroma_mask_pixelwise (key : Vec3) (tol : spec_float) (rgb_key : FloatImage) :
  chroma_mask key tol rgb_key
  = map2d (fun px => if SFltb tol (max_abs_diff key px) then 255 else 0) rgb_key.
Proof.
  unfold chroma_mask, mask_to_alpha, np_gt, np_max_axis2, np_abs3, np_sub_key, map2d.
  rewrite !map_map. apply map_ext. intros row. rewrite !map_map. apply map_ext.
  intros [[r g] b]. destruct key as [[kr kg] kb]. cbn [map3 max_abs_diff].
  by destruct (SFltb tol _).
Qed.

(** A number minus itself is (positive) zero. *)
Lemma SFsub_diag (x : spec_float) : is_number x = true -> SFsub 53 1024 x x = S754_zero false.
Proof.
  destruct x as [s|s| |s m e]; try discriminate; intros _.
  - by destruct s.
  - cbn [SFsub]. rewrite Z.min_id. unfold shl_align. rewrite Z.sub_diag. cbn [fst].
    reflexivity.
Qed.

Lemma max_abs_diff_key (key px : Vec3) :
  matches_key key px -> max_abs_diff key px = S754_zero false.
Proof.
  destruct px as [[r g] b], key as [[kr kg] kb].
  intros ((<- & Hr) & (<- & Hg) & (<- & Hb)). cbn [max_abs_diff].
  by rewrite !SFsub_diag.
Qed.

(** A tolerance below zero is below every absolute value. *)
Lemma negative_below_abs (tol x : spec_float) :
  SFltb tol (S754_zero false) = true -> Np.is_nan x = false -> SFltb tol (SFabs x) = true.
Proof.
  destruct tol as [s|s| |s m e]; try destruct s; try discriminate;
    destruct x as [sx|sx| |sx mx ex]; try discriminate; reflexivity.
Qed.

(** X6: the chroma mask has the shape of the keyed capture and holds
    only 0 and 255; with a tolerance that is not negative a pixel showing
    exactly the key colour is background; with a negative tolerance every
    pixel whose channel distances are numbers is foreground, the key
    colour included. *)
Theorem chroma_key_pixels (key : Vec3) (tol : spec_float) (rgb_key : FloatImage) :
  same_shape (chroma_mask key tol rgb_key) rgb_key /\
  (forall i j a, at2 (chroma_mask key tol rgb_key) i j = Some a -> a = 0 \/ a = 255) /\
  (SFltb tol (S754_zero false) = false ->
   forall i j px, at2 rgb_key i j = Some px -> matches_key key px ->
                  at2 (chroma_mask key tol rgb_key) i j = Some 0) /\
  (SFltb tol (S754_zero false) = true ->
   forall i j px, at2 rgb_key i j = Some px ->
                  Forall (fun d => Np.is_nan d = false) (channel_diffs key px) ->
                  at2 (chroma_mask key tol rgb_key) i j = Some 255).
Proof.
  rewrite chroma_mask_pixelwise.
  split; [apply same_shape_map2d|].
  split.
  { intros i j a. rewrite at2_map2d. destruct (at2 rgb_key i j) as [px|]; [|done].
    cbn [fmap option_fmap option_map]. intros [= <-]. destruct (SFltb tol _); auto. }
  split.
  - intros Htol i j px Hpx Hkey. rewrite at2_map2d, Hpx. cbn [fmap option_fmap option_map].
    by rewrite (max_abs_diff_key key px Hkey), Htol.
  - intros Htol i j px Hpx Hn. rewrite at2_map2d, Hpx. cbn [fmap option_fmap option_map].
    assert (Hgt : SFltb tol (max_abs_diff key px) = true).
    { apply (max_abs_diff_gt key px tol Hn).
      destruct px as [[r g] b], key as [[kr kg] kb]. cbn [channel_diffs] in Hn |- *.
      eexists. split; [left|].
      apply negative_below_abs; [done|].
      apply Forall_cons in Hn as [Hr _].
      by destruct (SFsub 53 1024 (Np.f64_of_f32 r) kr). }
    by rewrite Hgt.
Qed.


(* ===================================================================== *)
(** * The calls of the loop and the shape of a run *)
(* ===================================================================== *)

Lemma emits_weaken (P Q : Event -> Prop) {A} (m : M A) :
  (forall e, P e -> Q e) -> emits P m -> emits Q m.
Proof.
  intros HPQ Hm w r w' Hrun. destruct (Hm _ _ _ Hrun) as (evs & Ht & Hf).
  exists evs. split; [done|]. eapply Forall_impl; [exact Hf|auto].
Qed.

Lemma emits_try (P : Event -> Prop) {A} (body handler : M A) :
  emits P body -> emits P handler -> emits P (try_except body handler).
Proof.
  intros Hb Hh w r w' Hrun. unfold try_except in Hrun.
  destruct (body w) as [[a|[msg|name]] w1] eqn:Eb.
  - injection Hrun as <- <-. exact (Hb _ _ _ Eb).
  - injection Hrun as <- <-. exact (Hb _ _ _ Eb).
  - destruct (Hb _ _ _ Eb) as (evs1 & Ht1 & Hf1).
    destruct (Hh _ _ _ Hrun) as (evs2 & Ht2 & Hf2).
    exists (evs1 ++ evs2). rewrite Ht2, Ht1, app_assoc. split; [done|by apply Forall_app].
Qed.

Lemma emits_if (P : Event -> Prop) {A} (b : bool) (m1 m2 : M A) :
  emits P m1 -> emits P m2 -> emits P (if b then m1 else m2).
Proof. by destruct b. Qed.

Lemma emits_pump (P : Event -> Prop) (n : nat) :
  P PollEvents -> P UpdateRenderer -> emits P (_pump n).
Proof.
  intros Hp Hu w r w' Hrun. rewrite _pump_run in Hrun. injection Hrun as <- <-.
  exists (pump_events n). split; [done|]. induction n; cbn [pump_events]; auto.
Qed.

Lemma emits_alpha_max (P : Event -> Prop) (a : Alpha) : emits P (alpha_max a).
Proof. unfold alpha_max. destruct (np_max a); [apply emits_ret|apply emits_raise]. Qed.

Section Calls.

Context (env : Env).

Lemma emits_one {A} (P : Event -> Prop) (m : M A) (e : Event) :
  P e -> (forall w, trace (snd (m w)) = trace w ++ [e]) -> emits P m.
Proof.
  intros He Hm w r w' Hrun. exists [e]. split; [|by repeat constructor].
  specialize (Hm w). by rewrite Hrun in Hm.
Qed.

Lemma emits_capture_screen (P : Event -> Prop) :
  P CaptureScreen -> emits P (capture_screen_float_buffer env).
Proof. intros H. by apply (emits_one P _ CaptureScreen). Qed.

Lemma emits_capture_depth (P : Event -> Prop) :
  P CaptureDepth -> emits P (capture_depth_float_buffer env).
Proof. intros H. by apply (emits_one P _ CaptureDepth). Qed.

Lemma emits_set_background (P : Event -> Prop) (c : Vec3) :
  P (SetBackground c) -> emits P (set_background c).
Proof. intros H. by apply (emits_one P _ (SetBackground c)). Qed.

Lemma emits_get_background (P : Event -> Prop) : emits P get_background.
Proof. intros w r w' [= <- <-]. exists []. by rewrite app_nil_r. Qed.

Lemma emits_capture_rgb_depth (n : nat) : emits is_capture_call (_capture_rgb_depth env n).
Proof.
  unfold _capture_rgb_depth.
  apply emits_bind; [by apply emits_pump|intros _].
  apply emits_bind; [by apply emits_capture_screen|intros rgb].
  apply emits_bind; [by apply emits_capture_depth|intros dep].
  apply emits_ret.
Qed.

Lemma emits_chroma (cfg : CFG) (n : nat) : emits is_capture_call (_chroma_key_alpha env cfg n).
Proof.
  unfold _chroma_key_alpha.
  apply emits_bind; [apply emits_get_background|intros bg].
  apply emits_bind; [by apply emits_set_background|intros _].
  apply emits_bind; [by apply emits_pump|intros _].
  apply emits_bind; [by apply emits_capture_screen|intros rgb].
  apply emits_bind; [by apply emits_set_background|intros _].
  apply emits_bind; [by apply (emits_pump _ 2)|intros _].
  apply emits_ret.
Qed.

(** Extraction only pumps, captures and sets the background. *)
Lemma emits_extract (cfg : CFG) : emits is_capture_call (extract_alpha env cfg).
Proof.
  unfold extract_alpha.
  apply emits_bind; [apply emits_capture_rgb_depth|intros [[rf r8] a]].
  apply emits_bind; [apply emits_alpha_max|intros m].
  apply emits_bind;
    [apply emits_if; [apply emits_capture_rgb_depth|apply emits_ret]|intros [[rf' r8'] a']].
  apply emits_bind; [apply emits_alpha_max|intros m'].
  apply emits_bind; [|intros ?; apply emits_ret].
  apply emits_if; [|apply emits_ret].
  apply emits_try; [apply emits_chroma|apply emits_ret].
Qed.

Lemma emits_write_resume (P : Event -> Prop) (n : Z) :
  (forall ok, P (WriteResume n ok)) -> emits P (_write_resume env n).
Proof.
  intros H w r w' Hrun. rewrite _write_resume_run in Hrun. injection Hrun as <- <-.
  eexists. rewrite resumed_trace. split; [reflexivity|]. by repeat constructor.
Qed.

Lemma emits_finish (cfg : CFG) (idx : Z) (k : nat) (ply : string) (rgb8 : Rgb8) (alpha : Alpha) :
  emits is_finish_call (finish_frame env cfg idx k ply rgb8 alpha).
Proof.
  unfold finish_frame.
  apply emits_bind; [apply emits_alpha_max|intros m].
  apply emits_if.
  - apply emits_bind; [|intros _; by apply emits_write_resume].
    intros w r w' Hrun. rewrite guarded_log_run in Hrun. injection Hrun as <- <-.
    eexists. rewrite logged_trace. split; [reflexivity|]. by repeat constructor.
  - apply emits_bind.
    { intros w r w' Hrun. unfold save_png in Hrun.
      destruct (io_fails env (trace w)); injection Hrun as <- <-;
        (eexists; split; [reflexivity|by repeat constructor]). }
    intros _. apply emits_bind; [by apply emits_write_resume|intros _].
    apply emits_if; [by apply emits_emit|apply emits_ret].
Qed.

Lemma emits_clipping (P : Event -> Prop) :
  (forall name, P (CtrCall name)) -> emits P (_set_constant_clipping_if_available env).
Proof.
  intros H w r w' Hrun. rewrite clipping_run in Hrun. injection Hrun as <- <-.
  eexists. split; [reflexivity|].
  destruct (ctr_has env "set_constant_z_near"), (ctr_has env "set_constant_z_far");
    by repeat constructor.
Qed.

(** The loop body keeps to the calls of the loop. *)
Lemma emits_frame_body (cfg : CFG) (bp : PinholeCameraParameters) (rc : option Vec3)
      (start : Z) (k : nat) (ply : string) :
  emits (loop_call bp) (frame_body env cfg bp rc start k ply).
Proof.
  unfold frame_body.
  apply emits_bind; [intros w r w' [= <- <-]; exists []; by rewrite app_nil_r|intros e].
  apply emits_if; [by apply emits_write_resume|].
  apply emits_if; [by apply emits_write_resume|].
  apply emits_bind; [by apply emits_emit|intros _].
  apply emits_bind; [by apply emits_emit|intros _].
  apply emits_bind; [by apply emits_clipping|intros _].
  apply emits_bind.
  { eapply emits_weaken; [|apply emits_extract]. by intros []. }
  intros [rgb8 alpha]. eapply emits_weaken; [|apply emits_finish]. by intros [].
Qed.

Lemma emits_main_loop (cfg : CFG) (bp : PinholeCameraParameters) (rc : option Vec3)
      (start : Z) (files : list string) (k : nat) :
  emits (loop_call bp) (main_loop env cfg bp rc start k files).
Proof.
  revert k. induction files as [|ply rest IH]; intros k; cbn [main_loop].
  - apply emits_ret.
  - apply emits_bind; [apply emits_frame_body|intros _; apply IH].
Qed.

(** The whole of [main] once the listing is not empty, the descriptor is
    read and the start index known. *)
Lemma main_unfold (cfg : CFG) (w : World) (bp : PinholeCameraParameters)
      (view_w view_h : Z) (rc : option Vec3) (start : Z) :
  sorted (path_leb env) (glob_names env) <> [] ->
  _load_view env w = (Ok (bp, (view_w, view_h), rc), w) ->
  resume_start env (set_canvas view_w view_h cfg) w = (Ok start, w) ->
  let cfg' := set_canvas view_w view_h cfg in
  let files := select_files cfg' start (sorted (path_leb env) (glob_names env)) in
  let w1 := startup_world cfg view_w view_h w in
  main env cfg w =
  match find_seed env cfg' files with
  | None => (Raise (SystemExit "All PLY files were empty; nothing to render."), w1)
  | Some (_, pcd_draw) =>
      match main_loop env cfg' bp rc start 0 files
                      (add_events (seed_events env bp pcd_draw) w1) with
      | (Ok _, w3) => (Ok tt, add_events [DestroyWindow] w3)
      | (Raise e, w3) => (Raise e, w3)
      end
  end.
Proof.
  intros Hne Hview Hstart. cbv zeta.
  unfold main. destruct (sorted (path_leb env) (glob_names env)) as [|f0 fs] eqn:El; [done|].
  rewrite <- El. unfold bind at 1. rewrite Hview. cbv beta iota.
  unfold bind at 1. rewrite Hstart. cbv beta iota.
  set (cfg' := set_canvas view_w view_h cfg).
  set (files := select_files cfg' start (sorted (path_leb env) (glob_names env))).
  set (w1 := startup_world cfg view_w view_h w).
  unfold bind at 1, emit at 1. cbv beta iota.
  unfold bind at 1, init_render_option. cbv beta iota zeta.
  cbn [width height set_canvas point_size cfg'].
  replace (add_events [SetBackground _] _) with w1 by (subst w1; unfold startup_world; world_eq).
  destruct (find_seed env cfg' files) as [[sp pcd]|]; [|reflexivity].
  unfold bind at 1, emit at 1. cbv beta iota.
  unfold bind at 1. rewrite _pump_run. cbv beta iota.
  unfold bind at 1, emit at 1. cbv beta iota.
  unfold bind at 1. rewrite clipping_run. cbv beta iota.
  unfold bind at 1. rewrite _pump_run. cbv beta iota.
  replace (add_events (pump_events 10) _)
    with (add_events (seed_events env bp pcd) w1)
    by (unfold seed_events, clip_events; rewrite !add_events_app, <- !app_assoc; reflexivity).
  unfold bind, emit.
  by destruct (main_loop env cfg' bp rc start 0 files _) as [[[]|e] w3].
Qed.

End Calls.


(* ===================================================================== *)
(** * Frames: errors, skips and rendering *)
(* ===================================================================== *)

Lemma pump_events_length (n : nat) : length (pump_events n) = (2 * n)%nat.
Proof. induction n as [|n IH]; cbn [pump_events length]; lia. Qed.

Lemma pump_events_lookup (n i : nat) :
  (i < n)%nat ->
  pump_events n !! (2 * i)%nat = Some PollEvents /\
  pump_events n !! (2 * i + 1)%nat = Some UpdateRenderer.
Proof.
  revert i. induction n as [|n IH]; intros i Hi; [lia|].
  destruct i as [|i]; [done|].
  replace (2 * S i)%nat with (S (S (2 * i))) by lia.
  replace (S (S (2 * i)) + 1)%nat with (S (S (2 * i + 1))) by lia.
  cbn [pump_events lookup list_lookup]. apply IH. lia.
Qed.

(** X7: [_pump n] returns normally after exactly [n] rounds of
    [poll_events] then [update_renderer], in that order, and changes
    nothing else: not the background, not the three files. *)
Theorem pump_settles (n : nat) (w : World) :
  exists w',
    _pump n w = (Ok tt, w') /\
    new_events w w' = pump_events n /\
    length (new_events w w') = (2 * n)%nat /\
    (forall i, (i < n)%nat ->
               new_events w w' !! (2 * i)%nat = Some PollEvents /\
               new_events w w' !! (2 * i + 1)%nat = Some UpdateRenderer) /\
    background_color w' = background_color w /\ resume_text w' = resume_text w /\
    out_files w' = out_files w /\ empty_log w' = empty_log w.
Proof.
  exists (add_events (pump_events n) w).
  assert (Hn : new_events w (add_events (pump_events n) w) = pump_events n)
    by (by apply new_events_app).
  rewrite Hn. split; [apply _pump_run|]. split; [done|].
  split; [apply pump_events_length|]. split; [apply pump_events_lookup|]. done.
Qed.

Section Errors.

Context (env : Env).

Lemma _capture_rgb_depth_screen_raise (n : nat) (w : World) (e : Exn) :
  screen_buffer env (trace w ++ pump_events n) = Raise e ->
  _capture_rgb_depth env n w = (Raise e, add_events (pump_events n ++ [CaptureScreen]) w).
Proof.
  intros Hs. unfold _capture_rgb_depth, bind. rewrite _pump_run.
  unfold capture_screen_float_buffer. cbn [trace add_events]. rewrite Hs.
  f_equal. world_eq.
Qed.

Lemma _capture_rgb_depth_depth_raise (n : nat) (w : World) (rgb : FloatImage) (e : Exn) :
  screen_buffer env (trace w ++ pump_events n) = Ok rgb ->
  depth_buffer env (trace w ++ pump_events n ++ [CaptureScreen]) = Raise e ->
  _capture_rgb_depth env n w
  = (Raise e, add_events (pump_events n ++ [CaptureScreen; CaptureDepth]) w).
Proof.
  intros Hs Hd. unfold _capture_rgb_depth, bind. rewrite _pump_run.
  unfold capture_screen_float_buffer, capture_depth_float_buffer.
  cbn [trace add_events]. rewrite Hs. cbn [trace add_events].
  rewrite <- app_assoc, Hd. f_equal. world_eq.
Qed.

Variables (cfg : CFG) (base_params : PinholeCameraParameters)
          (ref_center : option Vec3) (start : Z) (k : nat) (ply : string).

Let idx : Z := start + Z.of_nat k.

(** X8: an exception raised by the colour capture or by the depth
    capture of a frame's first depth attempt is not caught: the frame and
    the whole loop stop with it, the later files are not visited, and the
    frame has saved nothing, logged nothing and not moved the resume
    pointer. *)
Theorem depth_capture_exception_propagates (w : World) (e : Exn) :
  let w0 := extraction_start env cfg base_params ref_center ply w in
  out_files w !! out_name ply = None ->
  is_empty (read_point_cloud env ply) = false ->
  screen_buffer env (trace w0 ++ pump_events 6) = Raise e \/
  (exists rgb, screen_buffer env (trace w0 ++ pump_events 6) = Ok rgb /\
               depth_buffer env (trace w0 ++ pump_events 6 ++ [CaptureScreen]) = Raise e) ->
  exists w',
    frame_body env cfg base_params ref_center start k ply w = (Raise e, w') /\
    (forall rest,
        main_loop env cfg base_params ref_center start k (ply :: rest) w = (Raise e, w')) /\
    resume_writes (new_events w w') = [] /\
    resume_text w' = resume_text w /\ out_files w' = out_files w /\
    empty_log w' = empty_log w.
Proof.
  intros w0 Hn He Hraise.
  assert (Hx : exists evs, extract_alpha env cfg w0 = (Raise e, add_events evs w0) /\
                           Forall is_backend_call evs).
  { unfold extract_alpha, bind. destruct Hraise as [Hs|(rgb & Hs & Hd)].
    - rewrite (_capture_rgb_depth_screen_raise 6 w0 e Hs). eexists. split; [reflexivity|].
      apply Forall_app. split; [apply pump_events_backend|by repeat constructor].
    - rewrite (_capture_rgb_depth_depth_raise 6 w0 rgb e Hs Hd). eexists. split; [reflexivity|].
      apply Forall_app. split; [apply pump_events_backend|by repeat constructor]. }
  destruct Hx as (evs & Hx & Hb).
  assert (Hf : frame_body env cfg base_params ref_center start k ply w
               = (Raise e, add_events evs w0)).
  { rewrite frame_body_render by done. fold w0. unfold bind. by rewrite Hx. }
  exists (add_events evs w0). split; [exact Hf|].
  split; [intros rest; cbn [main_loop]; unfold bind; by rewrite Hf|].
  split; [|done].
  rewrite (new_events_app w _ (prep_events env cfg base_params ref_center ply ++ evs)).
  - rewrite resume_writes_app, (resume_writes_backend evs Hb).
    rewrite resume_writes_backend; [done|].
    unfold prep_events.
    destruct (ctr_has env "set_constant_z_near"), (ctr_has env "set_constant_z_far");
      by repeat constructor.
  - subst w0. unfold extraction_start. cbn [trace add_events]. by rewrite app_assoc.
Qed.

(** X9: a frame whose output is missing and whose cloud is empty is
    skipped: the only call is the update of the resume pointer to the
    frame's index plus one; nothing is rendered, saved or logged. *)
Theorem empty_cloud_skipped (w : World) :
  out_files w !! out_name ply = None ->
  is_empty (read_point_cloud env ply) = true ->
  let w' := resumed env (idx + 1) w in
  frame_body env cfg base_params ref_center start k ply w = (Ok tt, w') /\
  new_events w w' = [WriteResume (idx + 1) (negb (io_fails env (trace w)))] /\
  empty_log w' = empty_log w /\ out_files w' = out_files w /\
  background_color w' = background_color w.
Proof.
  intros Hn He w'.
  split; [by apply frame_body_empty_cloud|].
  subst w'. split; [apply new_events_app, resumed_trace|].
  by destruct (resumed_others env (idx + 1) w) as (-> & -> & ->).
Qed.


(** X11: when the image cannot be written the exception is not caught:
    the frame and the loop stop with it, the resume pointer is not moved,
    so the next run starts again at this frame, and the output directory
    and the log are as before. *)
Theorem save_failure_propagates (w w1 : World) (rgb8 : Rgb8) (alpha : Alpha) (m : Z) :
  let w0 := extraction_start env cfg base_params ref_center ply w in
  out_files w !! out_name ply = None ->
  is_empty (read_point_cloud env ply) = false ->
  extract_alpha env cfg w0 = (Ok (rgb8, alpha), w1) ->
  np_max alpha = Some m -> m <> 0 ->
  io_fails env (trace w1) = true ->
  let w' := add_events [SavePng (out_name ply) false] w1 in
  frame_body env cfg base_params ref_center start k ply w
    = (Raise (PyException "OSError"), w') /\
  (forall rest,
      main_loop env cfg base_params ref_center start k (ply :: rest) w
      = (Raise (PyException "OSError"), w')) /\
  resume_writes (new_events w w') = [] /\
  resume_text w' = resume_text w /\ out_files w' = out_files w /\
  empty_log w' = empty_log w.
Proof.
  intros w0 Hn He Hx Hm Hne Hio w'.
  destruct (backend_only_extract env cfg _ _ _ Hx) as (evs & Ht1 & Hb1 & Hr1 & Ho1 & Hl1).
  assert (Hf : frame_body env cfg base_params ref_center start k ply w
               = (Raise (PyException "OSError"), w')).
  { rewrite frame_body_render by done. fold w0. unfold bind at 1. rewrite Hx.
    cbn [fst snd]. unfold finish_frame, bind at 1, alpha_max. rewrite Hm. unfold ret at 1.
    replace (m =? 0) with false by lia.
    unfold bind at 1, save_png. by rewrite Hio. }
  split; [exact Hf|].
  split; [intros rest; cbn [main_loop]; unfold bind; by rewrite Hf|].
  subst w0. unfold extraction_start in *. cbn [trace add_events resume_text out_files empty_log] in *.
  split; [|done].
  rewrite (new_events_app w w' (prep_events env cfg base_params ref_center ply ++ evs
                                  ++ [SavePng (out_name ply) false])).
  - rewrite !resume_writes_app, (resume_writes_backend evs Hb1).
    rewrite resume_writes_backend; [done|].
    unfold prep_events.
    destruct (ctr_has env "set_constant_z_near"), (ctr_has env "set_constant_z_far");
      by repeat constructor.
  - subst w'. cbn [trace add_events]. by rewrite Ht1, <- !app_assoc.
Qed.

End Errors.


(* ===================================================================== *)
(** * The stores of the loop *)
(* ===================================================================== *)

Section Stores.

Context (env : Env).
Variables (cfg : CFG) (base_params : PinholeCameraParameters)
          (ref_center : option Vec3) (start : Z).

Lemma finish_frame_stores (k : nat) (idx : Z) (ply : string) (rgb8 : Rgb8) (alpha : Alpha)
      (w : World) (r : Res unit) (w' : World) :
  out_files w !! out_name ply = None ->
  finish_frame env cfg idx k ply rgb8 alpha w = (r, w') ->
  frame_stores idx ply w w'.
Proof.
  intros Hn. unfold finish_frame, bind, alpha_max.
  destruct (np_max alpha) as [m|]; [|intros [= <- <-]; split; by left].
  unfold ret at 1. destruct (m =? 0).
  - rewrite guarded_log_run, _write_resume_run. intros [= <- <-].
    destruct (resumed_others env (idx + 1) (logged env (empty_frame_msg idx ply) w))
      as (Ho & Hl & _).
    destruct (logged_others env (empty_frame_msg idx ply) w) as (_ & Ho' & _).
    unfold frame_stores. split; [left; by rewrite Ho, Ho'|].
    rewrite Hl. unfold logged. destruct (io_fails env (trace w)); [by left|by right].
  - unfold save_png. destruct (io_fails env (trace w)) eqn:Ef.
    + intros [= <- <-]. split; by left.
    + rewrite _write_resume_run.
      set (w1 := add_events [SavePng (out_name ply) true] _).
      destruct (resumed_others env (idx + 1) w1) as (Ho & Hl & _).
      destruct (negb (gc_every cfg =? 0) && ((Z.of_nat k + 1) mod gc_every cfg =? 0));
        intros [= <- <-].
      * unfold frame_stores. cbn [emit add_events out_files empty_log]. rewrite Ho, Hl.
        split; [right; split; [done|by eexists]|by left].
      * unfold frame_stores. rewrite Ho, Hl.
        split; [right; split; [done|by eexists]|by left].
Qed.

Lemma frame_body_stores (k : nat) (ply : string) (w : World) (r : Res unit) (w' : World) :
  frame_body env cfg base_params ref_center start k ply w = (r, w') ->
  frame_stores (start + Z.of_nat k) ply w w'.
Proof.
  assert (Hskip : forall n, frame_stores (start + Z.of_nat k) ply w (resumed env n w)).
  { intros n. unfold frame_stores.
    destruct (resumed_others env n w) as (-> & -> & _). split; by left. }
  destruct (out_files w !! out_name ply) as [img|] eqn:Eo.
  { rewrite frame_body_exists by (rewrite Eo; by eexists). intros [= <- <-]. apply Hskip. }
  destruct (is_empty (read_point_cloud env ply)) eqn:Ee.
  { rewrite frame_body_empty_cloud by done. intros [= <- <-]. apply Hskip. }
  rewrite frame_body_render by done. unfold bind.
  destruct (extract_alpha env cfg _) as [[ra|e] w1] eqn:Ex;
    destruct (backend_only_extract env cfg _ _ _ Ex) as (evs1 & _ & _ & _ & Ho1 & Hl1);
    unfold extraction_start in Ho1, Hl1; cbn [out_files empty_log add_events] in Ho1, Hl1.
  - intros Hf. apply finish_frame_stores in Hf; [|by rewrite Ho1].
    unfold frame_stores in *. by rewrite <- Ho1, <- Hl1.
  - intros [= <- <-]. unfold frame_stores. rewrite Ho1, Hl1. split; by left.
Qed.

Lemma main_loop_new_outputs (files : list string) (k : nat) (w : World)
      (r : Res unit) (w' : World) :
  main_loop env cfg base_params ref_center start k files w = (r, w') ->
  forall name img, out_files w' !! name = Some img ->
                   out_files w !! name = Some img \/
                   out_files w !! name = None /\
                   exists ply, ply ∈ files /\ name = out_name ply.
Proof.
  revert k w. induction files as [|ply rest IH]; intros k w; cbn [main_loop].
  - intros [= <- <-]. auto.
  - unfold bind.
    assert (Hstep : forall w1 name img,
               frame_stores (start + Z.of_nat k) ply w w1 ->
               out_files w1 !! name = Some img ->
               out_files w !! name = Some img \/
               out_files w !! name = None /\ name = out_name ply).
    { intros w1 name img [[Heq|(Hnone & img0 & Heq)] _] Hn; rewrite Heq in Hn; [by left|].
      destruct (decide (out_name ply = name)) as [<-|Hne]; [by right|].
      left. by rewrite lookup_insert_ne in Hn. }
    assert (Hfree : forall w1 name,
               frame_stores (start + Z.of_nat k) ply w w1 ->
               out_files w1 !! name = None -> out_files w !! name = None).
    { intros w1 name [[Heq|(Hnone & img0 & Heq)] _] Hn; rewrite Heq in Hn; [done|].
      destruct (decide (out_name ply = name)) as [<-|Hne]; [done|].
      by rewrite lookup_insert_ne in Hn. }
    destruct (frame_body env cfg base_params ref_center start k ply w)
      as [[[]|e] w1] eqn:Ef; apply frame_body_stores in Ef.
    + intros Hl name img Hn. destruct (IH _ _ Hl _ _ Hn) as [H1|(H1 & p & Hp & ->)].
      * destruct (Hstep _ _ _ Ef H1) as [H|[H ->]]; [by left|].
        right. split; [done|]. exists ply. split; [left|done].
      * right. split; [by eapply Hfree|]. exists p. split; [by right|done].
    + intros [= <- <-] name img Hn.
      destruct (Hstep _ _ _ Ef Hn) as [H|[H ->]]; [by left|].
      right. split; [done|]. exists ply. split; [left|done].
Qed.

(** X12: the loop never overwrites or removes an output: every image
    present before the run is present and unchanged after it, and every
    image present after it was there before or is the output of one of
    the files of the run, under a name that was free. *)
Theorem outputs_never_overwritten (files : list string) (k : nat) (w : World)
        (r : Res unit) (w' : World) :
  main_loop env cfg base_params ref_center start k files w = (r, w') ->
  (forall name img, out_files w !! name = Some img -> out_files w' !! name = Some img) /\
  (forall name img, out_files w' !! name = Some img ->
                    out_files w !! name = Some img \/
                    out_files w !! name = None /\
                    exists ply, ply ∈ files /\ name = out_name ply).
Proof.
  intros Hrun. split; [|by eapply main_loop_new_outputs].
  revert k w Hrun. induction files as [|ply rest IH]; intros k w; cbn [main_loop].
  - by intros [= <- <-].
  - unfold bind.
    assert (Hstep : forall w1 name img,
               frame_stores (start + Z.of_nat k) ply w w1 ->
               out_files w !! name = Some img -> out_files w1 !! name = Some img).
    { intros w1 name img [[->|(Hnone & img0 & ->)] _] Hn; [done|].
      rewrite lookup_insert_ne; [done|]. intros <-. by rewrite Hnone in Hn. }
    destruct (frame_body env cfg base_params ref_center start k ply w)
      as [[[]|e] w1] eqn:Ef; apply frame_body_stores in Ef.
    + intros Hl name img Hn. eapply IH; [exact Hl|]. by eapply Hstep.
    + intros [= <- <-] name img Hn. by eapply Hstep.
Qed.

(** X13: the loop only appends to the empty-frame log: the lines present
    before stay where they are, at most one line is added per file, and
    each added line is the EMPTY_FRAME line of one of the files, with that
    file's index. *)
Theorem empty_log_append_only (files : list string) (k : nat) (w : World)
        (r : Res unit) (w' : World) :
  main_loop env cfg base_params ref_center start k files w = (r, w') ->
  exists lines,
    empty_log w' = empty_log w ++ lines /\
    (length lines <= length files)%nat /\
    Forall (fun line => exists (j : nat) (ply : string),
                files !! j = Some ply /\
                line = empty_frame_msg (start + Z.of_nat (k + j)) ply) lines.
Proof.
  revert k w. induction files as [|ply rest IH]; intros k w; cbn [main_loop].
  - intros [= <- <-]. exists []. by rewrite app_nil_r.
  - unfold bind.
    assert (Hstep : forall w1, frame_stores (start + Z.of_nat k) ply w w1 ->
              exists l1, empty_log w1 = empty_log w ++ l1 /\ (length l1 <= 1)%nat /\
                Forall (fun line => exists (j : nat) (p : string),
                          (ply :: rest) !! j = Some p /\
                          line = empty_frame_msg (start + Z.of_nat (k + j)) p) l1).
    { intros w1 [_ [Heq|Heq]].
      - exists []. rewrite app_nil_r. split; [done|]. split; [cbn; lia|constructor].
      - eexists. split; [exact Heq|]. split; [cbn; lia|].
        constructor; [|constructor]. exists 0%nat, ply. by rewrite Nat.add_0_r. }
    destruct (frame_body env cfg base_params ref_center start k ply w)
      as [[[]|e] w1] eqn:Ef; apply frame_body_stores, Hstep in Ef as (l1 & Hl1 & Hlen1 & Hall1).
    + intros Hl. destruct (IH _ _ Hl) as (l2 & Hl2 & Hlen2 & Hall2).
      exists (l1 ++ l2). split; [by rewrite Hl2, Hl1, app_assoc|].
      split; [rewrite length_app; cbn [length]; lia|].
      apply Forall_app; split; [done|].
      eapply Forall_impl; [exact Hall2|]. intros line (j & p & Hj & ->).
      exists (S j), p. split; [done|]. by replace (k + S j)%nat with (S k + j)%nat by lia.
    + intros [= <- <-]. exists l1. split; [done|]. split; [cbn [length]; lia|done].
Qed.

(** X14: when the output of every file is already there, the loop
    completes and all it does is update the resume pointer once per file,
    with consecutive values: no backend call, no image, no log line, and
    the render option is untouched. *)
Theorem rerun_skips_everything (files : list string) (k : nat) (w : World) :
  (forall ply, ply ∈ files -> is_Some (out_files w !! out_name ply)) ->
  exists w',
    main_loop env cfg base_params ref_center start k files w = (Ok tt, w') /\
    Forall is_resume_write (new_events w w') /\
    map fst (resume_writes (new_events w w'))
      = consecutive (start + Z.of_nat k + 1) (length files) /\
    out_files w' = out_files w /\ empty_log w' = empty_log w /\
    background_color w' = background_color w.
Proof.
  revert k w. induction files as [|ply rest IH]; intros k w Hall; cbn [main_loop].
  - exists w. split; [done|]. unfold new_events. rewrite drop_all. by repeat split.
  - unfold bind. rewrite frame_body_exists by (apply Hall; left).
    destruct (resumed_others env (start + Z.of_nat k + 1) w) as (Ho & Hl & Hb).
    destruct (IH (S k) (resumed env (start + Z.of_nat k + 1) w)) as (w' & Hrun & Hev & Hw & Ho' & Hl' & Hb').
    { intros p Hp. rewrite Ho. apply Hall. by right. }
    exists w'. split; [exact Hrun|].
    destruct (main_loop_run env _ _ _ _ _ _ _ _ _ Hrun) as (evs & n & Ht & _).
    rewrite (new_events_app _ _ _ Ht) in Hev, Hw.
    rewrite resumed_trace, <- app_assoc in Ht.
    rewrite (new_events_app _ _ _ Ht).
    split; [by constructor|].
    split.
    { cbn [app]. change (resume_writes (?e :: ?l)) with (resume_writes ([e] ++ l)).
      rewrite resume_writes_app, map_app, Hw. cbn [length]. rewrite consecutive_S.
      cbn [resume_writes omap map fst app]. do 2 f_equal. lia. }
    by rewrite Ho', Hl', Hb', Ho, Hl, Hb.
Qed.

End Stores.


(* ===================================================================== *)
(** * The entry point *)
(* ===================================================================== *)

Lemma insert_sorted_length (leb : string -> string -> bool) (x : string) (l : list string) :
  length (insert_sorted leb x l) = S (length l).
Proof.
  induction l as [|y l IH]; cbn [insert_sorted]; [done|].
  destruct (leb y x); cbn [length]; by rewrite ?IH.
Qed.

Lemma sorted_length (leb : string -> string -> bool) (l : list string) :
  length (sorted leb l) = length l.
Proof.
  induction l as [|x l IH]; [done|].
  unfold sorted in *. cbn [fold_right]. by rewrite insert_sorted_length, IH.
Qed.

Lemma sorted_nil (leb : string -> string -> bool) (l : list string) :
  sorted leb l = [] <-> l = [].
Proof.
  split; [|by intros ->].
  intros H. apply (f_equal length) in H. rewrite sorted_length in H.
  by destruct l.
Qed.

Lemma pump_events_all (P : Event -> Prop) (n : nat) :
  P PollEvents -> P UpdateRenderer -> Forall P (pump_events n).
Proof. intros Hp Hu. induction n; cbn [pump_events]; by repeat constructor. Qed.

Lemma seed_events_all (P : Event -> Prop) (env : Env) (bp : PinholeCameraParameters)
      (pcd : PointCloud) :
  P (AddGeometry pcd) -> P PollEvents -> P UpdateRenderer ->
  P (ConvertFromPinhole bp) -> (forall name, P (CtrCall name)) ->
  Forall P (seed_events env bp pcd).
Proof.
  intros Ha Hp Hu Hc Hn. unfold seed_events, clip_events.
  apply Forall_app; split; [by repeat constructor|].
  apply Forall_app; split; [by apply pump_events_all|].
  apply Forall_app; split; [by repeat constructor|].
  apply Forall_app; split; [|by apply pump_events_all].
  apply Forall_app; split.
  - destruct (ctr_has env "set_constant_z_near"); by repeat constructor.
  - destruct (ctr_has env "set_constant_z_far"); by repeat constructor.
Qed.

Section Entry.

Context (env : Env).

Lemma find_seed_None (cfg : CFG) (files : list string) :
  find_seed env cfg files = None <->
  Forall (fun ply => is_empty (read_point_cloud env ply) = true) files.
Proof.
  induction files as [|sp rest IH]; cbn [find_seed]; [by split|].
  destruct (is_empty (read_point_cloud env sp)) eqn:E.
  - rewrite IH. split; [by constructor|by inversion 1].
  - split; [done|]. inversion 1; congruence.
Qed.

Lemma find_seed_Some (cfg : CFG) (files : list string) (sp : string) (pcd : PointCloud) :
  find_seed env cfg files = Some (sp, pcd) ->
  exists pre post,
    files = pre ++ sp :: post /\
    Forall (fun ply => is_empty (read_point_cloud env ply) = true) pre /\
    is_empty (read_point_cloud env sp) = false /\
    pcd = _ensure_colors (maybe_voxel env cfg (read_point_cloud env sp)).
Proof.
  induction files as [|f rest IH]; cbn [find_seed]; [done|].
  destruct (is_empty (read_point_cloud env f)) eqn:E.
  - intros H. destruct (IH H) as (pre & post & -> & Hpre & He & Hp).
    exists (f :: pre), post. split; [done|]. split; [by constructor|done].
  - intros [= <- <-]. exists [], rest. by repeat split.
Qed.


Variables (cfg : CFG) (bp : PinholeCameraParameters) (view_w view_h : Z)
          (rc : option Vec3).

Let cfg' : CFG := set_canvas view_w view_h cfg.
Let listing : list string := sorted (path_leb env) (glob_names env).

(** The shape of every run of [main] that gets past its input checks. *)
Lemma run_shape (w : World) (r : Res unit) (w' : World) :
  glob_names env <> [] ->
  fst (_load_view env w) = Ok (bp, (view_w, view_h), rc) ->
  main env cfg w = (r, w') ->
  exists start,
    0 <= start /\ resume_start env cfg' w = (Ok start, w) /\
    match find_seed env cfg' (select_files cfg' start listing) with
    | None =>
        r = Raise (SystemExit "All PLY files were empty; nothing to render.") /\
        new_events w w' = [CreateWindow view_w view_h; SetBackground black_bg] /\
        resume_text w' = resume_text w /\ out_files w' = out_files w /\
        empty_log w' = empty_log w
    | Some (_, pcd_draw) =>
        exists loop_evs,
          new_events w w'
          = [CreateWindow view_w view_h; SetBackground black_bg]
              ++ seed_events env bp pcd_draw ++ loop_evs
              ++ match r with Ok _ => [DestroyWindow] | Raise _ => [] end /\
          Forall (loop_call bp) loop_evs
    end.
Proof.
  intros Hne Hv Hrun.
  assert (Hne' : listing <> []) by (subst listing; by rewrite sorted_nil).
  assert (Hv' : _load_view env w = (Ok (bp, (view_w, view_h), rc), w)).
  { destruct (_load_view env w) as [rv wv] eqn:E. cbn [fst] in Hv. subst rv.
    by rewrite (_load_view_pure env _ _ _ E). }
  destruct (resume_start_run env cfg' w) as (start & Hs & Hpos).
  exists start. split; [done|]. split; [done|].
  rewrite (main_unfold env cfg w bp view_w view_h rc start Hne' Hv' Hs) in Hrun.
  cbv zeta in Hrun. fold cfg' listing in Hrun.
  destruct (find_seed env cfg' (select_files cfg' start listing)) as [[sp pcd]|].
  - destruct (main_loop env cfg' bp rc start 0 _ _) as [rl wl] eqn:El.
    destruct (emits_main_loop env _ _ _ _ _ _ _ _ _ El) as (loop_evs & Ht & Hall).
    exists loop_evs. split; [|done].
    apply new_events_app.
    cbn [trace add_events startup_world set_render_option] in Ht.
    destruct rl as [[]|e]; injection Hrun as <- <-.
    + cbn [trace add_events]. rewrite Ht. by rewrite <- !app_assoc.
    + rewrite Ht, app_nil_r. by rewrite <- !app_assoc.
  - injection Hrun as <- <-. split; [done|]. split; [|done].
    by apply new_events_app.
Qed.

(** X16: when every selected file holds an empty cloud (or no file is
    selected) [main] exits with SystemExit after opening the window and
    setting the render option: the window is not closed again, no geometry
    is added, and the resume file, the outputs and the log are
    untouched. *)
Theorem nothing_to_render (w : World) :
  glob_names env <> [] ->
  fst (_load_view env w) = Ok (bp, (view_w, view_h), rc) ->
  (forall start ply,
      fst (resume_start env cfg' w) = Ok start ->
      ply ∈ select_files cfg' start listing ->
      is_empty (read_point_cloud env ply) = true) ->
  exists w',
    main env cfg w
    = (Raise (SystemExit "All PLY files were empty; nothing to render."), w') /\
    new_events w w' = [CreateWindow view_w view_h; SetBackground black_bg] /\
    resume_text w' = resume_text w /\ out_files w' = out_files w /\
    empty_log w' = empty_log w.
Proof.
  intros Hne Hv Hall.
  destruct (main env cfg w) as [r w'] eqn:Hrun.
  destruct (run_shape w r w' Hne Hv Hrun) as (start & _ & Hs & Hshape).
  assert (Hnone : find_seed env cfg' (select_files cfg' start listing) = None).
  { apply find_seed_None, Forall_forall. intros ply Hp.
    apply (Hall start); [by rewrite Hs|done]. }
  rewrite Hnone in Hshape. destruct Hshape as (-> & Hrest). by exists w'.
Qed.

(** X17: a resume file that points at or past the end of the listing,
    as the one a completed batch leaves behind, makes the next run exit
    with the SystemExit of an all-empty input, after opening the window,
    without rendering or writing anything. *)
Theorem resume_past_end_exits (w : World) (s : string) (n : Z) :
  glob_names env <> [] ->
  fst (_load_view env w) = Ok (bp, (view_w, view_h), rc) ->
  use_resume cfg = true ->
  resume_text w = Content s -> py_int env s = Some n ->
  Z.of_nat (length (glob_names env)) <= n ->
  exists w',
    main env cfg w
    = (Raise (SystemExit "All PLY files were empty; nothing to render."), w') /\
    new_events w w' = [CreateWindow view_w view_h; SetBackground black_bg] /\
    resume_text w' = resume_text w /\ out_files w' = out_files w /\
    empty_log w' = empty_log w.
Proof.
  intros Hne Hv Hu Hr Hp Hlen.
  destruct (main env cfg w) as [r w'] eqn:Hrun.
  destruct (run_shape w r w' Hne Hv Hrun) as (start & _ & Hs & Hshape).
  assert (Hstart : start = n).
  { unfold resume_start in Hs. subst cfg'. cbn [use_resume set_canvas] in Hs.
    rewrite Hu in Hs. unfold bind in Hs. rewrite _read_resume_run, Hr, Hp in Hs.
    replace (0 <=? n) with true in Hs by lia. unfold ret in Hs. congruence. }
  subst start.
  assert (Hnil : select_files cfg' n listing = []).
  { unfold select_files.
    rewrite drop_ge by (subst listing; rewrite sorted_length; lia).
    destruct (0 <? max_files cfg'); [apply take_nil|done]. }
  rewrite Hnil in Hshape. cbn [find_seed] in Hshape.
  destruct Hshape as (-> & Hrest). by exists w'.
Qed.

(** X18: a run that gets past its input checks opens exactly one
    window, first of all its calls, with the width and height of the
    camera descriptor (not those of the configuration); the window is
    closed, as the last call, exactly when the run completes: a run that
    ends with an exception leaves it open. *)
Theorem window_lifecycle (w : World) (r : Res unit) (w' : World) :
  glob_names env <> [] ->
  fst (_load_view env w) = Ok (bp, (view_w, view_h), rc) ->
  main env cfg w = (r, w') ->
  exists evs,
    new_events w w'
    = CreateWindow view_w view_h :: evs
        ++ match r with Ok _ => [DestroyWindow] | Raise _ => [] end /\
    Forall (fun e => ~ is_window_call e) evs.
Proof.
  intros Hne Hv Hrun.
  destruct (run_shape w r w' Hne Hv Hrun) as (start & _ & _ & Hshape).
  destruct (find_seed env cfg' (select_files cfg' start listing)) as [[sp pcd]|].
  - destruct Hshape as (loop_evs & Hev & Hall).
    exists (SetBackground black_bg :: seed_events env bp pcd ++ loop_evs).
    split; [rewrite Hev; cbn [app]; by rewrite <- app_assoc|].
    constructor; [by intros []|]. apply Forall_app; split.
    + apply seed_events_all; try (by intros []); by intros ? [].
    + eapply Forall_impl; [exact Hall|]. by intros [] ? ?.
  - destruct Hshape as (-> & Hev & _). exists [SetBackground black_bg].
    split; [by rewrite Hev|]. constructor; [by intros []|constructor].
Qed.

End Entry.


(* ===================================================================== *)
(** * Camera, geometry and inputs *)
(* ===================================================================== *)

Section Lifecycle.

Context (env : Env).
Variables (cfg : CFG) (bp : PinholeCameraParameters) (view_w view_h : Z)
          (rc : option Vec3).

(** X19: every camera the run applies, after seeding and before each
    frame, is the camera of the descriptor. *)
Theorem camera_locked (w : World) (r : Res unit) (w' : World) :
  glob_names env <> [] ->
  fst (_load_view env w) = Ok (bp, (view_w, view_h), rc) ->
  main env cfg w = (r, w') ->
  Forall (camera_is bp) (new_events w w').
Proof.
  intros Hne Hv Hrun.
  destruct (run_shape env cfg bp view_w view_h rc w r w' Hne Hv Hrun)
    as (start & _ & _ & Hshape).
  destruct (find_seed env _ _) as [[sp pcd]|].
  - destruct Hshape as (loop_evs & -> & Hall).
    apply Forall_app; split; [by repeat constructor|].
    apply Forall_app; split; [by apply seed_events_all|].
    apply Forall_app; split.
    + eapply Forall_impl; [exact Hall|]. by intros [].
    + destruct r; by repeat constructor.
  - destruct Hshape as (_ & -> & _). by repeat constructor.
Qed.

(** X20: a run adds a geometry at most once: none when it exits for lack
    of a non-empty cloud, and otherwise exactly one, right after the render
    option is set, holding the first selected cloud that is not empty
    (downsampled and coloured); every later frame updates that geometry
    instead of adding one. *)
Theorem geometry_added_once (w : World) (r : Res unit) (w' : World) :
  glob_names env <> [] ->
  fst (_load_view env w) = Ok (bp, (view_w, view_h), rc) ->
  main env cfg w = (r, w') ->
  Forall (fun e => ~ is_add_geometry e) (new_events w w') /\
  r = Raise (SystemExit "All PLY files were empty; nothing to render.")
  \/
  exists start sp pre post rest,
    fst (resume_start env (set_canvas view_w view_h cfg) w) = Ok start /\
    select_files (set_canvas view_w view_h cfg) start
                 (sorted (path_leb env) (glob_names env)) = pre ++ sp :: post /\
    Forall (fun ply => is_empty (read_point_cloud env ply) = true) pre /\
    is_empty (read_point_cloud env sp) = false /\
    new_events w w'
    = [CreateWindow view_w view_h; SetBackground black_bg;
       AddGeometry (_ensure_colors
                      (maybe_voxel env (set_canvas view_w view_h cfg)
                                   (read_point_cloud env sp)))] ++ rest /\
    Forall (fun e => ~ is_add_geometry e) rest.
Proof.
  intros Hne Hv Hrun.
  destruct (run_shape env cfg bp view_w view_h rc w r w' Hne Hv Hrun)
    as (start & _ & Hs & Hshape).
  destruct (find_seed env _ _) as [[sp pcd]|] eqn:Eseed.
  - right. destruct Hshape as (loop_evs & Hev & Hall).
    apply find_seed_Some in Eseed as (pre & post & Hfiles & Hpre & Hsp & ->).
    exists start, sp, pre, post. eexists. rewrite Hs. split; [done|].
    split; [exact Hfiles|]. split; [done|]. split; [done|].
    split; [rewrite Hev; unfold seed_events; cbn [app]; reflexivity|].
    apply Forall_app; split.
    { apply Forall_app; split; [apply pump_events_all; by intros []|].
      constructor; [by intros []|].
      apply Forall_app; split; [|apply pump_events_all; by intros []].
      unfold clip_events. apply Forall_app; split.
      - destruct (ctr_has env "set_constant_z_near"); repeat constructor; by intros [].
      - destruct (ctr_has env "set_constant_z_far"); repeat constructor; by intros []. }
    apply Forall_app; split.
    + eapply Forall_impl; [exact Hall|]. by intros [] ? ?.
    + destruct r; repeat constructor; by intros [].
  - left. destruct Hshape as (-> & -> & _). split; [|done].
    repeat constructor; by intros [].
Qed.

End Lifecycle.

Section Inputs.

Context (env : Env).

(** X21: what [_write_resume n] writes, [_read_resume] reads back: after
    a write that goes through, of an [n >= 0] whose decimal text [int]
    parses, reading gives [n] and a run with resume enabled starts at
    [n]. *)
Theorem resume_round_trip (cfg : CFG) (n : Z) (w : World) :
  use_resume cfg = true -> 0 <= n ->
  io_fails env (trace w) = false ->
  py_int env (py_str n) = Some n ->
  exists w',
    _write_resume env n w = (Ok tt, w') /\
    _read_resume env w' = (Ok (Some n), w') /\
    resume_start env cfg w' = (Ok n, w').
Proof.
  intros Hu Hn Hio Hp. exists (resumed env n w).
  split; [apply _write_resume_run|].
  assert (Hr : _read_resume env (resumed env n w) = (Ok (Some n), resumed env n w)).
  { rewrite _read_resume_run, resumed_text, Hio. cbn [negb]. by rewrite Hp. }
  split; [exact Hr|].
  unfold resume_start. rewrite Hu. unfold bind. rewrite Hr.
  by replace (0 <=? n) with true by lia.
Qed.

(** X22: with a positive [max_files] the run visits at most that many
    files: at most [max_files] are selected, the resume pointer is updated
    at most [max_files] times, and every new image belongs to one of the
    [max_files] files that follow the start index in the listing. *)
Theorem max_files_cap (cfg : CFG) (bp : PinholeCameraParameters) (rc : option Vec3)
        (start : Z) (listing : list string) (w : World) (r : Res unit) (w' : World) :
  0 < max_files cfg ->
  main_loop env cfg bp rc start 0 (select_files cfg start listing) w = (r, w') ->
  (length (select_files cfg start listing) <= Z.to_nat (max_files cfg))%nat /\
  (length (resume_writes (new_events w w')) <= Z.to_nat (max_files cfg))%nat /\
  (forall name img,
      out_files w' !! name = Some img -> out_files w !! name = None ->
      exists (j : nat) (ply : string),
        (j < Z.to_nat (max_files cfg))%nat /\
        listing !! (Z.to_nat start + j)%nat = Some ply /\ name = out_name ply).
Proof.
  intros Hcap Hrun.
  assert (Hlen : (length (select_files cfg start listing) <= Z.to_nat (max_files cfg))%nat).
  { unfold select_files. replace (0 <? max_files cfg) with true by lia.
    rewrite length_take. lia. }
  split; [exact Hlen|]. split.
  - destruct (main_loop_run env _ _ _ _ _ _ _ _ _ Hrun) as (evs & n & Ht & Hn & _ & Hw & _).
    rewrite (new_events_app _ _ _ Ht).
    apply (f_equal length) in Hw. rewrite length_map in Hw. rewrite Hw.
    unfold consecutive. rewrite length_map, length_seq. lia.
  - intros name img Hsome Hnone.
    destruct (main_loop_new_outputs env _ _ _ _ _ _ _ _ _ Hrun _ _ Hsome)
      as [H|(_ & ply & Hin & ->)]; [congruence|].
    apply list_elem_of_lookup in Hin as [j Hj].
    exists j, ply. split; [|split; [by eapply select_files_lookup|done]].
    apply lookup_lt_Some in Hj. lia.
Qed.


End Inputs.

Section Geometry.

Context (env : Env).
Variables (cfg : CFG) (bp : PinholeCameraParameters) (rc : option Vec3) (start : Z).

Lemma geometry_of_mono (files files' : list string) (e : Event) :
  (forall ply, ply ∈ files -> ply ∈ files') ->
  geometry_of env cfg rc files e -> geometry_of env cfg rc files' e.
Proof.
  intros Hsub. destruct e; try done. intros (ply & Hin & He & ->).
  exists ply. auto.
Qed.

Lemma emits_geometry_frame (k : nat) (ply : string) :
  emits (geometry_of env cfg rc [ply]) (frame_body env cfg bp rc start k ply).
Proof.
  unfold frame_body.
  apply emits_bind; [intros w r w' [= <- <-]; exists []; by rewrite app_nil_r|intros e].
  apply emits_if; [by apply emits_write_resume|].
  destruct (is_empty (read_point_cloud env ply)) eqn:Ee; [by apply emits_write_resume|].
  apply emits_bind.
  { apply emits_emit. exists ply. split; [left|done]. }
  intros _.
  apply emits_bind; [by apply emits_emit|intros _].
  apply emits_bind; [by apply emits_clipping|intros _].
  apply emits_bind.
  { eapply emits_weaken; [|apply emits_extract]. by intros []. }
  intros [rgb8 alpha]. eapply emits_weaken; [|apply emits_finish]. by intros [].
Qed.

Lemma frame_geometry_coloured (ply : string) :
  let g := frame_geometry env cfg rc ply in
  let src := maybe_voxel env cfg (read_point_cloud env ply) in
  length (colors g) = length (points g) /\
  length (points g) = length (points src) /\
  colors g = colors (_ensure_colors src) /\
  (translate_to_ref_center cfg = false \/ rc = None -> g = _ensure_colors src).
Proof.
  intros g src. subst g. unfold frame_geometry. fold src.
  destruct (_ensure_colors_lengths src) as (Hp & Hc).
  assert (Ht : forall t p, length (points (translate t p)) = length (points p) /\
                           colors (translate t p) = colors p).
  { intros [[tx ty] tz] p. unfold translate. cbn [points colors]. by rewrite length_map. }
  unfold maybe_translate. destruct rc as [c|].
  - destruct (translate_to_ref_center cfg).
    + destruct (Ht (vec_sub c (get_center env (_ensure_colors src))) (_ensure_colors src))
        as [Hl Hcol].
      rewrite Hl, Hcol, Hc, Hp. repeat split; try done. by intros [|].
    + rewrite Hc, Hp. by repeat split.
  - rewrite Hc, Hp. by repeat split.
Qed.

(** X24: every geometry the loop hands to the renderer is the cloud of
    one of its files, non-empty when read, with exactly one colour per
    point; recentring moves the points only, the colours are those
    [_ensure_colors] gave. *)
Theorem geometry_updates_coloured (files : list string) (k : nat) (w : World)
        (r : Res unit) (w' : World) :
  main_loop env cfg bp rc start k files w = (r, w') ->
  Forall (fun e => match e with
                   | UpdateGeometry g =>
                       length (colors g) = length (points g) /\
                       exists ply,
                         ply ∈ files /\ is_empty (read_point_cloud env ply) = false /\
                         g = frame_geometry env cfg rc ply /\
                         colors g = colors (_ensure_colors
                                              (maybe_voxel env cfg (read_point_cloud env ply)))
                   | _ => True
                   end) (new_events w w').
Proof.
  intros Hrun.
  assert (Hem : forall files k, emits (geometry_of env cfg rc files)
                                      (main_loop env cfg bp rc start k files)).
  { clear. intros files. induction files as [|ply rest IH]; intros k; cbn [main_loop].
    - apply emits_ret.
    - apply emits_bind.
      + eapply emits_weaken; [|apply emits_geometry_frame].
        intros e. apply geometry_of_mono. intros p Hp.
        apply list_elem_of_singleton in Hp as ->. left.
      + intros _. eapply emits_weaken; [|apply IH].
        intros e. apply geometry_of_mono. intros p Hp. by right. }
  destruct (Hem files k _ _ _ Hrun) as (evs & Ht & Hall).
  rewrite (new_events_app _ _ _ Ht).
  eapply Forall_impl; [exact Hall|]. intros [] He; try done.
  destruct He as (ply & Hin & Hne & ->).
  destruct (frame_geometry_coloured ply) as (Hc & _ & Hcol & _).
  split; [exact Hc|]. by exists ply.
Qed.

End Geometry.

(** X25: for a colour image and a mask of the same shape, the image that
    is saved has the mask as its alpha channel, the brightened colour as
    its colour channels, and the same shape. *)
Theorem rgba_channels (b : spec_float) (rgb8 : Rgb8) (alpha : Alpha) :
  same_shape rgb8 alpha ->
  let rgba := np_dstack (apply_brightness b rgb8) alpha in
  map2d alpha_of rgba = alpha /\
  map2d rgb_of rgba = apply_brightness b rgb8 /\
  same_shape rgba alpha.
Proof.
  intros Hs.
  assert (Hs' : same_shape (apply_brightness b rgb8) alpha).
  { unfold apply_brightness. destruct (negb _); [|done].
    unfold same_shape, map2d in *. rewrite <- Hs, map_map.
    apply map_ext. intros row. by rewrite length_map. }
  generalize dependent (apply_brightness b rgb8). clear. intros c Hs.
  unfold same_shape, map2d, np_dstack in *. cbv zeta.
  revert alpha Hs. induction c as [|rc c IH]; intros [|ra alpha] Hs; try done.
  cbn [map zip_with] in *. injection Hs as Hrow Hrest.
  destruct (IH _ Hrest) as (IHa & IHc & IHs). rewrite IHa, IHc, IHs.
  assert (Hr : map alpha_of (zip_with (fun (c0 : Z * Z * Z) (a : Z) =>
                                         let '(r, g, b) := c0 in (r, g, b, a)) rc ra) = ra /\
               map rgb_of (zip_with (fun (c0 : Z * Z * Z) (a : Z) =>
                                       let '(r, g, b) := c0 in (r, g, b, a)) rc ra) = rc /\
               length (zip_with (fun (c0 : Z * Z * Z) (a : Z) =>
                                   let '(r, g, b) := c0 in (r, g, b, a)) rc ra) = length ra).
  { clear -Hrow. revert ra Hrow. induction rc as [|[[r g] b0] rc IH]; intros [|a ra] Hrow;
      try done.
    cbn [zip_with map length alpha_of rgb_of] in *. injection Hrow as Hrow.
    destruct (IH _ Hrow) as (-> & -> & ->). done. }
  destruct Hr as (-> & -> & ->). done.
Qed.


(* ===================================================================== *)
(** * The capture tool *)
(* ===================================================================== *)

Section Capture.

Import CaptureView.

Context (env : Env).

(** X26: the descriptor that the capture tool saves is read back by the
    batch renderer as the very camera that was saved, with that camera's
    width and height as canvas size and the capture cloud's centre as
    reference centre. *)
Theorem saved_view_loads (ref_center : Vec3) (params : PinholeCameraParameters) (w : World) :
  view env = Some (view_data ref_center params) ->
  _load_view env w
  = (Ok (params, (intr_width params, intr_height params), Some ref_center), w).
Proof.
  intros Hv. unfold _load_view. rewrite Hv. by destruct params.
Qed.

Lemma run_idle (rc : Vec3) (mid tail : list Press) (file : option ViewJson) :
  Forall idle mid -> run rc (mid ++ tail) file = run rc tail file.
Proof.
  induction 1 as [|p mid Hp _ IH]; [done|]. cbn [app run]. by rewrite Hp.
Qed.

Lemma run_harmless (rc : Vec3) (pre : list Press) (cam : PinholeCameraParameters)
      (tail : list Press) (file : option ViewJson) :
  Forall harmless pre ->
  run rc (pre ++ {| key := KeyS; camera := cam; write_fails := false |} :: tail) file
  = run rc tail (Some (view_data rc cam)).
Proof.
  intros H. revert file. induction H as [|p pre Hp _ IH]; intros file; [done|].
  cbn [app run]. destruct Hp as [->|[-> ->]]; apply IH.
Qed.


End Capture.


(* ===================================================================== *)
(** * The wider properties on the headless double *)
(* ===================================================================== *)

Module Cases.

Import Double.

Lemma stem_of_suffixed_witness :
  stem "cloud.v2.ply" = "cloud.v2" /\ out_name "cloud.v2.ply" = "cloud.v2.png".
Proof.
  apply (stem_of_suffixed "cloud.v2" "ply"); [discriminate|discriminate|reflexivity].
Defined.

Lemma stem_without_suffix_witness :
  stem "README" = "README" /\ stem ".README" = ".README".
Proof. apply (stem_without_suffix "README"). reflexivity. Defined.

Lemma depth_capture_exception_propagates_witness :
  exists w',
    frame_body env_capture_raises cfg0 params0 None 0 0 "a.ply" w0
    = (Raise (PyException "RuntimeError"), w') /\
    (forall rest,
        main_loop env_capture_raises cfg0 params0 None 0 0 ("a.ply" :: rest) w0
        = (Raise (PyException "RuntimeError"), w')) /\
    resume_writes (new_events w0 w') = [] /\
    resume_text w' = resume_text w0 /\ out_files w' = out_files w0 /\
    empty_log w' = empty_log w0.
Proof.
  apply (depth_capture_exception_propagates env_capture_raises cfg0 params0 None 0 0
           "a.ply" w0 (PyException "RuntimeError")).
  - vm_compute. reflexivity.
  - reflexivity.
  - left. vm_compute. reflexivity.
Defined.

Lemma empty_cloud_skipped_witness :
  frame_body (env_empty frames3) cfg0 params0 None 0 1 "b.ply" w0
  = (Ok tt, resumed (env_empty frames3) 2 w0) /\
  new_events w0 (resumed (env_empty frames3) 2 w0) = [WriteResume 2 true] /\
  empty_log (resumed (env_empty frames3) 2 w0) = empty_log w0 /\
  out_files (resumed (env_empty frames3) 2 w0) = out_files w0 /\
  background_color (resumed (env_empty frames3) 2 w0) = background_color w0.
Proof.
  apply (empty_cloud_skipped (env_empty frames3) cfg0 params0 None 0 1 "b.ply" w0).
  - vm_compute. reflexivity.
  - reflexivity.
Defined.


Lemma save_failure_propagates_witness :
  frame_body (env_lit_readonly frames3) cfg0 params0 None 0 1 "b.ply" w0
  = (Raise (PyException "OSError"),
     add_events [SavePng "b.png" false]
       (snd (extract_alpha (env_lit_readonly frames3) cfg0
               (extraction_start (env_lit_readonly frames3) cfg0 params0 None "b.ply" w0)))) /\
  resume_text
    (add_events [SavePng "b.png" false]
       (snd (extract_alpha (env_lit_readonly frames3) cfg0
               (extraction_start (env_lit_readonly frames3) cfg0 params0 None "b.ply" w0))))
  = Absent.
Proof.
  destruct (save_failure_propagates (env_lit_readonly frames3) cfg0 params0 None 0 1 "b.ply"
              w0
              (snd (extract_alpha (env_lit_readonly frames3) cfg0
                      (extraction_start (env_lit_readonly frames3) cfg0 params0 None
                                        "b.ply" w0)))
              [[(0, 0, 0); (0, 0, 0)]] [[255; 0]] 255) as (H1 & _ & _ & H2 & _);
    try (vm_compute; reflexivity); [discriminate|].
  split; [exact H1|exact H2].
Defined.

Lemma outputs_never_overwritten_witness :
  out_files (snd (main_loop (env_lit frames3) cfg0 params0 None 0 0 ["a.ply"; "b.ply"] w_done))
    !! "a.png" = Some [].
Proof.
  apply (proj1 (outputs_never_overwritten (env_lit frames3) cfg0 params0 None 0
                  ["a.ply"; "b.ply"] 0 w_done (Ok tt)
                  (snd (main_loop (env_lit frames3) cfg0 params0 None 0 0
                          ["a.ply"; "b.ply"] w_done))
                  ltac:(vm_compute; reflexivity))).
  vm_compute. reflexivity.
Defined.

Lemma empty_log_append_only_witness :
  exists lines,
    empty_log (snd (main_loop (env_dark magenta32 never) cfg0 params0 None 0 0 ["a.ply"] w0))
    = empty_log w0 ++ lines /\
    (length lines <= 1)%nat /\
    Forall (fun line => exists (j : nat) (ply : string),
                ["a.ply"] !! j = Some ply /\
                line = empty_frame_msg (0 + Z.of_nat (0 + j)) ply) lines.
Proof.
  apply (empty_log_append_only (env_dark magenta32 never) cfg0 params0 None 0 ["a.ply"] 0
           w0 (Ok tt)).
  vm_compute. reflexivity.
Defined.

Lemma rerun_skips_everything_witness :
  exists w',
    main_loop (env_lit frames3) cfg0 params0 None 0 0 ["a.ply"] w_done = (Ok tt, w') /\
    Forall is_resume_write (new_events w_done w') /\
    map fst (resume_writes (new_events w_done w')) = consecutive (0 + Z.of_nat 0 + 1) 1 /\
    out_files w' = out_files w_done /\ empty_log w' = empty_log w_done /\
    background_color w' = background_color w_done.
Proof.
  apply (rerun_skips_everything (env_lit frames3) cfg0 params0 None 0 ["a.ply"] 0 w_done).
  intros ply Hin. apply list_elem_of_singleton in Hin. subst ply.
  eexists. vm_compute. reflexivity.
Defined.

Lemma nothing_to_render_witness :
  exists w',
    main (env_empty frames3) cfg0 w0
    = (Raise (SystemExit "All PLY files were empty; nothing to render."), w') /\
    new_events w0 w' = [CreateWindow 2 1; SetBackground black_bg] /\
    resume_text w' = resume_text w0 /\ out_files w' = out_files w0 /\
    empty_log w' = empty_log w0.
Proof.
  apply (nothing_to_render (env_empty frames3) cfg0 params0 2 1 None w0).
  - discriminate.
  - vm_compute. reflexivity.
  - intros start ply _ _. reflexivity.
Defined.

Lemma resume_past_end_exits_witness :
  exists w',
    main (env_lit frames3) (with_resume cfg0) (w_resume "3")
    = (Raise (SystemExit "All PLY files were empty; nothing to render."), w') /\
    new_events (w_resume "3") w' = [CreateWindow 2 1; SetBackground black_bg] /\
    resume_text w' = resume_text (w_resume "3") /\
    out_files w' = out_files (w_resume "3") /\
    empty_log w' = empty_log (w_resume "3").
Proof.
  apply (resume_past_end_exits (env_lit frames3) (with_resume cfg0) params0 2 1 None
           (w_resume "3") "3" 3).
  - discriminate.
  - vm_compute. reflexivity.
  - reflexivity.
  - reflexivity.
  - vm_compute. reflexivity.
  - vm_compute. discriminate.
Defined.

Lemma window_lifecycle_witness :
  exists evs,
    new_events w0 (snd (main (env_lit frames3) cfg0 w0))
    = CreateWindow 2 1 :: evs ++ [DestroyWindow] /\
    Forall (fun e => ~ is_window_call e) evs.
Proof.
  apply (window_lifecycle (env_lit frames3) cfg0 params0 2 1 None w0 (Ok tt)).
  - discriminate.
  - vm_compute. reflexivity.
  - vm_compute. reflexivity.
Defined.

Lemma camera_locked_witness :
  Forall (camera_is params0) (new_events w0 (snd (main (env_lit frames3) cfg0 w0))).
Proof.
  apply (camera_locked (env_lit frames3) cfg0 params0 2 1 None w0 (Ok tt)).
  - discriminate.
  - vm_compute. reflexivity.
  - vm_compute. reflexivity.
Defined.

Lemma geometry_added_once_witness :
  exists start sp pre post rest,
    fst (resume_start (env_lit frames3) (set_canvas 2 1 cfg0) w0) = Ok start /\
    select_files (set_canvas 2 1 cfg0) start (sorted String.leb frames3)
    = pre ++ sp :: post /\
    Forall (fun ply => is_empty (read_point_cloud (env_lit frames3) ply) = true) pre /\
    is_empty (read_point_cloud (env_lit frames3) sp) = false /\
    new_events w0 (snd (main (env_lit frames3) cfg0 w0))
    = [CreateWindow 2 1; SetBackground black_bg;
       AddGeometry (_ensure_colors
                      (maybe_voxel (env_lit frames3) (set_canvas 2 1 cfg0)
                                   (read_point_cloud (env_lit frames3) sp)))] ++ rest /\
    Forall (fun e => ~ is_add_geometry e) rest.
Proof.
  destruct (geometry_added_once (env_lit frames3) cfg0 params0 2 1 None w0 (Ok tt)
              (snd (main (env_lit frames3) cfg0 w0))) as [[_ H]|H].
  - discriminate.
  - vm_compute. reflexivity.
  - vm_compute. reflexivity.
  - discriminate H.
  - exact H.
Defined.

Lemma resume_round_trip_witness :
  exists w',
    _write_resume (env_lit frames3) 7 w0 = (Ok tt, w') /\
    _read_resume (env_lit frames3) w' = (Ok (Some 7), w') /\
    resume_start (env_lit frames3) (with_resume cfg0) w' = (Ok 7, w').
Proof.
  apply (resume_round_trip (env_lit frames3) (with_resume cfg0) 7 w0).
  - reflexivity.
  - lia.
  - reflexivity.
  - vm_compute. reflexivity.
Defined.

Lemma max_files_cap_witness :
  (length (select_files (capped 2 cfg0) 0 (sorted String.leb frames3)) <= 2)%nat /\
  (length (resume_writes
             (new_events w0
                (snd (main_loop (env_lit frames3) (capped 2 cfg0) params0 None 0 0
                        (select_files (capped 2 cfg0) 0 (sorted String.leb frames3)) w0))))
   <= 2)%nat.
Proof.
  destruct (max_files_cap (env_lit frames3) (capped 2 cfg0) params0 None 0
              (sorted String.leb frames3) w0 (Ok tt)
              (snd (main_loop (env_lit frames3) (capped 2 cfg0) params0 None 0 0
                      (select_files (capped 2 cfg0) 0 (sorted String.leb frames3)) w0)))
    as (H1 & H2 & _).
  - reflexivity.
  - vm_compute. reflexivity.
  - split; [exact H1|exact H2].
Defined.


Lemma geometry_updates_coloured_witness :
  Forall (fun e => match e with
                   | UpdateGeometry g =>
                       length (colors g) = length (points g) /\
                       exists ply,
                         ply ∈ frames3 /\
                         is_empty (read_point_cloud (env_lit frames3) ply) = false /\
                         g = frame_geometry (env_lit frames3) cfg0 None ply /\
                         colors g
                         = colors (_ensure_colors
                                     (maybe_voxel (env_lit frames3) cfg0
                                        (read_point_cloud (env_lit frames3) ply)))
                   | _ => True
                   end)
         (new_events w0 (snd (main_loop (env_lit frames3) cfg0 params0 None 0 0 frames3 w0))).
Proof.
  apply (geometry_updates_coloured (env_lit frames3) cfg0 params0 None 0 frames3 0 w0
           (Ok tt)).
  vm_compute. reflexivity.
Defined.

Lemma rgba_channels_witness :
  map2d alpha_of (np_dstack (apply_brightness f64_1 [[(1, 2, 3); (4, 5, 6)]]) [[255; 0]])
  = [[255; 0]] /\
  map2d rgb_of (np_dstack (apply_brightness f64_1 [[(1, 2, 3); (4, 5, 6)]]) [[255; 0]])
  = apply_brightness f64_1 [[(1, 2, 3); (4, 5, 6)]] /\
  same_shape (np_dstack (apply_brightness f64_1 [[(1, 2, 3); (4, 5, 6)]]) [[255; 0]])
             [[255; 0]].
Proof.
  apply (rgba_channels f64_1 [[(1, 2, 3); (4, 5, 6)]] [[255; 0]]). reflexivity.
Defined.

Lemma saved_view_loads_witness :
  _load_view (with_view (CaptureView.view_data black params0) (env_lit frames3)) w0
  = (Ok (params0, (2, 1), Some black), w0).
Proof.
  apply (saved_view_loads (with_view (CaptureView.view_data black params0)
                             (env_lit frames3)) black params0 w0).
  reflexivity.
Defined.

(** A capture session on the double, then the batch renderer on the
    descriptor it left: the camera of the save comes back. *)
Example capture_then_load :
  let cfg := {| CaptureView.ply_path := "a.ply"; CaptureView.width := 1920;
                CaptureView.height := 1080; CaptureView.point_size := f64_1;
                CaptureView.out_view_json := "view.json" |} in
  match CaptureView.main (env_lit frames3) cfg true session None with
  | (Ok _, Some v) =>
      _load_view (with_view v (env_lit frames3)) w0 = (Ok (params0, (2, 1), Some black), w0)
  | _ => False
  end.
Proof. vm_compute. reflexivity. Qed.

End Cases.
